(** * Ensemble price forecasting: [src/lib/predictionModels.ts]

    A shallow embedding of the five component forecasting models and of
    [EnsembleModel], followed by the properties of the specification that
    concern them.

    The code around them follows: [generatePredictionData] of the same
    file, [src/lib/sentimentAnalysis.ts], [src/lib/api.ts],
    [src/lib/transformerModel.ts], and from the chart components
    [fetchDataAndPredict] and the zoom handlers.  There the network, the
    clock and the calendar are parameters of the definitions, and a call
    runs in [Try.E], which adds to the exceptions of the runtime the
    [TypeError] and the [Error] objects the code throws itself.

    Modelling conventions.

    - A JavaScript [number] is a [number]: either a finite value, carried
      as an exact real ([Fin x]), or [NaN].  Rounding and overflow of
      binary64 are not modelled there; the module [Binary64] carries out
      the weighted mean of a day on binary64 numbers, for the one
      statement that rounding decides.  [NaN] also stands for the
      infinities (a division by zero yields [NaN] here) and for
      [undefined] once it meets an arithmetic operator; every operator
      is strict in it.  In the five models and the ensemble a
      non-finite intermediate value never leads back to a finite
      output, so nothing finite is lost by not telling them apart.
    - Integer quantities ([days], loop counters, array lengths and
      indices) are in [Z]; arrays are lists.  An array holds at most
      [2^32 - 1 = 4294967295] elements: [Array(n)] checks it; the lists
      that the loops build by [push] are not checked, and the
      statements about the ensemble keep to horizons of at most
      4294967295 days.
    - [Math.random] draws from an explicit generator: a stream of draws
      (the seed) and a cursor.  The state also counts the element reads
      that fell outside their array (JavaScript answers [undefined] and
      goes on); this counter is ghost state, the code never observes it.
    - A call either returns ([Ok]) or throws ([Throw]); the only
      exception in reach is the [RangeError] of [Array(n)] for an [n]
      that is negative or above [2^32 - 1].
    - The constructor of [TransformerModel] starts an initialisation
      that sets a flag nothing reads; it is left out. *)

From Stdlib Require Import Reals Lra Lia ZArith List String Bool.
From Stdlib Require PrimFloat.
Import ListNotations.

Open Scope R_scope.

(** ** The JavaScript runtime the code relies on *)

Module JS.

Inductive number : Type :=
| Fin (x : R)
| NaN.

Definition lift1 (f : R -> R) (a : number) : number :=
  match a with
  | Fin x => Fin (f x)
  | NaN => NaN
  end.

Definition lift2 (f : R -> R -> R) (a b : number) : number :=
  match a, b with
  | Fin x, Fin y => Fin (f x y)
  | _, _ => NaN
  end.

Definition add : number -> number -> number := lift2 Rplus.
Definition sub : number -> number -> number := lift2 Rminus.
Definition mul : number -> number -> number := lift2 Rmult.

Definition div (a b : number) : number :=
  match a, b with
  | Fin x, Fin y => if Req_dec_T y 0 then NaN else Fin (x / y)
  | _, _ => NaN
  end.

Definition of_Z (z : Z) : number := Fin (IZR z).

Definition len {A : Type} (xs : list A) : Z := Z.of_nat (List.length xs).

(** [xs.slice(-n)]: the last [n] elements, all of them when there are
    fewer. *)
Definition slice_last {A : Type} (n : nat) (xs : list A) : list A :=
  skipn (List.length xs - n) xs.

Definition Math_PI : number := Fin PI.
Definition Math_exp : number -> number := lift1 exp.
Definition Math_sin : number -> number := lift1 sin.
Definition Math_tanh : number -> number := lift1 tanh.
Definition Math_max : number -> number -> number := lift2 Rmax.

Definition Math_sqrt (a : number) : number :=
  match a with
  | Fin x => if Rlt_dec x 0 then NaN else Fin (sqrt x)
  | NaN => NaN
  end.

(** [Math.pow(a, n)] for a literal natural exponent (the code only uses
    2). *)
Definition Math_pow (a : number) (n : nat) : number :=
  lift1 (fun x => x ^ n) a.

(** Generator state and ghost counter. *)
Record world : Type := mkWorld {
  seed : nat -> R;
  cursor : nat;
  oob : nat
}.

Inductive exn : Type := RangeError.

Inductive outcome (A : Type) : Type :=
| Ok (a : A) (w : world)
| Throw (e : exn) (w : world).

Arguments Ok {A} a w.
Arguments Throw {A} e w.

Definition M (A : Type) : Type := world -> outcome A.

Definition ret {A : Type} (a : A) : M A := fun w => Ok a w.

Definition bind {A B : Type} (m : M A) (k : A -> M B) : M B :=
  fun w =>
    match m w with
    | Ok a w' => k a w'
    | Throw e w' => Throw e w'
    end.

Definition throw {A : Type} (e : exn) : M A := fun w => Throw e w.

(** [Math.random()]. *)
Definition Math_random : M number :=
  fun w => Ok (Fin (seed w (cursor w)))
              (mkWorld (seed w) (S (cursor w)) (oob w)).

(** [xs[i]]: the element, or [undefined] (here [NaN], and one more
    out-of-range read on the ghost counter). *)
Definition get (xs : list number) (i : Z) : M number :=
  fun w =>
    if ((0 <=? i)%Z && (i <? len xs)%Z)%bool
    then Ok (nth (Z.to_nat i) xs NaN) w
    else Ok NaN (mkWorld (seed w) (cursor w) (S (oob w))).

(** [Array(n)] for an integer [n]: [n] empty slots, or a [RangeError]
    when [n] is negative or above [2^32 - 1], the greatest length of an
    array. *)
Definition Array_ (n : Z) : M (list number) :=
  if ((n <? 0)%Z || (4294967295 <? n)%Z)%bool then throw RangeError
  else ret (repeat NaN (Z.to_nat n)).

(** [xs.fill(v)]. *)
Definition fill (v : number) (xs : list number) : list number :=
  map (fun _ => v) xs.

(** [xs.map(f)] for an effectful callback, left to right. *)
Fixpoint mapM {A B : Type} (f : A -> M B) (xs : list A) : M (list B) :=
  match xs with
  | [] => ret []
  | x :: xs' =>
      bind (f x) (fun y => bind (mapM f xs') (fun ys => ret (y :: ys)))
  end.

(** [for (const x of xs) acc = body(x, acc)]. *)
Fixpoint for_of {A S : Type} (xs : list A) (body : A -> S -> M S) (acc : S)
  : M S :=
  match xs with
  | [] => ret acc
  | x :: xs' => bind (body x acc) (for_of xs' body)
  end.

Fixpoint for_from {S : Type} (n : nat) (i : Z) (body : Z -> S -> M S)
  (acc : S) : M S :=
  match n with
  | O => ret acc
  | Datatypes.S n' => bind (body i acc) (for_from n' (i + 1)%Z body)
  end.

(** [for (let i = lo; i < hi; i++) acc = body(i, acc)]. *)
Definition for_range {S : Type} (lo hi : Z) (body : Z -> S -> M S) (acc : S)
  : M S :=
  for_from (Z.to_nat (hi - lo)) lo body acc.

End JS.

Import JS.

Declare Scope js_scope.
Delimit Scope js_scope with js.
Bind Scope js_scope with number.

Notation "# x" := (Fin x%R) (at level 1, format "# x") : js_scope.
Infix "+" := add : js_scope.
Infix "-" := sub : js_scope.
Infix "*" := mul : js_scope.
Infix "/" := div : js_scope.
Notation "x <- m ;; k" := (bind m (fun x => k))
  (at level 61, m at next level, right associativity) : js_scope.
Notation "' p <- m ;; k" := (bind m (fun x => match x with p => k end))
  (at level 61, p pattern, m at next level, right associativity) : js_scope.
Notation "xs .[ i ]" := (get xs i%Z) (at level 1, format "xs .[ i ]")
  : js_scope.

Open Scope js_scope.

(** ** The [Model] interface and the five component models *)

Module Model.

Record t : Type := mk {
  name : string;
  predict : list number -> Z -> M (list number);
  confidence : number
}.

End Model.

Module TransformerModel.

Definition calculateTrend (prices : list number) : M number :=
  if (len prices <? 2)%Z then ret #0 else
  let recentPrices := slice_last 14 prices in
  ' (weightedSum, weightSum) <-
    for_range 1 (len recentPrices)
      (fun i '(weightedSum, weightSum) =>
         let weight := Math_exp (#0.1 * of_Z i) in
         p_i <- recentPrices.[i] ;;
         p_prev <- recentPrices.[i - 1] ;;
         p_den <- recentPrices.[i - 1] ;;
         let dailyReturn := (p_i - p_prev) / p_den in
         ret (weightedSum + dailyReturn * weight, weightSum + weight))
      (#0, #0) ;;
  ret (weightedSum / weightSum).

Definition calculateLongRangeTrend (prices : list number) : M number :=
  if (len prices <? 30)%Z then calculateTrend prices else
  let longPrices := slice_last 30 prices in
  firstPrice <- longPrices.[0] ;;
  lastPrice <- longPrices.[len longPrices - 1] ;;
  ret ((lastPrice - firstPrice) / firstPrice / #30).

Definition calculateVolatility (prices : list number) : M number :=
  if (len prices <? 2)%Z then ret #0.02 else
  ' (returns, weights) <-
    for_range 1 (len prices)
      (fun i '(returns, weights) =>
         let weight := Math_exp (#0.1 * of_Z i) in
         p_i <- prices.[i] ;;
         p_prev <- prices.[i - 1] ;;
         p_den <- prices.[i - 1] ;;
         ret (returns ++ [(p_i - p_prev) / p_den], weights ++ [weight]))
      ([], []) ;;
  ' (weightedSum, weightSum) <-
    for_range 0 (len returns)
      (fun i '(weightedSum, weightSum) =>
         r_i <- returns.[i] ;;
         w_i <- weights.[i] ;;
         w_i' <- weights.[i] ;;
         ret (weightedSum + r_i * w_i, weightSum + w_i'))
      (#0, #0) ;;
  let mean := weightedSum / weightSum in
  varianceSum <-
    for_range 0 (len returns)
      (fun i varianceSum =>
         r_i <- returns.[i] ;;
         w_i <- weights.[i] ;;
         ret (varianceSum + Math_pow (r_i - mean) 2 * w_i))
      #0 ;;
  let variance := varianceSum / weightSum in
  ret (Math_sqrt variance).

Definition predict (historicalPrices : list number) (days : Z)
  : M (list number) :=
  lastPrice <- historicalPrices.[len historicalPrices - 1] ;;
  trend <- calculateTrend historicalPrices ;;
  volatility <- calculateVolatility historicalPrices ;;
  longRangeTrend <- calculateLongRangeTrend historicalPrices ;;
  ' (predictions, _) <-
    for_range 0 days
      (fun i '(predictions, lastPrice) =>
         let dayOfWeekEffect :=
           Math_sin ((of_Z (Z.rem i 7) * Math_PI) / #3.5) * #0.002 in
         let momentumFactor := Math_tanh (trend * #10) * #0.005 in
         let trendWeight := Math_max #0.2 (#1 - of_Z i * #0.05) in
         let combinedTrend :=
           trend * trendWeight + longRangeTrend * (#1 - trendWeight) in
         r <- Math_random ;;
         let randomFactor := (r - #0.5) * volatility * #0.4 in
         let prediction :=
           lastPrice *
           (#1 + combinedTrend + dayOfWeekEffect + momentumFactor
            + randomFactor) in
         ret (predictions ++ [prediction], prediction))
      ([], lastPrice) ;;
  ret predictions.

Definition model : Model.t := Model.mk "Transformer" predict #0.45.

End TransformerModel.

Module RandomForestModel.

Definition calculateTrend (prices : list number) : M number :=
  if (len prices <? 10)%Z then ret #0 else
  let recentPrices := slice_last 14 prices in
  firstPrice <- recentPrices.[0] ;;
  lastPrice <- recentPrices.[len recentPrices - 1] ;;
  ret ((lastPrice - firstPrice) / firstPrice / #14).

Definition calculateVolatility (prices : list number) : M number :=
  if (len prices <? 2)%Z then ret #0.02 else
  returns <-
    for_range 1 (len prices)
      (fun i returns =>
         p_i <- prices.[i] ;;
         p_prev <- prices.[i - 1] ;;
         p_den <- prices.[i - 1] ;;
         ret (returns ++ [(p_i - p_prev) / p_den]))
      [] ;;
  let mean :=
    fold_left (fun sum val => sum + val) returns #0 / of_Z (len returns) in
  let variance :=
    fold_left (fun sum val => sum + Math_pow (val - mean) 2) returns #0
    / of_Z (len returns) in
  ret (Math_sqrt variance).

Definition predict (historicalPrices : list number) (days : Z)
  : M (list number) :=
  lastPrice <- historicalPrices.[len historicalPrices - 1] ;;
  v <- calculateVolatility historicalPrices ;;
  let volatility := v * #0.8 in
  trend <- calculateTrend historicalPrices ;;
  ' (predictions, _) <-
    for_range 0 days
      (fun i '(predictions, lastPrice) =>
         r <- Math_random ;;
         let prediction :=
           lastPrice * (#1 + trend + (r - #0.5) * volatility) in
         ret (predictions ++ [prediction], prediction))
      ([], lastPrice) ;;
  ret predictions.

Definition model : Model.t := Model.mk "Random Forest" predict #0.25.

End RandomForestModel.

Module XGBoostModel.

Definition calculateTrend (prices : list number) : M number :=
  if (len prices <? 10)%Z then ret #0 else
  let recentPrices := slice_last 10 prices in
  firstPrice <- recentPrices.[0] ;;
  lastPrice <- recentPrices.[len recentPrices - 1] ;;
  ret ((lastPrice - firstPrice) / firstPrice / #10).

Definition calculateVolatility (prices : list number) : M number :=
  if (len prices <? 2)%Z then ret #0.02 else
  returns <-
    for_range 1 (len prices)
      (fun i returns =>
         p_i <- prices.[i] ;;
         p_prev <- prices.[i - 1] ;;
         p_den <- prices.[i - 1] ;;
         ret (returns ++ [(p_i - p_prev) / p_den]))
      [] ;;
  let mean :=
    fold_left (fun sum val => sum + val) returns #0 / of_Z (len returns) in
  let variance :=
    fold_left (fun sum val => sum + Math_pow (val - mean) 2) returns #0
    / of_Z (len returns) in
  ret (Math_sqrt variance).

Definition predict (historicalPrices : list number) (days : Z)
  : M (list number) :=
  lastPrice <- historicalPrices.[len historicalPrices - 1] ;;
  v <- calculateVolatility historicalPrices ;;
  let volatility := v * #0.9 in
  trend <- calculateTrend historicalPrices ;;
  ' (predictions, _) <-
    for_range 0 days
      (fun i '(predictions, lastPrice) =>
         let dayEffect := Math_sin ((of_Z i * Math_PI) / #7) * #0.005 in
         r <- Math_random ;;
         let prediction :=
           lastPrice * (#1 + trend + dayEffect + (r - #0.5) * volatility) in
         ret (predictions ++ [prediction], prediction))
      ([], lastPrice) ;;
  ret predictions.

Definition model : Model.t := Model.mk "XGBoost" predict #0.2.

End XGBoostModel.

Module SentimentModel.

(** The two fields set by the constructor; [new SentimentModel()] is
    [new_ false #1]. *)
Record t : Type := new_ {
  useSentimentAPI : bool;
  sentimentImpact : number
}.

Definition predict (this : t) (historicalPrices : list number) (days : Z)
  : M (list number) :=
  lastPrice <- historicalPrices.[len historicalPrices - 1] ;;
  let sentimentFactor :=
    if useSentimentAPI this then sentimentImpact this else #1 in
  slots <- Array_ days ;;
  sentimentScores <-
    mapM (fun _ =>
            if useSentimentAPI this then ret #0
            else r <- Math_random ;; ret ((r - #0.4) * #0.02))
         (fill #0 slots) ;;
  ' (predictions, _) <-
    for_range 0 days
      (fun i '(predictions, lastPrice) =>
         dailySentiment <-
           (if useSentimentAPI this then ret (sentimentFactor - #1)
            else sentimentScores.[i]) ;;
         let prediction := lastPrice * (#1 + dailySentiment) in
         ret (predictions ++ [prediction], prediction))
      ([], lastPrice) ;;
  ret predictions.

Definition model (this : t) : Model.t :=
  Model.mk "VADER Sentiment" (predict this) #0.1.

End SentimentModel.

Module BERTModel.

Definition calculateTrend (prices : list number) : M number :=
  if (len prices <? 5)%Z then ret #0 else
  let recentPrices := slice_last 5 prices in
  firstPrice <- recentPrices.[0] ;;
  lastPrice <- recentPrices.[len recentPrices - 1] ;;
  ret ((lastPrice - firstPrice) / firstPrice / #5).

Definition predict (historicalPrices : list number) (days : Z)
  : M (list number) :=
  lastPrice <- historicalPrices.[len historicalPrices - 1] ;;
  trend <- calculateTrend historicalPrices ;;
  ' (predictions, _) <-
    for_range 0 days
      (fun i '(predictions, lastPrice) =>
         r <- Math_random ;;
         let prediction :=
           lastPrice * (#1 + trend * #1.2 + (r - #0.5) * #0.02) in
         ret (predictions ++ [prediction], prediction))
      ([], lastPrice) ;;
  ret predictions.

Definition model : Model.t := Model.mk "BERT NLP" predict #0.1.

End BERTModel.

(** ** The ensemble *)

Module PredictionResult.

Record t : Type := mk {
  predicted : number;
  upperBound : number;
  lowerBound : number;
  confidence : number
}.

End PredictionResult.

(** One entry of the result of [getModelContributions]. *)
Module Contribution.

Record t : Type := mk {
  name : string;
  weight : number
}.

End Contribution.

(** One entry of [modelPredictions]. *)
Module ModelPrediction.

Record t : Type := mk {
  name : string;
  predictions : list number;
  confidence : number
}.

End ModelPrediction.

Module EnsembleModel.

Record t : Type := mk {
  models : list Model.t
}.

(** [new EnsembleModel()]. *)
Definition new_ : t :=
  mk [ TransformerModel.model;
       RandomForestModel.model;
       XGBoostModel.model;
       SentimentModel.model (SentimentModel.new_ false #1);
       BERTModel.model ].

Definition calculateVariance (values : list number) : number :=
  let mean :=
    fold_left (fun sum val => sum + val) values #0 / of_Z (len values) in
  fold_left (fun sum val => sum + Math_pow (val - mean) 2) values #0
  / of_Z (len values).

(** [predict] comes first in named parts, for the statements to refer to
    them, and then in one piece as the source has it.

    [this.models.map(model => ({name, predictions, confidence}))]. *)
Definition modelPredictions (this : t) (historicalPrices : list number)
  (days : Z) : M (list ModelPrediction.t) :=
  mapM (fun model =>
          p <- Model.predict model historicalPrices days ;;
          ret (ModelPrediction.mk (Model.name model) p
                 (Model.confidence model)))
       (models this).

(** The inner loop of a day: [(weightedSum, totalWeight)]. *)
Definition weightedTotals (mps : list ModelPrediction.t) (day : Z)
  : M (number * number) :=
  for_of mps
    (fun model '(weightedSum, totalWeight) =>
       p <- (ModelPrediction.predictions model).[day] ;;
       ret (weightedSum + p * ModelPrediction.confidence model,
            totalWeight + ModelPrediction.confidence model))
    (#0, #0).

(** [dayFactor]. *)
Definition dayFactor (day days : Z) : number :=
  #1 + of_Z day / of_Z days.

(** The body of the loop over days. *)
Definition combineDay (mps : list ModelPrediction.t) (days : Z)
  (volatilityFactor : number) (day : Z) : M PredictionResult.t :=
  ' (weightedSum, totalWeight) <- weightedTotals mps day ;;
  let predictedPrice := weightedSum / totalWeight in
  predictions <- mapM (fun m => (ModelPrediction.predictions m).[day]) mps ;;
  let variance := calculateVariance predictions in
  let stdDev := Math_sqrt variance in
  let confidenceInterval :=
    stdDev * #1.96 * dayFactor day days * volatilityFactor in
  ret (PredictionResult.mk
         predictedPrice
         (predictedPrice + confidenceInterval)
         (predictedPrice - confidenceInterval)
         (#1 - stdDev / predictedPrice)).

(** The loop over days. *)
Definition aggregate (mps : list ModelPrediction.t) (days : Z)
  (volatilityFactor : number) : M (list PredictionResult.t) :=
  for_range 0 days
    (fun day results =>
       r <- combineDay mps days volatilityFactor day ;;
       ret (results ++ [r]))
    [].

Definition predict (this : t) (historicalPrices : list number) (days : Z)
  (volatilityFactor : number) : M (list PredictionResult.t) :=
  modelPredictions <-
    mapM (fun model =>
            p <- Model.predict model historicalPrices days ;;
            ret (ModelPrediction.mk (Model.name model) p
                   (Model.confidence model)))
         (models this) ;;
  for_range 0 days
    (fun day results =>
       ' (weightedSum, totalWeight) <-
         for_of modelPredictions
           (fun model '(weightedSum, totalWeight) =>
              p <- (ModelPrediction.predictions model).[day] ;;
              ret (weightedSum + p * ModelPrediction.confidence model,
                   totalWeight + ModelPrediction.confidence model))
           (#0, #0) ;;
       let predictedPrice := weightedSum / totalWeight in
       predictions <-
         mapM (fun m => (ModelPrediction.predictions m).[day])
           modelPredictions ;;
       let variance := calculateVariance predictions in
       let stdDev := Math_sqrt variance in
       let dayFactor := #1 + of_Z day / of_Z days in
       let confidenceInterval :=
         stdDev * #1.96 * dayFactor * volatilityFactor in
       ret (results
            ++ [PredictionResult.mk
                  predictedPrice
                  (predictedPrice + confidenceInterval)
                  (predictedPrice - confidenceInterval)
                  (#1 - stdDev / predictedPrice)]))
    [].

Definition getModelContributions (this : t) : list Contribution.t :=
  let totalConfidence :=
    fold_left (fun sum model => sum + Model.confidence model)
      (models this) #0 in
  map (fun model =>
         Contribution.mk (Model.name model)
           (Model.confidence model / totalConfidence * #100))
      (models this).

End EnsembleModel.

(** [getModelContributions()] of the module. *)
Definition getModelContributions : list Contribution.t :=
  EnsembleModel.getModelContributions EnsembleModel.new_.

(** [xs.findIndex(f)]: the first index whose element satisfies [f], or
    -1. *)
Fixpoint findIndex_from {A : Type} (f : A -> bool) (xs : list A) (i : Z) : Z :=
  match xs with
  | [] => (-1)%Z
  | x :: xs' => if f x then i else findIndex_from f xs' (i + 1)%Z
  end.

Definition findIndex {A : Type} (f : A -> bool) (xs : list A) : Z :=
  findIndex_from f xs 0.

(** [xs[i] = v] for an index of the array. *)
Definition set_at {A : Type} (xs : list A) (i : Z) (v : A) : list A :=
  firstn (Z.to_nat i) xs ++ v :: skipn (Datatypes.S (Z.to_nat i)) xs.

(** The ensemble that [generatePredictionData] forecasts with:
    [new EnsembleModel()], its sentiment model replaced by one in
    exogenous mode when [useSentimentAnalysis] is set. *)
Definition generatePredictionData_ensemble (useSentimentAnalysis : bool)
  (sentimentImpact : number) : EnsembleModel.t :=
  let ensemble := EnsembleModel.new_ in
  if useSentimentAnalysis then
    let modelIndex :=
      findIndex (fun model => String.eqb (Model.name model) "VADER Sentiment")
        (EnsembleModel.models ensemble) in
    if (modelIndex =? -1)%Z then ensemble
    else
      EnsembleModel.mk
        (set_at (EnsembleModel.models ensemble) modelIndex
           (SentimentModel.model (SentimentModel.new_ true sentimentImpact)))
  else ensemble.

(** ** Vocabulary of the statements *)

(** [Number.isFinite]. *)
Definition isFinite (a : number) : bool :=
  match a with
  | Fin _ => true
  | NaN => false
  end.

(** [m] returns normally from [w], and its value and final state
    satisfy [Q]. *)
Definition returns_ {A : Type} (m : M A) (w : world)
  (Q : A -> world -> Prop) : Prop :=
  exists a w', m w = Ok a w' /\ Q a w'.

(** The prices the component models give for one day. *)
Definition dayValues (mps : list ModelPrediction.t) (day : Z) : list number :=
  map (fun m => nth (Z.to_nat day) (ModelPrediction.predictions m) NaN) mps.

(** A series of finite prices. *)
Definition prices_of (ps : list R) : list number := map Fin ps.

(** [m] has no effect and no dependence on the state: it is [ret a]. *)
Definition pure_ {A : Type} (m : M A) (a : A) : Prop :=
  forall w, m w = Ok a w.

(** The price a model starts from: [historicalPrices[length - 1]]. *)
Definition lastPrice_of (historicalPrices : list number) : number :=
  nth (Z.to_nat (len historicalPrices - 1)) historicalPrices NaN.

(** The state after a model has read its start price and drawn [n]
    times. *)
Definition after_model (historicalPrices : list number) (n : nat) (w : world)
  : world :=
  mkWorld (seed w) (cursor w + n)
    (match historicalPrices with [] => Datatypes.S (oob w) | _ => oob w end).

(** Autoregressive paths.  With [f i r] the growth factor of day [i]
    under the draw [r], [ar_price f draws c p0 k] is the base price of
    day [k]: [p0] for day 0, and the prediction of day [k - 1] after
    that; the draws are [draws c], [draws (c + 1)], ... *)
Fixpoint ar_price (f : Z -> number -> number) (draws : nat -> R) (c : nat)
  (p0 : number) (k : nat) : number :=
  match k with
  | O => p0
  | Datatypes.S k' =>
      ar_price f draws c p0 k' * f (Z.of_nat k') (Fin (draws (c + k')%nat))
  end.

Definition ar_path (f : Z -> number -> number) (draws : nat -> R) (c : nat)
  (p0 : number) (n : nat) : list number :=
  map (fun k => ar_price f draws c p0 (Datatypes.S k)) (seq 0 n).

(** The growth factors of the five models, as their loops compute them. *)
Definition Transformer_factor (trend volatility longRangeTrend : number)
  (i : Z) (r : number) : number :=
  let dayOfWeekEffect :=
    Math_sin ((of_Z (Z.rem i 7) * Math_PI) / #3.5) * #0.002 in
  let momentumFactor := Math_tanh (trend * #10) * #0.005 in
  let trendWeight := Math_max #0.2 (#1 - of_Z i * #0.05) in
  let combinedTrend :=
    trend * trendWeight + longRangeTrend * (#1 - trendWeight) in
  let randomFactor := (r - #0.5) * volatility * #0.4 in
  #1 + combinedTrend + dayOfWeekEffect + momentumFactor + randomFactor.

Definition RandomForest_factor (trend v : number) (i : Z) (r : number)
  : number :=
  #1 + trend + (r - #0.5) * (v * #0.8).

Definition XGBoost_factor (trend v : number) (i : Z) (r : number) : number :=
  #1 + trend + Math_sin ((of_Z i * Math_PI) / #7) * #0.005
  + (r - #0.5) * (v * #0.9).

Definition Sentiment_factor (this : SentimentModel.t) (i : Z) (r : number)
  : number :=
  if SentimentModel.useSentimentAPI this
  then #1 + (SentimentModel.sentimentImpact this - #1)
  else #1 + (r - #0.4) * #0.02.

Definition BERT_factor (trend : number) (i : Z) (r : number) : number :=
  #1 + trend * #1.2 + (r - #0.5) * #0.02.

(** The aggregation of one day, on the day's component prices. *)
Definition weightedSum_of (mps : list ModelPrediction.t) (day : Z) : number :=
  fold_left
    (fun sum m =>
       sum + nth (Z.to_nat day) (ModelPrediction.predictions m) NaN
             * ModelPrediction.confidence m)
    mps #0.

Definition totalWeight_of (mps : list ModelPrediction.t) : number :=
  fold_left (fun sum m => sum + ModelPrediction.confidence m) mps #0.

Definition stdDev_of (mps : list ModelPrediction.t) (day : Z) : number :=
  Math_sqrt (EnsembleModel.calculateVariance (dayValues mps day)).

Definition dayResult (mps : list ModelPrediction.t) (days : Z)
  (volatilityFactor : number) (day : Z) : PredictionResult.t :=
  let predictedPrice := weightedSum_of mps day / totalWeight_of mps in
  let confidenceInterval :=
    stdDev_of mps day * #1.96 * EnsembleModel.dayFactor day days
    * volatilityFactor in
  PredictionResult.mk
    predictedPrice
    (predictedPrice + confidenceInterval)
    (predictedPrice - confidenceInterval)
    (#1 - stdDev_of mps day / predictedPrice).

(** [m], a model's [predict] on a series, follows the autoregressive
    path of the factor [f]: one draw a day, in the order of the days. *)
Definition ar_model (m : M (list number)) (historicalPrices : list number)
  (days : Z) (f : Z -> number -> number) : Prop :=
  forall w,
    m w = Ok (ar_path f (seed w) (cursor w) (lastPrice_of historicalPrices)
                (Z.to_nat days))
             (after_model historicalPrices (Z.to_nat days) w).

(** A factor that is finite on every day and for every draw. *)
Definition finite_factor (f : Z -> number -> number) : Prop :=
  forall i r, isFinite (f i (Fin r)) = true.

(** The value of a computation that has no effect. *)
Definition value_of (m : M number) : number :=
  match m (mkWorld (fun _ => 0%R) 0 0) with
  | Ok a _ => a
  | Throw _ _ => NaN
  end.

(** The growth factors of the models on a series. *)
Definition Transformer_growth (series : list number) : Z -> number -> number :=
  Transformer_factor
    (value_of (TransformerModel.calculateTrend series))
    (value_of (TransformerModel.calculateVolatility series))
    (value_of (TransformerModel.calculateLongRangeTrend series)).

Definition RandomForest_growth (series : list number) : Z -> number -> number :=
  RandomForest_factor
    (value_of (RandomForestModel.calculateTrend series))
    (value_of (RandomForestModel.calculateVolatility series)).

Definition XGBoost_growth (series : list number) : Z -> number -> number :=
  XGBoost_factor
    (value_of (XGBoostModel.calculateTrend series))
    (value_of (XGBoostModel.calculateVolatility series)).

Definition BERT_growth (series : list number) : Z -> number -> number :=
  BERT_factor (value_of (BERTModel.calculateTrend series)).

(** The five models, the sentiment model being [s]. *)
Definition ensemble_with (s : SentimentModel.t) : EnsembleModel.t :=
  EnsembleModel.mk
    [ TransformerModel.model;
      RandomForestModel.model;
      XGBoostModel.model;
      SentimentModel.model s;
      BERTModel.model ].

(** The sentiment model of [generatePredictionData_ensemble]. *)
Definition sentiment_of (useSentimentAnalysis : bool) (sentimentImpact : number)
  : SentimentModel.t :=
  if useSentimentAnalysis then SentimentModel.new_ true sentimentImpact
  else SentimentModel.new_ false #1.

(** The draws the sentiment model takes over [n] days: none in exogenous
    mode. *)
Definition sentiment_draws (s : SentimentModel.t) (n : nat) : nat :=
  if SentimentModel.useSentimentAPI s then 0%nat else n.

(** The component forecasts of the ensemble over [n] days, when the
    generator stands at draw [c]: the models run in order and each takes
    the draws that follow those of the model before. *)
Definition forecasts (s : SentimentModel.t) (series : list number)
  (draws : nat -> R) (c n : nat) : list ModelPrediction.t :=
  let p0 := lastPrice_of series in
  [ ModelPrediction.mk "Transformer"
      (ar_path (Transformer_growth series) draws c p0 n) #0.45;
    ModelPrediction.mk "Random Forest"
      (ar_path (RandomForest_growth series) draws (c + n) p0 n) #0.25;
    ModelPrediction.mk "XGBoost"
      (ar_path (XGBoost_growth series) draws (c + 2 * n) p0 n) #0.2;
    ModelPrediction.mk "VADER Sentiment"
      (ar_path (Sentiment_factor s) draws (c + 3 * n) p0 n) #0.1;
    ModelPrediction.mk "BERT NLP"
      (ar_path (BERT_growth series) draws (c + 3 * n + sentiment_draws s n) p0 n)
      #0.1 ].

(** The forecast of the ensemble, day by day. *)
Definition forecast (s : SentimentModel.t) (series : list number) (days : Z)
  (volatilityFactor : number) (draws : nat -> R) (c : nat)
  : list PredictionResult.t :=
  map (fun k =>
         dayResult (forecasts s series draws c (Z.to_nat days)) days
           volatilityFactor (Z.of_nat k))
      (seq 0 (Z.to_nat days)).

(** The state after the five models have run. *)
Definition after_models (s : SentimentModel.t) (series : list number) (n : nat)
  (w : world) : world :=
  mkWorld (seed w) (cursor w + 4 * n + sentiment_draws s n)
    (match series with [] => 5 + oob w | _ => oob w end)%nat.

(** Every component path has [n] entries. *)
Definition paths_of_length (n : nat) (mps : list ModelPrediction.t) : Prop :=
  Forall (fun m => List.length (ModelPrediction.predictions m) = n) mps.

(** The least and the greatest of a list of reals (0 for the empty
    list). *)
Definition Rmin_list (xs : list R) : R :=
  match xs with
  | [] => 0%R
  | x :: xs' => fold_left Rmin xs' x
  end.

Definition Rmax_list (xs : list R) : R :=
  match xs with
  | [] => 0%R
  | x :: xs' => fold_left Rmax xs' x
  end.

(** The comparison [a < b] of JavaScript: false as soon as one side is
    [NaN]. *)
Definition lt (a b : number) : Prop :=
  match a, b with
  | Fin x, Fin y => (x < y)%R
  | _, _ => False
  end.

(** The population variance of five reals. *)
Definition variance5 (x1 x2 x3 x4 x5 : R) : R :=
  let m := ((x1 + x2 + x3 + x4 + x5) / 5)%R in
  (((x1 - m) ^ 2 + (x2 - m) ^ 2 + (x3 - m) ^ 2 + (x4 - m) ^ 2 + (x5 - m) ^ 2)
   / 5)%R.

(** The weighted mean of five reals under the weights of the models. *)
Definition mean5 (x1 x2 x3 x4 x5 : R) : R :=
  ((x1 * 0.45 + x2 * 0.25 + x3 * 0.2 + x4 * 0.1 + x5 * 0.1) / 1.1)%R.

(** ** Callers of the ensemble: more of the runtime

    The code around the ensemble throws and catches errors of its own,
    counts downwards and prints dates. *)

Module Try.

(** What a [throw] carries: [RangeError] as before, a [TypeError], or
    [new Error(message)]. *)
Inductive error : Type :=
| Native (e : exn)
| TypeError
| Error (message : string).

Inductive result (A : Type) : Type :=
| Return (a : A) (w : world)
| Raise (e : error) (w : world).

Arguments Return {A} a w.
Arguments Raise {A} e w.

Definition E (A : Type) : Type := world -> result A.

Definition ret {A : Type} (a : A) : E A := fun w => Return a w.

Definition bind {A B : Type} (m : E A) (k : A -> E B) : E B :=
  fun w =>
    match m w with
    | Return a w' => k a w'
    | Raise e w' => Raise e w'
    end.

Definition throw {A : Type} (e : error) : E A := fun w => Raise e w.

(** A computation of the first part, run here. *)
Definition lift {A : Type} (m : M A) : E A :=
  fun w =>
    match m w with
    | Ok a w' => Return a w'
    | Throw e w' => Raise (Native e) w'
    end.

(** [try { body } catch (error) { handler }]. *)
Definition try_catch {A : Type} (body : E A) (handler : error -> E A) : E A :=
  fun w =>
    match body w with
    | Return a w' => Return a w'
    | Raise e w' => handler e w'
    end.

(** [n] rounds of a counting loop that starts at [i] and moves by
    [step]. *)
Fixpoint for_steps {S : Type} (n : nat) (i step : Z) (body : Z -> S -> E S)
  (acc : S) : E S :=
  match n with
  | O => ret acc
  | Datatypes.S n' => bind (body i acc) (for_steps n' (i + step)%Z step body)
  end.

(** [for (let i = lo; i < hi; i++) acc = body(i, acc)]. *)
Definition for_up {S : Type} (lo hi : Z) (body : Z -> S -> E S) (acc : S)
  : E S :=
  for_steps (Z.to_nat (hi - lo)) lo 1 body acc.

(** [for (let i = hi; i > lo; i--) acc = body(i, acc)]. *)
Definition for_down {S : Type} (hi lo : Z) (body : Z -> S -> E S) (acc : S)
  : E S :=
  for_steps (Z.to_nat (hi - lo)) hi (-1) body acc.

(** [xs.forEach(x => { acc = body(x, acc) })]. *)
Fixpoint forEach {A S : Type} (xs : list A) (body : A -> S -> E S) (acc : S)
  : E S :=
  match xs with
  | [] => ret acc
  | x :: xs' => bind (body x acc) (forEach xs' body)
  end.

(** [xs[i]] where a property of the element is read next: outside the
    array the element is [undefined] and that read is a [TypeError]. *)
Definition item {A : Type} (xs : list A) (i : Z) : E A :=
  match (if (0 <=? i)%Z then nth_error xs (Z.to_nat i) else None) with
  | Some a => ret a
  | None => throw TypeError
  end.

End Try.

Notation "x <~ m ;; k" := (Try.bind m (fun x => k))
  (at level 61, m at next level, right associativity) : js_scope.
Notation "' p <~ m ;; k" := (Try.bind m (fun x => match x with p => k end))
  (at level 61, p pattern, m at next level, right associativity) : js_scope.

(** ** The chart data: [generatePredictionData] *)

(** One row of the chart. *)
Module PredictionData.

Record t : Type := mk {
  date : string;
  actual : number;
  predicted : number;
  upperBound : number;
  lowerBound : number
}.

End PredictionData.

(** The calendar.  [calendar k] is what
    [d = new Date(today); d.setDate(d.getDate() + k);
     d.toISOString().split("T")[0]]
    gives for today's date [today]: the day [k] days from today, or
    [None] when that day is outside the range of [Date] and
    [toISOString] throws a [RangeError]. *)
Definition Date_string (calendar : Z -> option string) (k : Z)
  : Try.E string :=
  match calendar k with
  | Some s => Try.ret s
  | None => Try.throw (Try.Native RangeError)
  end.

Definition generatePredictionData (calendar : Z -> option string) (days : Z)
  (startPrice : number) (currency timeframe : string)
  (useSentimentAnalysis : bool) (sentimentImpact : number)
  : Try.E (list PredictionData.t) :=
  let volatility := if String.eqb currency "BTC" then #0.03 else #0.04 in
  ' (data, historicalPrices, currentPrice) <~
    Try.for_down days 0
      (fun i '(data, historicalPrices, currentPrice) =>
         r <~ Try.lift Math_random ;;
         let change := (r - #0.5) * volatility * currentPrice in
         let currentPrice := currentPrice + change in
         date <~ Date_string calendar (- i) ;;
         Try.ret
           (data ++ [PredictionData.mk date currentPrice currentPrice
                       currentPrice currentPrice],
            historicalPrices ++ [currentPrice],
            currentPrice))
      ([], [], startPrice) ;;
  date <~ Date_string calendar 0 ;;
  let data :=
    data ++ [PredictionData.mk date currentPrice currentPrice currentPrice
               currentPrice] in
  let historicalPrices := historicalPrices ++ [currentPrice] in
  let futureDays :=
    if String.eqb timeframe "1d" then 1%Z
    else if String.eqb timeframe "7d" then 7%Z else 30%Z in
  let ensemble :=
    generatePredictionData_ensemble useSentimentAnalysis sentimentImpact in
  predictions <~
    Try.lift
      (EnsembleModel.predict ensemble historicalPrices futureDays
         (volatility * #30)) ;;
  Try.for_up 0 futureDays
    (fun i data =>
       date <~ Date_string calendar (i + 1) ;;
       p_predicted <~ Try.item predictions i ;;
       p_upper <~ Try.item predictions i ;;
       p_lower <~ Try.item predictions i ;;
       Try.ret
         (data ++ [PredictionData.mk date #0
                     (PredictionResult.predicted p_predicted)
                     (PredictionResult.upperBound p_upper)
                     (PredictionResult.lowerBound p_lower)]))
    data.

(** ** Vocabulary of the statements about the callers *)

(** [m] returns normally from [w], and its value and final state
    satisfy [Q]. *)
Definition returnsE {A : Type} (m : Try.E A) (w : world)
  (Q : A -> world -> Prop) : Prop :=
  exists a w', m w = Try.Return a w' /\ Q a w'.

(** The daily volatility and the horizon that [generatePredictionData]
    reads from its arguments. *)
Definition volatility_of (currency : string) : R :=
  if String.eqb currency "BTC" then 0.03%R else 0.04%R.

Definition futureDays_of (timeframe : string) : Z :=
  if String.eqb timeframe "1d" then 1%Z
  else if String.eqb timeframe "7d" then 7%Z else 30%Z.

(** The synthetic history: the price after [k] steps of the random walk
    that starts at [startPrice], with the draws [draws c],
    [draws (c + 1)], ... *)
Fixpoint walk (volatility : number) (draws : nat -> R) (c : nat)
  (startPrice : number) (k : nat) : number :=
  match k with
  | O => startPrice
  | Datatypes.S k' =>
      let currentPrice := walk volatility draws c startPrice k' in
      currentPrice + (Fin (draws (c + k')%nat) - #0.5) * volatility * currentPrice
  end.

(** The series handed to the ensemble: the [n] steps of the walk, and
    the last of them once more for today. *)
Definition history (volatility : number) (draws : nat -> R) (c : nat)
  (startPrice : number) (n : nat) : list number :=
  map (fun k => walk volatility draws c startPrice (Datatypes.S k)) (seq 0 n)
  ++ [walk volatility draws c startPrice n].

(** The calendar prints every day from [lo] to [hi]. *)
Definition calendar_covers (calendar : Z -> option string) (lo hi : Z) : Prop :=
  forall k, (lo <= k <= hi)%Z -> calendar k <> None.

Definition date_of (calendar : Z -> option string) (k : Z) : string :=
  match calendar k with
  | Some s => s
  | None => EmptyString
  end.

(** A row of the past or of today, and a row of the future. *)
Definition flatRow (date : string) (price : number) : PredictionData.t :=
  PredictionData.mk date price price price price.

Definition futureRow (date : string) (p : PredictionResult.t)
  : PredictionData.t :=
  PredictionData.mk date #0 (PredictionResult.predicted p)
    (PredictionResult.upperBound p) (PredictionResult.lowerBound p).

(** The rows of the past: day [k - n] carries the price after [k + 1]
    steps. *)
Definition pastRows (calendar : Z -> option string) (volatility : number)
  (draws : nat -> R) (c : nat) (startPrice : number) (n : nat)
  : list PredictionData.t :=
  map (fun k =>
         flatRow (date_of calendar (Z.of_nat k - Z.of_nat n))
           (walk volatility draws c startPrice (Datatypes.S k)))
      (seq 0 n).

Definition futureRows (calendar : Z -> option string)
  (predictions : list PredictionResult.t) : list PredictionData.t :=
  map (fun k =>
         futureRow (date_of calendar (Z.of_nat k + 1))
           (nth k predictions (PredictionResult.mk NaN NaN NaN NaN)))
      (seq 0 (List.length predictions)).

(** The chart in closed form. *)
Definition chart (calendar : Z -> option string) (days : Z)
  (startPrice : number) (currency timeframe : string)
  (useSentimentAnalysis : bool) (sentimentImpact : number)
  (draws : nat -> R) (c : nat) : list PredictionData.t :=
  let n := Z.to_nat days in
  let volatility := Fin (volatility_of currency) in
  pastRows calendar volatility draws c startPrice n
  ++ [flatRow (date_of calendar 0) (walk volatility draws c startPrice n)]
  ++ futureRows calendar
       (forecast (sentiment_of useSentimentAnalysis sentimentImpact)
          (history volatility draws c startPrice n)
          (futureDays_of timeframe)
          (Fin (volatility_of currency * 30))
          draws (c + n)).

(** The state after [generatePredictionData]. *)
Definition after_chart (days : Z) (timeframe : string)
  (useSentimentAnalysis : bool) (w : world) : world :=
  mkWorld (seed w)
    (cursor w + Z.to_nat days
     + (if useSentimentAnalysis then 4 else 5)
       * Z.to_nat (futureDays_of timeframe))
    (oob w).

(** The walk on reals. *)
Fixpoint walkR (volatility : R) (draws : nat -> R) (c : nat) (startPrice : R)
  (k : nat) : R :=
  match k with
  | O => startPrice
  | Datatypes.S k' =>
      let currentPrice := walkR volatility draws c startPrice k' in
      (currentPrice + (draws (c + k')%nat - 0.5) * volatility * currentPrice)%R
  end.

(** The draws of [Math.random] lie in [[0, 1)]. *)
Definition unit_draws (draws : nat -> R) : Prop :=
  forall k, (0 <= draws k < 1)%R.

(** ** Market sentiment: [src/lib/sentimentAnalysis.ts]

    Strings are ASCII text.  The network is a parameter: [fetch] maps the
    [categories] argument of the request, the only part of the URL that
    varies, to the response, or to [None] when the promise rejects.  The
    clock ([Date.now()]) and the printing of a time value are parameters
    too.  [console.error] is left out. *)

Module Text.

Import Ascii.

Definition lower (a : ascii) : ascii :=
  if (leb "A" a && leb a "Z")%bool
  then ascii_of_nat (nat_of_ascii a + 32)
  else a.

(** [s.toLowerCase()]. *)
Fixpoint toLowerCase (s : string) : string :=
  match s with
  | EmptyString => EmptyString
  | String a s' => String (lower a) (toLowerCase s')
  end.

(** [s.includes(keyword)]. *)
Fixpoint includes (s keyword : string) : bool :=
  (prefix keyword s
   || match s with
      | EmptyString => false
      | String _ s' => includes s' keyword
      end)%bool.

End Text.

(** What [await fetch(url)] resolves to: [ok], [status] as a template
    prints it, and what [await response.json()] resolves to, [None] when
    it rejects. *)
Module Response.

Record t (J : Type) : Type := mk {
  ok : bool;
  status : string;
  json : option J
}.

Arguments mk {J} ok status json.
Arguments ok {J} t.
Arguments status {J} t.
Arguments json {J} t.

End Response.

(** [await promise]. *)
Definition await {A : Type} (promise : option A) : Try.E A :=
  match promise with
  | Some a => Try.ret a
  | None => Try.throw (Try.Error "rejected")
  end.

(** [new Date(t).toISOString()]: a [RangeError] when [t] is no time
    value, that is not a number or beyond 8.64e15 ms from the epoch. *)
Definition Date_toISOString (print : R -> string) (t : number)
  : Try.E string :=
  match t with
  | Fin x =>
      if Rle_dec (Rabs x) 8640000000000000
      then Try.ret (print x)
      else Try.throw (Try.Native RangeError)
  | NaN => Try.throw (Try.Native RangeError)
  end.

(** The comparisons [a > b] and [a < b] as conditions: false on [NaN]. *)
Definition gtb (a b : number) : bool :=
  match a, b with
  | Fin x, Fin y => if Rlt_dec y x then true else false
  | _, _ => false
  end.

Definition ltb (a b : number) : bool := gtb b a.

Module Article.

(** An article of the news feed: its title ([None] when there is none),
    its body ([None] when there is none), and its time stamp. *)
Record t : Type := mk {
  title : option string;
  body : option string;
  published_on : number
}.

End Article.

Module News.

(** The body of the response: [data.Data], [None] when it is missing. *)
Record t : Type := mk {
  Data : option (list Article.t)
}.

End News.

Module SentimentClass.

Inductive t : Type := bullish | bearish | neutral.

End SentimentClass.

Module SentimentData.

Record t : Type := mk {
  bullishPercentage : number;
  bearishPercentage : number;
  timeFrom : string;
  timeTo : string;
  totalArticles : Z;
  sentimentScore : number;
  sentimentClass : SentimentClass.t
}.

End SentimentData.

Module SentimentAnalysis.

Section Runtime.

Variable fetch : string -> option (Response.t News.t).
Variable now : R.
Variable print : R -> string.

Definition positiveKeywords : list string :=
  [ "bull"; "bullish"; "surge"; "soar"; "gain"; "rally"; "rise"; "up";
    "high"; "growth"; "positive" ]%string.

Definition negativeKeywords : list string :=
  [ "bear"; "bearish"; "crash"; "fall"; "drop"; "decline"; "down"; "low";
    "negative"; "sell" ]%string.

Definition fetchSentimentData (symbol : string) : Try.E SentimentData.t :=
  Try.try_catch
    (response <~ await (fetch (Text.toLowerCase symbol)) ;;
     if negb (Response.ok response)
     then Try.throw
            (Try.Error ("API request failed with status "
                        ++ Response.status response))
     else
     data <~ await (Response.json response) ;;
     match News.Data data with
     | None => Try.throw (Try.Error "No sentiment data available")
     | Some articles =>
     if (len articles =? 0)%Z
     then Try.throw (Try.Error "No sentiment data available")
     else
     ' (positiveCount, negativeCount, neutralCount) <~
       Try.forEach articles
         (fun article '(positiveCount, negativeCount, neutralCount) =>
            title <~
              match Article.title article with
              | Some title => Try.ret (Text.toLowerCase title)
              | None => Try.throw Try.TypeError
              end ;;
            let body :=
              match Article.body article with
              | Some (String a s) => Text.toLowerCase (String a s)
              | _ => EmptyString
              end in
            let isPositive :=
              existsb (fun keyword =>
                         Text.includes title keyword
                         || Text.includes body keyword)%bool
                positiveKeywords in
            let isNegative :=
              existsb (fun keyword =>
                         Text.includes title keyword
                         || Text.includes body keyword)%bool
                negativeKeywords in
            if (isPositive && negb isNegative)%bool
            then Try.ret (positiveCount + 1, negativeCount, neutralCount)%Z
            else if (isNegative && negb isPositive)%bool
            then Try.ret (positiveCount, negativeCount + 1, neutralCount)%Z
            else Try.ret (positiveCount, negativeCount, neutralCount + 1)%Z)
         (0, 0, 0)%Z ;;
     let totalArticles := len articles in
     let bullishPercentage :=
       of_Z positiveCount / of_Z totalArticles * #100 in
     let bearishPercentage :=
       of_Z negativeCount / of_Z totalArticles * #100 in
     let sentimentScore :=
       (of_Z positiveCount - of_Z negativeCount) / of_Z totalArticles in
     let sentimentClass := SentimentClass.neutral in
     let sentimentClass :=
       if gtb sentimentScore #0.2 then SentimentClass.bullish
       else sentimentClass in
     let sentimentClass :=
       if ltb sentimentScore (Fin (-0.2)) then SentimentClass.bearish
       else sentimentClass in
     first <~ Try.item articles 0 ;;
     let latestArticleTime := Article.published_on first * #1000 in
     last <~ Try.item articles (len articles - 1) ;;
     let oldestArticleTime := Article.published_on last * #1000 in
     timeFrom <~ Date_toISOString print oldestArticleTime ;;
     timeTo <~ Date_toISOString print latestArticleTime ;;
     Try.ret
       (SentimentData.mk bullishPercentage bearishPercentage timeFrom timeTo
          totalArticles sentimentScore sentimentClass)
     end)
    (fun error =>
       timeFrom <~ Date_toISOString print (Fin now - #86400000 * #7) ;;
       timeTo <~ Date_toISOString print (Fin now) ;;
       Try.ret
         (SentimentData.mk
            (if String.eqb symbol "BTC" then #65 else #58)
            (if String.eqb symbol "BTC" then #25 else #32)
            timeFrom timeTo 42
            (if String.eqb symbol "BTC" then #0.4 else #0.26)
            (if String.eqb symbol "BTC" then SentimentClass.bullish
             else SentimentClass.bullish))).

Definition getSentimentPriceImpact (symbol : string) (currentPrice : number)
  : Try.E number :=
  Try.try_catch
    (sentimentData <~ fetchSentimentData symbol ;;
     let impactFactor :=
       #1 + SentimentData.sentimentScore sentimentData * #0.03 in
     Try.ret impactFactor)
    (fun error => Try.ret #1).

End Runtime.

End SentimentAnalysis.

(** ** Vocabulary of the statements about the sentiment data *)

(** Whether an article mentions one of the keywords, in its title or in
    its body, whatever the case of the letters. *)
Definition mentions (keywords : list string) (article : Article.t) : bool :=
  let title :=
    match Article.title article with
    | Some title => Text.toLowerCase title
    | None => EmptyString
    end in
  let body :=
    match Article.body article with
    | Some body => Text.toLowerCase body
    | None => EmptyString
    end in
  existsb (fun keyword =>
             Text.includes title keyword || Text.includes body keyword)%bool
    keywords.

(** The articles counted as positive, and those counted as negative:
    the ones that mention a keyword of one list and none of the other. *)
Definition countsPositive (article : Article.t) : bool :=
  (mentions SentimentAnalysis.positiveKeywords article
   && negb (mentions SentimentAnalysis.negativeKeywords article))%bool.

Definition countsNegative (article : Article.t) : bool :=
  (mentions SentimentAnalysis.negativeKeywords article
   && negb (mentions SentimentAnalysis.positiveKeywords article))%bool.

Definition count (f : Article.t -> bool) (articles : list Article.t) : Z :=
  len (filter f articles).

(** A time value that [toISOString] prints. *)
Definition printable (t : number) : Prop :=
  match t with
  | Fin x => (Rabs x <= 8640000000000000)%R
  | NaN => False
  end.

(** The clock is one that [toISOString] prints, a week back too. *)
Definition clock_ok (now : R) : Prop :=
  printable (Fin now) /\ printable (Fin (now - 86400000 * 7)).

Definition hasTitle (article : Article.t) : Prop :=
  Article.title article <> None.

(** A response the code can use: it is [ok], its body parses and holds
    at least one article, every article has a title, and the time
    stamps of the first and of the last article can be printed. *)
Definition usable (response : option (Response.t News.t))
  (articles : list Article.t) : Prop :=
  exists status,
    response = Some (Response.mk true status
                       (Some (News.mk (Some articles))))
    /\ articles <> []
    /\ Forall hasTitle articles
    /\ printable (Article.published_on (hd (Article.mk None None NaN) articles)
                  * #1000)
    /\ printable (Article.published_on
                    (List.last articles (Article.mk None None NaN))
                  * #1000).

(** The data returned when the feed cannot be used. *)
Definition mockSentiment (now : R) (print : R -> string) (symbol : string)
  : SentimentData.t :=
  SentimentData.mk
    (if String.eqb symbol "BTC" then #65 else #58)
    (if String.eqb symbol "BTC" then #25 else #32)
    (print (now - 86400000 * 7)%R) (print now) 42
    (if String.eqb symbol "BTC" then #0.4 else #0.26)
    SentimentClass.bullish.

(** What holds of every [SentimentData] the code returns. *)
Definition sentiment_invariant (d : SentimentData.t) : Prop :=
  exists b r s,
    SentimentData.bullishPercentage d = Fin b
    /\ SentimentData.bearishPercentage d = Fin r
    /\ SentimentData.sentimentScore d = Fin s
    /\ (0 <= b)%R /\ (0 <= r)%R /\ (b + r <= 100)%R
    /\ s = ((b - r) / 100)%R
    /\ (1 <= SentimentData.totalArticles d)%Z
    /\ (SentimentData.sentimentClass d = SentimentClass.bullish
        <-> (0.2 < s)%R)
    /\ (SentimentData.sentimentClass d = SentimentClass.bearish
        <-> (s < -0.2)%R).

Definition print_time (print : R -> string) (t : number) : string :=
  match t with
  | Fin x => print x
  | NaN => EmptyString
  end.

(** The data computed from a usable feed. *)
Definition liveSentiment (print : R -> string) (articles : list Article.t)
  : SentimentData.t :=
  let positiveCount := count countsPositive articles in
  let negativeCount := count countsNegative articles in
  let totalArticles := len articles in
  let sentimentScore :=
    (of_Z positiveCount - of_Z negativeCount) / of_Z totalArticles in
  SentimentData.mk
    (of_Z positiveCount / of_Z totalArticles * #100)
    (of_Z negativeCount / of_Z totalArticles * #100)
    (print_time print
       (Article.published_on (List.last articles (Article.mk None None NaN))
        * #1000))
    (print_time print
       (Article.published_on (hd (Article.mk None None NaN) articles) * #1000))
    totalArticles
    sentimentScore
    (if ltb sentimentScore (Fin (-0.2)) then SentimentClass.bearish
     else if gtb sentimentScore #0.2 then SentimentClass.bullish
     else SentimentClass.neutral).

(** The [catch] block of [fetchSentimentData]. *)
Definition mockSentimentData (now : R) (print : R -> string) (symbol : string)
  : Try.E SentimentData.t :=
  timeFrom <~ Date_toISOString print (Fin now - #86400000 * #7) ;;
  timeTo <~ Date_toISOString print (Fin now) ;;
  Try.ret
    (SentimentData.mk
       (if String.eqb symbol "BTC" then #65 else #58)
       (if String.eqb symbol "BTC" then #25 else #32)
       timeFrom timeTo 42
       (if String.eqb symbol "BTC" then #0.4 else #0.26)
       (if String.eqb symbol "BTC" then SentimentClass.bullish
        else SentimentClass.bullish)).

(** ** Historical prices: [fetchHistoricalPrices] of [src/lib/api.ts]

    [fetch] maps the two parts of the URL that vary, the coin and the
    number of days, to the response; [printDay] prints the day of a time
    value.  A key that [coinGeckoIds] does not hold itself may still be
    found on the prototype of the object ([constructor], [toString],
    ...): [inherited] says what the URL shows for such a key, and [None]
    for the keys that are on neither. *)

(** [Math.floor]. *)
Definition Math_floor : number -> number := lift1 (fun x => IZR (Int_part x)).

Module MarketChart.

(** The body of the response.  [prices] holds [[timestamp, price]]
    pairs; an entry of [total_volumes] is [None] when [total_volumes[index]]
    is missing. *)
Record t : Type := mk {
  prices : option (list (number * number));
  total_volumes : option (list (option (number * number)))
}.

End MarketChart.

Module HistoricalPrice.

Record t : Type := mk {
  date : string;
  price : number;
  volume : number
}.

End HistoricalPrice.

Module Api.

Section Runtime.

Variable inherited : string -> option string.
Variable fetch : string -> Z -> option (Response.t MarketChart.t).
Variable printDay : R -> string.
Variable calendar : Z -> option string.

Definition coinGeckoIds (symbol : string) : option string :=
  if String.eqb symbol "BTC" then Some "bitcoin"%string
  else if String.eqb symbol "ETH" then Some "ethereum"%string
  else if String.eqb symbol "USDC" then Some "usd-coin"%string
  else inherited symbol.

(** [xs.map((item, index) => f(item, index))] for a callback with
    effects. *)
Fixpoint mapi_from {A B : Type} (f : A -> Z -> Try.E B) (xs : list A) (i : Z)
  : Try.E (list B) :=
  match xs with
  | [] => Try.ret []
  | x :: xs' =>
      y <~ f x i ;;
      ys <~ mapi_from f xs' (i + 1)%Z ;;
      Try.ret (y :: ys)
  end.

Definition fetchHistoricalPrices (symbol : string) (days : Z)
  : Try.E (list HistoricalPrice.t) :=
  Try.try_catch
    (match coinGeckoIds symbol with
     | None => Try.throw (Try.Error ("Unknown symbol: " ++ symbol))
     | Some coinId =>
     response <~ await (fetch coinId days) ;;
     if negb (Response.ok response)
     then Try.throw
            (Try.Error ("API request failed with status "
                        ++ Response.status response))
     else
     data <~ await (Response.json response) ;;
     match MarketChart.prices data with
     | None => Try.throw Try.TypeError
     | Some prices =>
         mapi_from
           (fun '(timestamp, price) index =>
              volume <~
                match MarketChart.total_volumes data with
                | None =>
                    r <~ Try.lift Math_random ;;
                    Try.ret
                      (Math_floor
                         (r * (if String.eqb symbol "BTC" then #30000000000
                               else #15000000000)))
                | Some total_volumes =>
                    match (if (0 <=? index)%Z
                           then nth_error total_volumes (Z.to_nat index)
                           else None) with
                    | Some (Some (_, volume)) => Try.ret volume
                    | _ =>
                        r <~ Try.lift Math_random ;;
                        Try.ret
                          (Math_floor
                             (r * (if String.eqb symbol "BTC"
                                   then #30000000000 else #15000000000)))
                    end
                end ;;
              date <~ Date_toISOString printDay timestamp ;;
              Try.ret (HistoricalPrice.mk date price volume))
           prices 0
     end
     end)
    (fun error =>
       let price := if String.eqb symbol "BTC" then #65000 else #3500 in
       let volatility := if String.eqb symbol "BTC" then #0.03 else #0.04 in
       ' (mockData, _) <~
         Try.for_down days (-1)
           (fun i '(mockData, price) =>
              r <~ Try.lift Math_random ;;
              let price := price * (#1 + (r - #0.5) * volatility) in
              let price :=
                Math_max price
                  (if String.eqb symbol "BTC" then #10000 else #500) in
              date <~ Date_string calendar (- i) ;;
              r' <~ Try.lift Math_random ;;
              let volume :=
                Math_floor
                  (r' * (if String.eqb symbol "BTC" then #30000000000
                         else #15000000000)) in
              Try.ret (mockData ++ [HistoricalPrice.mk date price volume],
                       price))
           ([], price) ;;
       Try.ret mockData).

End Runtime.

End Api.

(** ** The chart component: [fetchDataAndPredict] of [PredictionChart]

    What the function leaves in the state of the component: the rows
    given to [setChartData] and the message given to [setFetchError]. *)

Module PredictionChart.

Record state : Type := mk {
  chartData : list PredictionData.t;
  fetchError : option string
}.

Section Runtime.

Variable inherited : string -> option string.
Variable fetch : string -> Z -> option (Response.t MarketChart.t).
Variable printDay : R -> string.
Variable calendar : Z -> option string.

(** The properties of the component. *)
Variable currency : string.
Variable timeframe : string.
Variable useSentimentAnalysis : bool.
Variable sentimentImpact : number.

Definition fetchDataAndPredict : Try.E state :=
  Try.try_catch
    (let historyDays :=
       if String.eqb timeframe "1d" then 7%Z
       else if String.eqb timeframe "7d" then 14%Z else 30%Z in
     historicalData <~
       Api.fetchHistoricalPrices inherited fetch printDay calendar currency
         historyDays ;;
     if (len historicalData =? 0)%Z
     then Try.throw (Try.Error "No historical data available")
     else
     last <~ Try.item historicalData (len historicalData - 1) ;;
     let currentPrice := HistoricalPrice.price last in
     predictionData <~
       generatePredictionData calendar historyDays currentPrice currency
         timeframe useSentimentAnalysis sentimentImpact ;;
     Try.ret (mk predictionData None))
    (fun error =>
       mockData <~
         generatePredictionData calendar
           (if String.eqb timeframe "1d" then 7%Z
            else if String.eqb timeframe "7d" then 14%Z else 30%Z)
           (if String.eqb currency "BTC" then #65000 else #3500)
           currency timeframe useSentimentAnalysis sentimentImpact ;;
       Try.ret (mk mockData (Some "Failed to fetch data for predictions"%string))).

End Runtime.

End PredictionChart.

(** ** Vocabulary of the statements about the historical prices *)

(** The price floor and the start price of the mock data. *)
Definition mockFloor (symbol : string) : R :=
  if String.eqb symbol "BTC" then 10000%R else 500%R.

Definition mockStart (symbol : string) : R :=
  if String.eqb symbol "BTC" then 65000%R else 3500%R.

(** The mock price after [k] rounds: each round takes two draws, the
    first of them for the price. *)
Fixpoint mockPrice (symbol : string) (draws : nat -> R) (c : nat) (k : nat)
  : R :=
  match k with
  | O => mockStart symbol
  | Datatypes.S k' =>
      Rmax (mockPrice symbol draws c k'
            * (1 + (draws (c + 2 * k')%nat - 0.5) * volatility_of symbol))
           (mockFloor symbol)
  end.

Definition mockRow (calendar : Z -> option string) (symbol : string)
  (days : Z) (draws : nat -> R) (c : nat) (k : nat) : HistoricalPrice.t :=
  HistoricalPrice.mk
    (date_of calendar (Z.of_nat k - days))
    (Fin (mockPrice symbol draws c (Datatypes.S k)))
    (Math_floor
       (Fin (draws (c + 2 * k + 1)%nat)
        * (if String.eqb symbol "BTC" then #30000000000 else #15000000000))).

(** The [catch] block of [fetchHistoricalPrices]. *)
Definition mockHistoricalPrices (calendar : Z -> option string)
  (symbol : string) (days : Z) : Try.E (list HistoricalPrice.t) :=
  let price := if String.eqb symbol "BTC" then #65000 else #3500 in
  let volatility := if String.eqb symbol "BTC" then #0.03 else #0.04 in
  ' (mockData, _) <~
    Try.for_down days (-1)
      (fun i '(mockData, price) =>
         r <~ Try.lift Math_random ;;
         let price := price * (#1 + (r - #0.5) * volatility) in
         let price :=
           Math_max price
             (if String.eqb symbol "BTC" then #10000 else #500) in
         date <~ Date_string calendar (- i) ;;
         r' <~ Try.lift Math_random ;;
         let volume :=
           Math_floor
             (r' * (if String.eqb symbol "BTC" then #30000000000
                    else #15000000000)) in
         Try.ret (mockData ++ [HistoricalPrice.mk date price volume],
                  price))
      ([], price) ;;
  Try.ret mockData.

(** The callback of [data.prices.map]. *)
Definition formatRow (printDay : R -> string) (symbol : string)
  (total_volumes : option (list (option (number * number))))
  : number * number -> Z -> Try.E HistoricalPrice.t :=
  fun '(timestamp, price) index =>
    volume <~
      match total_volumes with
      | None =>
          r <~ Try.lift Math_random ;;
          Try.ret
            (Math_floor
               (r * (if String.eqb symbol "BTC" then #30000000000
                     else #15000000000)))
      | Some total_volumes =>
          match (if (0 <=? index)%Z
                 then nth_error total_volumes (Z.to_nat index)
                 else None) with
          | Some (Some (_, volume)) => Try.ret volume
          | _ =>
              r <~ Try.lift Math_random ;;
              Try.ret
                (Math_floor
                   (r * (if String.eqb symbol "BTC"
                         then #30000000000 else #15000000000)))
          end
      end ;;
    date <~ Date_toISOString printDay timestamp ;;
    Try.ret (HistoricalPrice.mk date price volume).

(** The API answers with the prices [prices]. *)
Definition answers (inherited : string -> option string)
  (fetch : string -> Z -> option (Response.t MarketChart.t))
  (symbol : string) (days : Z) (prices : list (number * number)) : Prop :=
  exists coinId status total_volumes,
    Api.coinGeckoIds inherited symbol = Some coinId
    /\ fetch coinId days
       = Some (Response.mk true status
                 (Some (MarketChart.mk (Some prices) total_volumes))).

(** The history that [PredictionChart] asks for. *)
Definition historyDays_of (timeframe : string) : Z :=
  if String.eqb timeframe "1d" then 7%Z
  else if String.eqb timeframe "7d" then 14%Z else 30%Z.

(** ** Vocabulary of the statements about the price unit *)

(** A series in another unit: every price multiplied by [k]. *)
Definition scale (k : R) (prices : list number) : list number :=
  map (fun p => Fin k * p) prices.

Definition scale_result (k : R) (r : PredictionResult.t) : PredictionResult.t :=
  PredictionResult.mk
    (Fin k * PredictionResult.predicted r)
    (Fin k * PredictionResult.upperBound r)
    (Fin k * PredictionResult.lowerBound r)
    (PredictionResult.confidence r).

Definition scale_prediction (k : R) (m : ModelPrediction.t)
  : ModelPrediction.t :=
  ModelPrediction.mk (ModelPrediction.name m)
    (scale k (ModelPrediction.predictions m))
    (ModelPrediction.confidence m).

Definition scale_row (k : R) (row : PredictionData.t) : PredictionData.t :=
  PredictionData.mk (PredictionData.date row)
    (Fin k * PredictionData.actual row)
    (Fin k * PredictionData.predicted row)
    (Fin k * PredictionData.upperBound row)
    (Fin k * PredictionData.lowerBound row).

(** ** The zoom of the two charts

    [PredictionChart] and [PriceChart] keep a zoom level in their state,
    1 at first, and change it through [handleZoomIn] and
    [handleZoomOut]; the chart is [300 * zoomLevel] pixels high. *)

Definition Math_min : number -> number -> number := lift2 Rmin.

Module Zoom.

Inductive click : Type := zoomIn | zoomOut.

(** The first zoom level: [useState(1)]. *)
Definition initial : number := #1.

End Zoom.

Module PredictionChartZoom.

Definition handleZoomIn (prev : number) : number := Math_min (prev + #0.5) #3.

Definition handleZoomOut (prev : number) : number :=
  Math_max (prev - #0.5) #0.5.

Definition chartHeight (zoomLevel : number) : number := #300 * zoomLevel.

End PredictionChartZoom.

Module PriceChartZoom.

Definition handleZoomIn (prev : number) : number := Math_min (prev + #0.25) #2.

Definition handleZoomOut (prev : number) : number :=
  Math_max (prev - #0.25) #0.5.

Definition getChartHeight (zoomLevel : number) : number := #300 * zoomLevel.

End PriceChartZoom.

(** The zoom level after a sequence of clicks. *)
Definition zoom_after (zoomIn_ zoomOut_ : number -> number)
  (clicks : list Zoom.click) : number :=
  fold_left
    (fun zoomLevel c =>
       match c with
       | Zoom.zoomIn => zoomIn_ zoomLevel
       | Zoom.zoomOut => zoomOut_ zoomLevel
       end)
    clicks Zoom.initial.

(** ** Token prices: [fetchTokenPrices] of [src/lib/api.ts] *)

Module Coin.

(** A coin of the answer of the markets API, taken to carry its [name]
    and its numbers.  [id] and [last_updated] are [None] when the coin
    has none; an [id] that is there is a string. *)
Record t : Type := mk {
  id : option string;
  name : string;
  current_price : number;
  price_change_percentage_24h : number;
  price_change_percentage_7d_in_currency : number;
  market_cap : number;
  total_volume : number;
  last_updated : option string
}.

End Coin.

Module TokenPriceData.

(** The optional fields are [None] where the object has no such
    property. *)
Record t : Type := mk {
  symbol : string;
  name : string;
  price : number;
  change24h : option number;
  change7d : option number;
  marketCap : option number;
  volume24h : option number;
  lastUpdated : string
}.

End TokenPriceData.

Module Tokens.

Section Runtime.

Variable inherited : string -> option string.
Variable fetch : string -> option (Response.t (list Coin.t)).
(** [new Date().toISOString()]: the rows of one call are built at the
    same instant of the clock. *)
Variable nowString : string.

(** [ids.join(",")]. *)
Fixpoint join (ids : list string) : string :=
  match ids with
  | [] => EmptyString
  | [id] => id
  | id :: ids' => id ++ "," ++ join ids'
  end.

(** The properties that [coinGeckoIds] holds itself. *)
Definition ownId (symbol : string) : option string :=
  if String.eqb symbol "BTC" then Some "bitcoin"%string
  else if String.eqb symbol "ETH" then Some "ethereum"%string
  else if String.eqb symbol "USDC" then Some "usd-coin"%string
  else None.

(** The value of [coinGeckoIds[symbol]]: one of the three ids, an object
    found on the prototype, or [undefined]. *)
Inductive coinId : Type :=
| Id (id : string)
| Inherited
| Undefined.

Definition coinId_of (symbol : string) : coinId :=
  match ownId symbol with
  | Some id => Id id
  | None =>
      match inherited symbol with
      | Some _ => Inherited
      | None => Undefined
      end
  end.

(** [coin.id === coinId]: a coin without [id] has the [id] [undefined];
    no value of the JSON data is an object of the prototype. *)
Definition sameId (coin : Coin.t) (c : coinId) : bool :=
  match c, Coin.id coin with
  | Id id, Some i => String.eqb i id
  | Undefined, None => true
  | _, _ => false
  end.

(** [symbols.map(symbol => coinGeckoIds[symbol]).filter(id => id)], as
    the URL shows them. *)
Definition ids_of (symbols : list string) : list string :=
  flat_map
    (fun symbol =>
       match Api.coinGeckoIds inherited symbol with
       | Some id => [id]
       | None => []
       end)
    symbols.

Definition fetchTokenPrices (symbols : list string)
  : Try.E (list TokenPriceData.t) :=
  Try.try_catch
    (let ids := join (ids_of symbols) in
     response <~ await (fetch ids) ;;
     if negb (Response.ok response)
     then Try.throw
            (Try.Error ("API request failed with status "
                        ++ Response.status response))
     else
     data <~ await (Response.json response) ;;
     Try.ret
       (map (fun symbol =>
               let coinId := coinId_of symbol in
               let coinData := find (fun coin => sameId coin coinId) data in
               match coinData with
               | None =>
                   TokenPriceData.mk symbol symbol #0 None None None None
                     nowString
               | Some coinData =>
                   TokenPriceData.mk symbol (Coin.name coinData)
                     (Coin.current_price coinData)
                     (Some (Coin.price_change_percentage_24h coinData))
                     (Some (Coin.price_change_percentage_7d_in_currency
                              coinData))
                     (Some (Coin.market_cap coinData))
                     (Some (Coin.total_volume coinData))
                     (match Coin.last_updated coinData with
                      | Some (String a s) => String a s
                      | _ => nowString
                      end)
               end)
            symbols))
    (fun error =>
       Try.ret
         (map (fun symbol =>
                 TokenPriceData.mk symbol
                   (if String.eqb symbol "BTC" then "Bitcoin"
                    else if String.eqb symbol "ETH" then "Ethereum"
                    else symbol)%string
                   (if String.eqb symbol "BTC" then #65432.18
                    else if String.eqb symbol "ETH" then #3521.67 else #1.0)
                   (Some (if String.eqb symbol "BTC" then #2.34
                          else if String.eqb symbol "ETH" then Fin (-0.87)
                          else #0.01))
                   (Some (if String.eqb symbol "BTC" then Fin (-1.2)
                          else if String.eqb symbol "ETH" then #3.45
                          else #0.0))
                   (Some (if String.eqb symbol "BTC" then #1250000000000
                          else if String.eqb symbol "ETH" then #420000000000
                          else #50000000000))
                   (Some (if String.eqb symbol "BTC" then #28500000000
                          else if String.eqb symbol "ETH" then #15700000000
                          else #5000000000))
                   nowString)
              symbols)).

End Runtime.

End Tokens.


(** ** The stand-alone transformer: [src/lib/transformerModel.ts]

    The file has a [TransformerModel] of its own, kept apart from the
    one of [predictionModels.ts] by the module [Tfjs].  The TensorFlow
    model built by [loadModel] is only tested for being there: the field
    [model] says whether it is, once [loadModel] has resolved. *)

Definition Math_abs : number -> number := lift1 Rabs.

Module Tfjs.

Module TransformerPrediction.

Record t : Type := mk {
  predictedPrices : list number;
  confidence : number
}.

End TransformerPrediction.

Module TransformerModel.

Record t : Type := mk {
  model : bool
}.

Definition calculateTrend (prices : list number) : M number :=
  if (len prices <? 2)%Z then ret #0 else
  let recentPrices := slice_last 7 prices in
  firstPrice <- recentPrices.[0] ;;
  lastPrice <- recentPrices.[len recentPrices - 1] ;;
  ret ((lastPrice - firstPrice) / firstPrice / of_Z (len recentPrices)).

(** [while (inputData.length < 30) inputData.unshift(inputData[0])],
    for at most [rounds] rounds. *)
Fixpoint pad (rounds : nat) (inputData : list number) : M (list number) :=
  match rounds with
  | O => ret inputData
  | Datatypes.S rounds' =>
      if (len inputData <? 30)%Z
      then first <- inputData.[0] ;; pad rounds' (first :: inputData)
      else ret inputData
  end.

(** The [try] block of [predict], past the test of the model. *)
Definition simulate (historicalPrices : list number) (days : Z)
  : M TransformerPrediction.t :=
  inputData <- pad 30 historicalPrices ;;
  let recentPrices := slice_last 30 inputData in
  lastPrice <- recentPrices.[len recentPrices - 1] ;;
  let normalizedPrices := map (fun p => p / lastPrice) recentPrices in
  ' (trend, totalWeight) <-
    for_range 1 (len normalizedPrices)
      (fun i '(trend, totalWeight) =>
         let weight := Math_exp (#0.1 * of_Z i) in
         n_i <- normalizedPrices.[i] ;;
         n_prev <- normalizedPrices.[i - 1] ;;
         ret (trend + (n_i - n_prev) * weight, totalWeight + weight))
      (#0, #0) ;;
  let trend := trend / totalWeight in
  ' (volatility, totalWeight) <-
    for_range 1 (len normalizedPrices)
      (fun i '(volatility, totalWeight) =>
         n_i <- normalizedPrices.[i] ;;
         n_prev <- normalizedPrices.[i - 1] ;;
         let dailyReturn := n_i / n_prev - #1 in
         let weight := Math_exp (#0.1 * of_Z i) in
         ret (volatility + Math_abs dailyReturn * weight, totalWeight + weight))
      (#0, #0) ;;
  let volatility := volatility / totalWeight in
  ' (predictions, _) <-
    for_range 0 days
      (fun i '(predictions, currentPrice) =>
         let dayOfWeekEffect :=
           Math_sin ((of_Z (Z.rem i 7) * Math_PI) / #3.5) * #0.002 in
         let momentumFactor := Math_tanh (trend * #10) * #0.005 in
         let longRangeFactor :=
           if (i <? 3)%Z then trend * #1.2
           else trend * (#1 + of_Z i * #0.05) in
         r <- Math_random ;;
         let change :=
           longRangeFactor + dayOfWeekEffect + momentumFactor
           + (r - #0.5) * volatility * (#1 + of_Z i * #0.1) in
         let currentPrice := currentPrice * (#1 + change) in
         ret (predictions ++ [currentPrice], currentPrice))
      ([], lastPrice) ;;
  let confidence :=
    Math_max #0.1 (#0.95 - volatility * #10 - of_Z days * #0.01) in
  ret (TransformerPrediction.mk predictions confidence).

(** The [catch] block of [predict]. *)
Definition fallback (historicalPrices : list number) (days : Z)
  : M TransformerPrediction.t :=
  lastPrice <- historicalPrices.[len historicalPrices - 1] ;;
  trend <- calculateTrend historicalPrices ;;
  ' (predictions, _) <-
    for_range 0 days
      (fun i '(predictions, currentPrice) =>
         r <- Math_random ;;
         let currentPrice :=
           currentPrice * (#1 + trend + (r - #0.5) * #0.02) in
         ret (predictions ++ [currentPrice], currentPrice))
      ([], lastPrice) ;;
  ret (TransformerPrediction.mk predictions #0.7).

Definition predict (this : t) (historicalPrices : list number) (days : Z)
  : Try.E TransformerPrediction.t :=
  Try.try_catch
    (if negb (model this)
     then Try.throw (Try.Error "Model not loaded")
     else Try.lift (simulate historicalPrices days))
    (fun error => Try.lift (fallback historicalPrices days)).

End TransformerModel.

End Tfjs.


(** ** The weighted mean in binary64

    The exact reals of [number] leave out the rounding of the code's
    arithmetic.  Where a statement turns on it, the lines concerned are
    given here a second time on the binary64 numbers of the kernel, with
    the operations of IEEE 754 that JavaScript has. *)

Set Warnings "-inexact-float".

Module Binary64.

Import PrimFloat.
Local Open Scope float_scope.

(** One entry of [modelPredictions]: the path of a model and its
    weight. *)
Record entry : Type := mk {
  predictions : list float;
  confidence : float
}.

(** The inner loop of a day, lines 332 to 338 of [predict]; a read
    outside the path is [undefined], [NaN] under [*]. *)
Definition weightedTotals (modelPredictions : list entry) (day : nat)
  : float * float :=
  fold_left
    (fun '(weightedSum, totalWeight) model =>
       (weightedSum + nth day (predictions model) nan * confidence model,
        totalWeight + confidence model))
    modelPredictions (0, 0).

(** [predictedPrice = weightedSum / totalWeight], line 340. *)
Definition predictedPrice (modelPredictions : list entry) (day : nat)
  : float :=
  let '(weightedSum, totalWeight) := weightedTotals modelPredictions day in
  weightedSum / totalWeight.

(** The five models of [new EnsembleModel()] with their weights, each
    with the path [path]. *)
Definition agreeing (path : list float) : list entry :=
  [ mk path 0.45; mk path 0.25; mk path 0.2; mk path 0.1; mk path 0.1 ].

End Binary64.

(** * Properties *)

(** ** Reasoning rules for the monad *)

Lemma returns_ret {A : Type} (a : A) w (Q : A -> world -> Prop) :
  Q a w -> returns_ (ret a) w Q.
Proof. intros H. exists a, w. split; [reflexivity | exact H]. Qed.

Lemma returns_bind {A B : Type} (m : M A) (k : A -> M B) w
  (Q : B -> world -> Prop) :
  returns_ m w (fun a w' => returns_ (k a) w' Q) ->
  returns_ (bind m k) w Q.
Proof.
  intros (a & w' & Hm & b & w'' & Hk & HQ).
  exists b, w''. split; [| exact HQ].
  unfold bind. rewrite Hm. exact Hk.
Qed.

Lemma returns_weaken {A : Type} (m : M A) w (P Q : A -> world -> Prop) :
  returns_ m w P -> (forall a w', P a w' -> Q a w') -> returns_ m w Q.
Proof.
  intros (a & w' & Hm & HP) HPQ. exists a, w'. auto.
Qed.

Lemma returns_random w (Q : number -> world -> Prop) :
  Q (Fin (seed w (cursor w))) (mkWorld (seed w) (S (cursor w)) (oob w)) ->
  returns_ Math_random w Q.
Proof. intros H. eexists _, _. split; [reflexivity | exact H]. Qed.

Lemma get_in xs i w :
  (0 <= i < len xs)%Z -> get xs i w = Ok (nth (Z.to_nat i) xs NaN) w.
Proof.
  intros [H0 H1]. unfold get.
  apply Z.leb_le in H0. apply Z.ltb_lt in H1. rewrite H0, H1. reflexivity.
Qed.

Lemma returns_for_from {S : Type} (Inv : nat -> S -> world -> Prop) n :
  forall lo (body : Z -> S -> M S) (start : nat),
    (forall k s w, (k < n)%nat -> Inv (start + k)%nat s w ->
       returns_ (body (lo + Z.of_nat k)%Z s) w (Inv (start + Datatypes.S k)%nat)) ->
    forall acc w, Inv start acc w ->
      returns_ (for_from n lo body acc) w (Inv (start + n)%nat).
Proof.
  induction n as [| n IH]; intros lo body start Hbody acc w H0; simpl.
  - apply returns_ret. rewrite Nat.add_0_r. exact H0.
  - apply returns_bind.
    pose proof (Hbody 0%nat acc w ltac:(lia)) as Hfirst.
    rewrite Nat.add_0_r, Z.add_0_r in Hfirst.
    eapply returns_weaken; [apply Hfirst; exact H0 |].
    intros s w' Hs. cbv beta.
    replace (start + Datatypes.S n)%nat with (Datatypes.S start + n)%nat by lia.
    apply IH; [| rewrite Nat.add_1_r in Hs; exact Hs].
    intros k s' w'' Hk Hinv.
    replace (lo + 1 + Z.of_nat k)%Z with (lo + Z.of_nat (Datatypes.S k))%Z by lia.
    replace (Datatypes.S start + Datatypes.S k)%nat
      with (start + Datatypes.S (Datatypes.S k))%nat by lia.
    apply Hbody; [lia |].
    replace (start + Datatypes.S k)%nat with (Datatypes.S start + k)%nat by lia.
    exact Hinv.
Qed.

(** The loop rule: [Inv k] holds after [k] iterations. *)
Lemma returns_for_range {S : Type} (Inv : nat -> S -> world -> Prop)
  lo hi (body : Z -> S -> M S) acc w :
  Inv 0%nat acc w ->
  (forall k s w', (Z.of_nat k < hi - lo)%Z -> Inv k s w' ->
     returns_ (body (lo + Z.of_nat k)%Z s) w' (Inv (Datatypes.S k))) ->
  returns_ (for_range lo hi body acc) w (Inv (Z.to_nat (hi - lo))).
Proof.
  intros H0 Hbody. unfold for_range.
  apply (returns_for_from Inv (Z.to_nat (hi - lo)) lo body 0%nat).
  - intros k s w' Hk Hinv. simpl. apply Hbody; [lia | exact Hinv].
  - exact H0.
Qed.

(** ** Effect-free computations *)

Lemma pure_ret {A : Type} (a : A) : pure_ (ret a) a.
Proof. intros w. reflexivity. Qed.

Lemma pure_bind {A B : Type} (m : M A) (k : A -> M B) a b :
  pure_ m a -> pure_ (k a) b -> pure_ (bind m k) b.
Proof. intros Hm Hk w. unfold bind. rewrite Hm. apply Hk. Qed.

Lemma pure_get xs i :
  (0 <= i < len xs)%Z -> pure_ (get xs i) (nth (Z.to_nat i) xs NaN).
Proof. intros Hi w. apply get_in. exact Hi. Qed.

Lemma pure_unique {A : Type} (m : M A) a b : pure_ m a -> pure_ m b -> a = b.
Proof.
  intros Ha Hb. specialize (Ha (mkWorld (fun _ => 0%R) 0 0)).
  rewrite Hb in Ha. injection Ha as ->. reflexivity.
Qed.

Lemma pure_for_from {S : Type} (Inv : nat -> S -> Prop) n :
  forall lo (body : Z -> S -> M S) (start : nat),
    (forall k s, (k < n)%nat -> Inv (start + k)%nat s ->
       exists s', pure_ (body (lo + Z.of_nat k)%Z s) s'
                  /\ Inv (start + Datatypes.S k)%nat s') ->
    forall acc, Inv start acc ->
      exists s, pure_ (for_from n lo body acc) s /\ Inv (start + n)%nat s.
Proof.
  induction n as [| n IH]; intros lo body start Hbody acc H0; simpl.
  - exists acc. split; [apply pure_ret | rewrite Nat.add_0_r; exact H0].
  - destruct (Hbody 0%nat acc ltac:(lia)) as (s1 & Hs1 & Hinv1).
    { rewrite Nat.add_0_r. exact H0. }
    rewrite Z.add_0_r in Hs1.
    destruct (IH (lo + 1)%Z body (Datatypes.S start)) with (acc := s1)
      as (s & Hs & Hinv).
    + intros k s' Hk Hinv.
      replace (lo + 1 + Z.of_nat k)%Z
        with (lo + Z.of_nat (Datatypes.S k))%Z by lia.
      replace (Datatypes.S start + Datatypes.S k)%nat
        with (start + Datatypes.S (Datatypes.S k))%nat by lia.
      apply Hbody; [lia |].
      replace (start + Datatypes.S k)%nat
        with (Datatypes.S start + k)%nat by lia.
      exact Hinv.
    + rewrite Nat.add_1_r in Hinv1. exact Hinv1.
    + exists s. split.
      * eapply pure_bind; [exact Hs1 | exact Hs].
      * replace (start + Datatypes.S n)%nat
          with (Datatypes.S start + n)%nat by lia.
        exact Hinv.
Qed.

(** The loop rule for effect-free bodies. *)
Lemma pure_for_range {S : Type} (Inv : nat -> S -> Prop)
  lo hi (body : Z -> S -> M S) acc :
  Inv 0%nat acc ->
  (forall k s, (Z.of_nat k < hi - lo)%Z -> Inv k s ->
     exists s', pure_ (body (lo + Z.of_nat k)%Z s) s'
                /\ Inv (Datatypes.S k) s') ->
  exists s, pure_ (for_range lo hi body acc) s
            /\ Inv (Z.to_nat (hi - lo)) s.
Proof.
  intros H0 Hbody. unfold for_range.
  apply (pure_for_from Inv (Z.to_nat (hi - lo)) lo body 0%nat).
  - intros k s Hk Hinv. simpl. apply Hbody; [lia | exact Hinv].
  - exact H0.
Qed.

(** ** Finite arithmetic *)

Lemma div_Fin x y : y <> 0%R -> Fin x / Fin y = Fin (x / y).
Proof.
  intros Hy. unfold div. destruct (Req_dec_T y 0) as [E | _]; [contradiction | reflexivity].
Qed.

Lemma div_zero x : Fin x / #0 = NaN.
Proof.
  unfold div. destruct (Req_dec_T 0 0) as [_ | N]; [reflexivity | contradiction].
Qed.

Lemma sqrt_Fin x : (0 <= x)%R -> Math_sqrt (Fin x) = Fin (sqrt x).
Proof.
  intros Hx. unfold Math_sqrt. destruct (Rlt_dec x 0) as [L | _]; [lra | reflexivity].
Qed.

Lemma isFinite_Fin a : isFinite a = true -> exists x, a = Fin x.
Proof. destruct a as [x |]; [exists x; reflexivity | discriminate]. Qed.

Lemma len_map {A B : Type} (f : A -> B) xs : len (map f xs) = len xs.
Proof. unfold len. rewrite length_map. reflexivity. Qed.

Lemma nth_prices_of ps i :
  (i < List.length ps)%nat -> nth i (prices_of ps) NaN = Fin (nth i ps 0%R).
Proof.
  intros Hi. unfold prices_of.
  rewrite (nth_indep _ NaN (Fin 0%R)) by (rewrite length_map; exact Hi).
  apply (map_nth Fin).
Qed.

Lemma nth_positive ps i :
  Forall (fun p => 0 < p)%R ps -> (i < List.length ps)%nat ->
  (0 < nth i ps 0)%R.
Proof.
  intros Hall Hi. rewrite Forall_forall in Hall. apply Hall. apply nth_In. exact Hi.
Qed.

Lemma slice_last_length {A : Type} n (xs : list A) :
  List.length (slice_last n xs) = Nat.min n (List.length xs).
Proof. unfold slice_last. rewrite length_skipn. lia. Qed.

Lemma slice_last_prices_of n ps :
  slice_last n (prices_of ps) = prices_of (slice_last n ps).
Proof.
  unfold slice_last, prices_of. rewrite length_map. apply skipn_map.
Qed.

Lemma slice_last_positive n ps :
  Forall (fun p => 0 < p)%R ps -> Forall (fun p => 0 < p)%R (slice_last n ps).
Proof.
  intros Hall. rewrite Forall_forall in *. intros x Hx. apply Hall.
  unfold slice_last in Hx.
  rewrite <- (firstn_skipn (List.length ps - n) ps). apply in_or_app. right. exact Hx.
Qed.

(** A daily return over positive prices is finite. *)
Lemma dailyReturn_finite ps k :
  Forall (fun p => 0 < p)%R ps -> (Datatypes.S k < List.length ps)%nat ->
  (nth (Datatypes.S k) (prices_of ps) NaN - nth k (prices_of ps) NaN)
  / nth k (prices_of ps) NaN
  = Fin ((nth (Datatypes.S k) ps 0 - nth k ps 0) / nth k ps 0).
Proof.
  intros Hall Hk. rewrite !nth_prices_of by lia. simpl.
  apply div_Fin. pose proof (nth_positive ps k Hall ltac:(lia)). lra.
Qed.

Ltac js_eval :=
  cbv [add sub mul lift1 lift2 Math_exp Math_sin Math_tanh Math_max Math_pow
       Math_PI of_Z].

Ltac pure_reads :=
  repeat (eapply pure_bind; [apply pure_get; unfold len in *; lia |]);
  cbv beta zeta; try apply pure_ret.

(** ** The statistics helpers have no effect and read within bounds *)

Lemma Transformer_calculateTrend_pure prices :
  exists t, pure_ (TransformerModel.calculateTrend prices) t
    /\ (forall ps, prices = prices_of ps -> Forall (fun p => 0 < p)%R ps ->
        isFinite t = true).
Proof.
  unfold TransformerModel.calculateTrend.
  destruct (len prices <? 2)%Z eqn:Hlen.
  { exists #0. split; [apply pure_ret | reflexivity]. }
  apply Z.ltb_ge in Hlen.
  set (recent := slice_last 14 prices).
  assert (Hrl : (2 <= len recent)%Z).
  { unfold recent, len in *. rewrite slice_last_length. lia. }
  destruct (pure_for_range
    (fun k (s : number * number) =>
       forall ps, prices = prices_of ps -> Forall (fun p => 0 < p)%R ps ->
       exists a b, s = (Fin a, Fin b) /\ (0 <= b)%R /\ ((0 < k)%nat -> (0 < b)%R))
    1 (len recent)
    (fun i '(weightedSum, weightSum) =>
         let weight := Math_exp (#0.1 * of_Z i) in
         p_i <- recent.[i] ;;
         p_prev <- recent.[i - 1] ;;
         p_den <- recent.[i - 1] ;;
         let dailyReturn := (p_i - p_prev) / p_den in
         ret (weightedSum + dailyReturn * weight, weightSum + weight))
    (#0, #0)) as (s & Hs & Hinv).
  - intros ps _ _. exists 0%R, 0%R. repeat split; [lra | lia].
  - intros k [ws wsum] Hk Hinv. eexists. split; [pure_reads |].
    intros ps -> Hpos. destruct (Hinv ps eq_refl Hpos) as (a & b & E & Hb & _).
    injection E as -> ->.
    unfold recent in *. rewrite slice_last_prices_of in *.
    replace (Z.to_nat (1 + Z.of_nat k)) with (Datatypes.S k) by lia.
    replace (Z.to_nat (1 + Z.of_nat k - 1)) with k by lia.
    rewrite dailyReturn_finite;
      [| apply slice_last_positive; exact Hpos
       | unfold len in Hk; unfold prices_of in Hk; rewrite length_map in Hk; lia].
    js_eval. eexists _, _. split; [reflexivity |].
    pose proof (exp_pos (0.1 * IZR (1 + Z.of_nat k))). split; [lra | intros _; lra].
  - destruct s as [ws wsum]. exists (ws / wsum). split.
    + eapply pure_bind; [exact Hs | apply pure_ret].
    + intros ps E Hpos. destruct (Hinv ps E Hpos) as (a & b & E2 & _ & Hb).
      injection E2 as -> ->. rewrite div_Fin; [reflexivity |].
      assert (0 < b)%R by (apply Hb; lia). lra.
Qed.

(** The shape shared by the simple trends: the relative change over the
    last [W] observations, per day. *)
Lemma simple_trend_pure (W : nat) (D : R) prices :
  (1 <= W)%nat -> (1 <= len prices)%Z -> D <> 0%R ->
  exists t,
    pure_ (let recentPrices := slice_last W prices in
           firstPrice <- recentPrices.[0] ;;
           lastPrice <- recentPrices.[len recentPrices - 1] ;;
           ret ((lastPrice - firstPrice) / firstPrice / Fin D)) t
    /\ (forall ps, prices = prices_of ps -> Forall (fun p => 0 < p)%R ps ->
        isFinite t = true).
Proof.
  intros HW Hlen HD. cbv zeta.
  assert (Hrl : (1 <= List.length (slice_last W prices))%nat).
  { rewrite slice_last_length. unfold len in Hlen. lia. }
  eexists. split; [pure_reads |].
  intros ps -> Hpos. rewrite slice_last_prices_of in *.
  set (rp := slice_last W ps) in *.
  assert (Hrp : Forall (fun p => 0 < p)%R rp) by (apply slice_last_positive; exact Hpos).
  assert (Hl : (1 <= List.length rp)%nat).
  { unfold prices_of in Hrl. rewrite length_map in Hrl. exact Hrl. }
  rewrite !nth_prices_of by (unfold len, prices_of; rewrite ?length_map; lia).
  pose proof (nth_positive rp (Z.to_nat 0) Hrp ltac:(lia)).
  js_eval. rewrite div_Fin by lra. rewrite div_Fin by exact HD. reflexivity.
Qed.

Lemma Transformer_calculateLongRangeTrend_pure prices :
  exists t, pure_ (TransformerModel.calculateLongRangeTrend prices) t
    /\ (forall ps, prices = prices_of ps -> Forall (fun p => 0 < p)%R ps ->
        isFinite t = true).
Proof.
  unfold TransformerModel.calculateLongRangeTrend.
  destruct (len prices <? 30)%Z eqn:Hlen.
  - apply Transformer_calculateTrend_pure.
  - apply Z.ltb_ge in Hlen. apply (simple_trend_pure 30 30); [lia | lia | lra].
Qed.

Lemma RandomForest_calculateTrend_pure prices :
  exists t, pure_ (RandomForestModel.calculateTrend prices) t
    /\ (forall ps, prices = prices_of ps -> Forall (fun p => 0 < p)%R ps ->
        isFinite t = true).
Proof.
  unfold RandomForestModel.calculateTrend.
  destruct (len prices <? 10)%Z eqn:Hlen.
  - exists #0. split; [apply pure_ret | reflexivity].
  - apply Z.ltb_ge in Hlen. apply (simple_trend_pure 14 14); [lia | lia | lra].
Qed.

Lemma XGBoost_calculateTrend_pure prices :
  exists t, pure_ (XGBoostModel.calculateTrend prices) t
    /\ (forall ps, prices = prices_of ps -> Forall (fun p => 0 < p)%R ps ->
        isFinite t = true).
Proof.
  unfold XGBoostModel.calculateTrend.
  destruct (len prices <? 10)%Z eqn:Hlen.
  - exists #0. split; [apply pure_ret | reflexivity].
  - apply Z.ltb_ge in Hlen. apply (simple_trend_pure 10 10); [lia | lia | lra].
Qed.

Lemma BERT_calculateTrend_pure prices :
  exists t, pure_ (BERTModel.calculateTrend prices) t
    /\ (forall ps, prices = prices_of ps -> Forall (fun p => 0 < p)%R ps ->
        isFinite t = true).
Proof.
  unfold BERTModel.calculateTrend.
  destruct (len prices <? 5)%Z eqn:Hlen.
  - exists #0. split; [apply pure_ret | reflexivity].
  - apply Z.ltb_ge in Hlen. apply (simple_trend_pure 5 5); [lia | lia | lra].
Qed.

(** ** Sums and variances of finite values *)

Lemma fold_add_Fin rs : forall a,
  fold_left (fun sum val => sum + val) (prices_of rs) (Fin a)
  = Fin (fold_left Rplus rs a).
Proof.
  induction rs as [| r rs IH]; intros a; simpl; [reflexivity | apply IH].
Qed.

Lemma fold_sq_Fin m rs : forall a,
  fold_left (fun sum val => sum + Math_pow (val - Fin m) 2) (prices_of rs)
    (Fin a)
  = Fin (fold_left (fun s r => s + (r - m) ^ 2)%R rs a).
Proof.
  induction rs as [| r rs IH]; intros a; simpl; [reflexivity | apply IH].
Qed.

Lemma fold_sq_nonneg m rs : forall a,
  (0 <= a)%R -> (0 <= fold_left (fun s r => s + (r - m) ^ 2)%R rs a)%R.
Proof.
  induction rs as [| r rs IH]; intros a Ha; simpl; [exact Ha |].
  apply IH. pose proof (pow2_ge_0 (r - m)). lra.
Qed.

Lemma IZR_len_pos {A : Type} (xs : list A) :
  xs <> [] -> (0 < IZR (len xs))%R.
Proof.
  intros Hne. apply IZR_lt. unfold len. destruct xs; [contradiction | simpl; lia].
Qed.

(** The population variance of finitely many finite values is a finite
    non-negative value. *)
Lemma calculateVariance_Fin rs :
  rs <> [] ->
  exists v, EnsembleModel.calculateVariance (prices_of rs) = Fin v
            /\ (0 <= v)%R.
Proof.
  intros Hne. unfold EnsembleModel.calculateVariance.
  pose proof (IZR_len_pos rs Hne) as Hn.
  unfold prices_of at 2 4. rewrite len_map. unfold of_Z.
  rewrite fold_add_Fin. rewrite div_Fin by lra.
  rewrite fold_sq_Fin. rewrite div_Fin by lra.
  eexists. split; [reflexivity |].
  apply Rmult_le_pos; [apply fold_sq_nonneg; lra |].
  apply Rlt_le, Rinv_0_lt_compat. exact Hn.
Qed.

Lemma stdDev_Fin rs :
  rs <> [] ->
  exists v, Math_sqrt (EnsembleModel.calculateVariance (prices_of rs)) = Fin (sqrt v)
            /\ EnsembleModel.calculateVariance (prices_of rs) = Fin v
            /\ (0 <= v)%R.
Proof.
  intros Hne. destruct (calculateVariance_Fin rs Hne) as (v & Hv & Hv0).
  exists v. rewrite Hv. split; [apply sqrt_Fin; exact Hv0 | auto].
Qed.

(** The daily returns of a series, as the volatility loops collect them. *)
Lemma returns_loop_pure prices :
  exists returns,
    pure_ (for_range 1 (len prices)
             (fun i returns =>
                p_i <- prices.[i] ;;
                p_prev <- prices.[i - 1] ;;
                p_den <- prices.[i - 1] ;;
                ret (returns ++ [(p_i - p_prev) / p_den]))
             []) returns
    /\ List.length returns = Z.to_nat (len prices - 1)
    /\ (forall ps, prices = prices_of ps -> Forall (fun p => 0 < p)%R ps ->
        exists rs, returns = prices_of rs).
Proof.
  destruct (pure_for_range
    (fun k (returns : list number) =>
       List.length returns = k /\
       forall ps, prices = prices_of ps -> Forall (fun p => 0 < p)%R ps ->
       exists rs, returns = prices_of rs)
    1 (len prices)
    (fun i returns =>
       p_i <- prices.[i] ;;
       p_prev <- prices.[i - 1] ;;
       p_den <- prices.[i - 1] ;;
       ret (returns ++ [(p_i - p_prev) / p_den]))
    []) as (s & Hs & Hlen & Hfin).
  - split; [reflexivity |]. intros ps _ _. exists []. reflexivity.
  - intros k returns Hk [Hlen Hfin]. eexists. split; [pure_reads |]. split.
    + rewrite length_app. simpl. lia.
    + intros ps -> Hpos. destruct (Hfin ps eq_refl Hpos) as (rs & ->).
      replace (Z.to_nat (1 + Z.of_nat k)) with (Datatypes.S k) by lia.
      replace (Z.to_nat (1 + Z.of_nat k - 1)) with k by lia.
      rewrite dailyReturn_finite;
        [| exact Hpos
         | unfold len, prices_of in Hk; rewrite length_map in Hk; lia].
      eexists (rs ++ [_]). unfold prices_of. rewrite map_app. reflexivity.
  - exists s. auto.
Qed.

(** The unweighted volatility of the Random Forest and XGBoost models. *)
Lemma simple_volatility_pure prices :
  exists v,
    pure_ (if (len prices <? 2)%Z then ret #0.02 else
           returns <-
             for_range 1 (len prices)
               (fun i returns =>
                  p_i <- prices.[i] ;;
                  p_prev <- prices.[i - 1] ;;
                  p_den <- prices.[i - 1] ;;
                  ret (returns ++ [(p_i - p_prev) / p_den]))
               [] ;;
           ret (Math_sqrt (EnsembleModel.calculateVariance returns))) v
    /\ (forall ps, prices = prices_of ps -> Forall (fun p => 0 < p)%R ps ->
        isFinite v = true).
Proof.
  destruct (len prices <? 2)%Z eqn:Hlen.
  { exists #0.02. split; [apply pure_ret | reflexivity]. }
  apply Z.ltb_ge in Hlen.
  destruct (returns_loop_pure prices) as (returns & Hp & Hl & Hfin).
  eexists. split; [eapply pure_bind; [exact Hp | apply pure_ret] |].
  intros ps E Hpos. destruct (Hfin ps E Hpos) as (rs & ->).
  destruct (stdDev_Fin rs) as (v & -> & _); [| reflexivity].
  intros ->. simpl in Hl. lia.
Qed.

Lemma RandomForest_calculateVolatility_pure prices :
  exists v, pure_ (RandomForestModel.calculateVolatility prices) v
    /\ (forall ps, prices = prices_of ps -> Forall (fun p => 0 < p)%R ps ->
        isFinite v = true).
Proof. apply simple_volatility_pure. Qed.

Lemma XGBoost_calculateVolatility_pure prices :
  exists v, pure_ (XGBoostModel.calculateVolatility prices) v
    /\ (forall ps, prices = prices_of ps -> Forall (fun p => 0 < p)%R ps ->
        isFinite v = true).
Proof. apply simple_volatility_pure. Qed.

Lemma Transformer_calculateVolatility_pure prices :
  exists v, pure_ (TransformerModel.calculateVolatility prices) v
    /\ (forall ps, prices = prices_of ps -> Forall (fun p => 0 < p)%R ps ->
        isFinite v = true).
Proof.
  unfold TransformerModel.calculateVolatility.
  destruct (len prices <? 2)%Z eqn:Hlen.
  { exists #0.02. split; [apply pure_ret | reflexivity]. }
  apply Z.ltb_ge in Hlen.
  (* returns and weights *)
  destruct (pure_for_range
    (fun k (s : list number * list number) =>
       List.length (fst s) = k /\ List.length (snd s) = k /\
       forall ps, prices = prices_of ps -> Forall (fun p => 0 < p)%R ps ->
       exists rs ws, s = (prices_of rs, prices_of ws)
                     /\ Forall (fun x => 0 < x)%R ws)
    1 (len prices)
    (fun i '(returns, weights) =>
         let weight := Math_exp (#0.1 * of_Z i) in
         p_i <- prices.[i] ;;
         p_prev <- prices.[i - 1] ;;
         p_den <- prices.[i - 1] ;;
         ret (returns ++ [(p_i - p_prev) / p_den], weights ++ [weight]))
    ([], [])) as ([returns weights] & H1 & Hlr & Hlw & Hfin1).
  { repeat split. intros ps _ _. exists [], []. split; [reflexivity | constructor]. }
  { intros k [returns weights] Hk (Hlr & Hlw & Hfin). simpl in Hlr, Hlw.
    eexists. split; [pure_reads |]. cbn [fst snd]. rewrite !length_app.
    cbn [List.length].
    split; [lia |]. split; [lia |].
    intros ps -> Hpos. destruct (Hfin ps eq_refl Hpos) as (rs & ws & E & Hws).
    injection E as -> ->.
    replace (Z.to_nat (1 + Z.of_nat k)) with (Datatypes.S k) by lia.
    replace (Z.to_nat (1 + Z.of_nat k - 1)) with k by lia.
    rewrite dailyReturn_finite;
      [| exact Hpos
       | unfold len, prices_of in Hk; rewrite length_map in Hk; lia].
    js_eval. eexists (rs ++ [_]), (ws ++ [_]). unfold prices_of.
    rewrite !map_app. split; [reflexivity |].
    apply Forall_app. split; [exact Hws |]. constructor; [apply exp_pos | constructor]. }
  simpl in Hlr, Hlw.
  assert (Hn : (1 <= List.length returns)%nat) by lia.
  (* weighted mean *)
  destruct (pure_for_range
    (fun k (s : number * number) =>
       forall rs ws, returns = prices_of rs -> weights = prices_of ws ->
       Forall (fun x => 0 < x)%R ws ->
       exists a b, s = (Fin a, Fin b) /\ (0 <= b)%R /\ ((0 < k)%nat -> (0 < b)%R))
    0 (len returns)
    (fun i '(weightedSum, weightSum) =>
         r_i <- returns.[i] ;;
         w_i <- weights.[i] ;;
         w_i' <- weights.[i] ;;
         ret (weightedSum + r_i * w_i, weightSum + w_i'))
    (#0, #0)) as ([weightedSum weightSum] & H2 & Hfin2).
  { intros rs ws _ _ _. exists 0%R, 0%R. repeat split; [lra | lia]. }
  { intros k [a b] Hk Hinv. eexists. split; [pure_reads |].
    intros rs ws -> -> Hws.
    destruct (Hinv rs ws eq_refl eq_refl Hws) as (a' & b' & E & Hb & _).
    injection E as -> ->.
    unfold len, prices_of in Hk, Hlr, Hlw. rewrite length_map in Hk, Hlr, Hlw.
    rewrite !nth_prices_of by lia. js_eval.
    eexists _, _. split; [reflexivity |].
    pose proof (nth_positive ws (Z.to_nat (0 + Z.of_nat k)) Hws ltac:(lia)).
    split; [lra | intros _; lra]. }
  (* weighted variance *)
  destruct (pure_for_range
    (fun k (s : number) =>
       forall rs ws m, returns = prices_of rs -> weights = prices_of ws ->
       Forall (fun x => 0 < x)%R ws -> weightedSum / weightSum = Fin m ->
       exists a, s = Fin a /\ (0 <= a)%R)
    0 (len returns)
    (fun i varianceSum =>
         r_i <- returns.[i] ;;
         w_i <- weights.[i] ;;
         ret (varianceSum + Math_pow (r_i - weightedSum / weightSum) 2 * w_i))
    #0) as (varianceSum & H3 & Hfin3).
  { intros rs ws m _ _ _ _. exists 0%R. split; [reflexivity | lra]. }
  { intros k s Hk Hinv. eexists. split; [pure_reads |].
    intros rs ws m -> -> Hws Hm.
    destruct (Hinv rs ws m eq_refl eq_refl Hws Hm) as (a & -> & Ha).
    unfold len, prices_of in Hk, Hlr, Hlw. rewrite length_map in Hk, Hlr, Hlw.
    rewrite Hm. rewrite !nth_prices_of by lia. js_eval.
    eexists. split; [reflexivity |].
    pose proof (nth_positive ws (Z.to_nat (0 + Z.of_nat k)) Hws ltac:(lia)) as Hw.
    pose proof (pow2_ge_0 (nth (Z.to_nat (0 + Z.of_nat k)) rs 0 - m)) as Hsq.
    pose proof (Rmult_le_pos _ _ Hsq (Rlt_le _ _ Hw)). lra. }
  eexists. split.
  { eapply pure_bind; [exact H1 |]. cbv beta iota.
    eapply pure_bind; [exact H2 |]. cbv beta iota zeta.
    eapply pure_bind; [exact H3 |]. apply pure_ret. }
  intros ps E Hpos.
  destruct (Hfin1 ps E Hpos) as (rs & ws & E1 & Hws). injection E1 as -> ->.
  destruct (Hfin2 rs ws eq_refl eq_refl Hws) as (a & b & E2 & _ & Hb).
  injection E2 as -> ->.
  assert (Hb0 : (0 < b)%R).
  { apply Hb. rewrite Z.sub_0_r. unfold len. lia. }
  destruct (Hfin3 rs ws (a / b)%R eq_refl eq_refl Hws) as (c & -> & Hc).
  { apply div_Fin. lra. }
  rewrite div_Fin by lra. rewrite sqrt_Fin; [reflexivity |].
  apply Rmult_le_pos; [exact Hc |]. apply Rlt_le, Rinv_0_lt_compat. exact Hb0.
Qed.

(** ** The autoregressive loops *)

Lemma world_eta w : mkWorld (seed w) (cursor w) (oob w) = w.
Proof. destruct w. reflexivity. Qed.

Lemma get_last xs w :
  get xs (len xs - 1) w = Ok (lastPrice_of xs) (after_model xs 0 w).
Proof.
  unfold after_model, lastPrice_of. rewrite Nat.add_0_r.
  destruct xs as [| x xs].
  - reflexivity.
  - rewrite get_in by (unfold len; cbn [List.length]; lia).
    rewrite world_eta. reflexivity.
Qed.

Lemma ar_path_length f draws c p0 n : List.length (ar_path f draws c p0 n) = n.
Proof. unfold ar_path. rewrite length_map, length_seq. reflexivity. Qed.

Lemma ar_path_S f draws c p0 n :
  ar_path f draws c p0 (Datatypes.S n)
  = ar_path f draws c p0 n ++ [ar_price f draws c p0 (Datatypes.S n)].
Proof. unfold ar_path. rewrite seq_S, map_app. reflexivity. Qed.

Lemma nth_map_seq {A : Type} (g : nat -> A) n k d :
  (k < n)%nat -> nth k (map g (seq 0 n)) d = g k.
Proof.
  intros Hk.
  rewrite (nth_indep _ d (g 0%nat)) by (rewrite length_map, length_seq; exact Hk).
  rewrite (map_nth g). rewrite seq_nth by exact Hk. reflexivity.
Qed.

Lemma nth_ar_path f draws c p0 n k :
  (k < n)%nat ->
  nth k (ar_path f draws c p0 n) NaN = ar_price f draws c p0 (Datatypes.S k).
Proof.
  intros Hk. unfold ar_path.
  apply (nth_map_seq (fun k => ar_price f draws c p0 (Datatypes.S k))). exact Hk.
Qed.

(** The loop of the models that draw once a day. *)
Lemma ar_loop (f : Z -> number -> number) days p0 w :
  for_range 0 days
    (fun i '(predictions, lastPrice) =>
       r <- Math_random ;;
       ret (predictions ++ [lastPrice * f i r], lastPrice * f i r))
    ([], p0) w
  = Ok (ar_path f (seed w) (cursor w) p0 (Z.to_nat days),
        ar_price f (seed w) (cursor w) p0 (Z.to_nat days))
       (mkWorld (seed w) (cursor w + Z.to_nat days) (oob w)).
Proof.
  pose proof (returns_for_range
    (fun k (s : list number * number) w' =>
       s = (ar_path f (seed w) (cursor w) p0 k,
            ar_price f (seed w) (cursor w) p0 k)
       /\ w' = mkWorld (seed w) (cursor w + k) (oob w))
    0 days
    (fun i '(predictions, lastPrice) =>
       r <- Math_random ;;
       ret (predictions ++ [lastPrice * f i r], lastPrice * f i r))
    ([], p0) w) as H.
  rewrite Z.sub_0_r in H.
  destruct H as (s & w' & Hrun & -> & ->).
  - split; [reflexivity |]. rewrite Nat.add_0_r. symmetry. apply world_eta.
  - intros k [preds last] w' _ [E ->]. injection E as -> ->.
    apply returns_bind, returns_random. apply returns_ret.
    cbn [seed cursor oob]. rewrite ar_path_S. cbn [ar_price].
    rewrite Z.add_0_l. split; [reflexivity |]. f_equal. lia.
  - exact Hrun.
Qed.

(** ** Each model follows the path of its factor *)

Lemma after_model_loop series n w :
  mkWorld (seed (after_model series 0 w)) (cursor (after_model series 0 w) + n)
    (oob (after_model series 0 w))
  = after_model series n w.
Proof. unfold after_model. cbn [seed cursor oob]. f_equal. lia. Qed.

Ltac run_pure H := unfold bind at 1; rewrite H.

Lemma Transformer_predict_closed series days :
  exists trend volatility longRangeTrend,
    pure_ (TransformerModel.calculateTrend series) trend
    /\ pure_ (TransformerModel.calculateVolatility series) volatility
    /\ pure_ (TransformerModel.calculateLongRangeTrend series) longRangeTrend
    /\ ar_model (TransformerModel.predict series days) series days
         (Transformer_factor trend volatility longRangeTrend)
    /\ (forall ps, series = prices_of ps -> Forall (fun p => 0 < p)%R ps ->
        finite_factor (Transformer_factor trend volatility longRangeTrend)).
Proof.
  destruct (Transformer_calculateTrend_pure series) as (t & Ht & Hft).
  destruct (Transformer_calculateVolatility_pure series) as (v & Hv & Hfv).
  destruct (Transformer_calculateLongRangeTrend_pure series) as (l & Hl & Hfl).
  exists t, v, l. repeat split; try assumption.
  - intros w. unfold TransformerModel.predict.
    run_pure get_last. run_pure Ht. run_pure Hv. run_pure Hl.
    unfold bind.
    rewrite (ar_loop (Transformer_factor t v l)).
    unfold ret. rewrite after_model_loop. cbn [after_model seed cursor].
    rewrite Nat.add_0_r. reflexivity.
  - intros ps E Hpos i r.
    destruct (isFinite_Fin _ (Hft ps E Hpos)) as (t' & ->).
    destruct (isFinite_Fin _ (Hfv ps E Hpos)) as (v' & ->).
    destruct (isFinite_Fin _ (Hfl ps E Hpos)) as (l' & ->).
    unfold Transformer_factor. js_eval. rewrite div_Fin by lra. reflexivity.
Qed.

Lemma RandomForest_predict_closed series days :
  exists trend v,
    pure_ (RandomForestModel.calculateTrend series) trend
    /\ pure_ (RandomForestModel.calculateVolatility series) v
    /\ ar_model (RandomForestModel.predict series days) series days
         (RandomForest_factor trend v)
    /\ (forall ps, series = prices_of ps -> Forall (fun p => 0 < p)%R ps ->
        finite_factor (RandomForest_factor trend v)).
Proof.
  destruct (RandomForest_calculateTrend_pure series) as (t & Ht & Hft).
  destruct (RandomForest_calculateVolatility_pure series) as (v & Hv & Hfv).
  exists t, v. repeat split; try assumption.
  - intros w. unfold RandomForestModel.predict.
    run_pure get_last. run_pure Hv. run_pure Ht.
    unfold bind.
    rewrite (ar_loop (RandomForest_factor t v)).
    unfold ret. rewrite after_model_loop. cbn [after_model seed cursor].
    rewrite Nat.add_0_r. reflexivity.
  - intros ps E Hpos i r.
    destruct (isFinite_Fin _ (Hft ps E Hpos)) as (t' & ->).
    destruct (isFinite_Fin _ (Hfv ps E Hpos)) as (v' & ->).
    reflexivity.
Qed.

Lemma XGBoost_predict_closed series days :
  exists trend v,
    pure_ (XGBoostModel.calculateTrend series) trend
    /\ pure_ (XGBoostModel.calculateVolatility series) v
    /\ ar_model (XGBoostModel.predict series days) series days
         (XGBoost_factor trend v)
    /\ (forall ps, series = prices_of ps -> Forall (fun p => 0 < p)%R ps ->
        finite_factor (XGBoost_factor trend v)).
Proof.
  destruct (XGBoost_calculateTrend_pure series) as (t & Ht & Hft).
  destruct (XGBoost_calculateVolatility_pure series) as (v & Hv & Hfv).
  exists t, v. repeat split; try assumption.
  - intros w. unfold XGBoostModel.predict.
    run_pure get_last. run_pure Hv. run_pure Ht.
    unfold bind.
    rewrite (ar_loop (XGBoost_factor t v)).
    unfold ret. rewrite after_model_loop. cbn [after_model seed cursor].
    rewrite Nat.add_0_r. reflexivity.
  - intros ps E Hpos i r.
    destruct (isFinite_Fin _ (Hft ps E Hpos)) as (t' & ->).
    destruct (isFinite_Fin _ (Hfv ps E Hpos)) as (v' & ->).
    unfold XGBoost_factor. js_eval. rewrite div_Fin by lra. reflexivity.
Qed.

Lemma BERT_predict_closed series days :
  exists trend,
    pure_ (BERTModel.calculateTrend series) trend
    /\ ar_model (BERTModel.predict series days) series days (BERT_factor trend)
    /\ (forall ps, series = prices_of ps -> Forall (fun p => 0 < p)%R ps ->
        finite_factor (BERT_factor trend)).
Proof.
  destruct (BERT_calculateTrend_pure series) as (t & Ht & Hft).
  exists t. repeat split; try assumption.
  - intros w. unfold BERTModel.predict.
    run_pure get_last. run_pure Ht.
    unfold bind.
    rewrite (ar_loop (BERT_factor t)).
    unfold ret. rewrite after_model_loop. cbn [after_model seed cursor].
    rewrite Nat.add_0_r. reflexivity.
  - intros ps E Hpos i r.
    destruct (isFinite_Fin _ (Hft ps E Hpos)) as (t' & ->).
    reflexivity.
Qed.

Lemma mapM_random {A : Type} (g : number -> number) (xs : list A) :
  forall w,
    mapM (fun _ => r <- Math_random ;; ret (g r)) xs w
    = Ok (map (fun k => g (Fin (seed w (cursor w + k)%nat)))
              (seq 0 (List.length xs)))
         (mkWorld (seed w) (cursor w + List.length xs) (oob w)).
Proof.
  induction xs as [| x xs IH]; intros w.
  - simpl. unfold ret. rewrite Nat.add_0_r, world_eta. reflexivity.
  - cbn [mapM List.length]. unfold bind at 1 2. unfold Math_random at 1.
    unfold ret at 1. unfold bind at 1. rewrite IH. cbn [seed cursor oob].
    unfold ret. f_equal.
    + cbn [seq map]. rewrite Nat.add_0_r. f_equal.
      rewrite <- seq_shift, map_map. apply map_ext. intros k.
      do 2 f_equal. f_equal. lia.
    + f_equal. lia.
Qed.

Lemma mapM_ret {A B : Type} (b : B) (xs : list A) :
  pure_ (mapM (fun _ => ret b) xs) (map (fun _ => b) xs).
Proof.
  induction xs as [| x xs IH]; [apply pure_ret |].
  cbn [mapM map]. eapply pure_bind; [apply pure_ret |].
  eapply pure_bind; [exact IH | apply pure_ret].
Qed.

(** The sentiment loop in stochastic mode: the day's score was drawn
    beforehand. *)
Lemma ar_loop_scores (g : number -> number) draws c days p0 :
  exists last,
    pure_ (for_range 0 days
             (fun i '(predictions, lastPrice) =>
                dailySentiment <-
                  (map (fun k => g (Fin (draws (c + k)%nat)))
                       (seq 0 (Z.to_nat days))).[i] ;;
                ret (predictions ++ [lastPrice * (#1 + dailySentiment)],
                     lastPrice * (#1 + dailySentiment)))
             ([], p0))
          (ar_path (fun _ r => #1 + g r) draws c p0 (Z.to_nat days), last).
Proof.
  destruct (pure_for_range
    (fun k (s : list number * number) =>
       s = (ar_path (fun _ r => #1 + g r) draws c p0 k,
            ar_price (fun _ r => #1 + g r) draws c p0 k))
    0 days
    (fun i '(predictions, lastPrice) =>
       dailySentiment <-
         (map (fun k => g (Fin (draws (c + k)%nat)))
              (seq 0 (Z.to_nat days))).[i] ;;
       ret (predictions ++ [lastPrice * (#1 + dailySentiment)],
            lastPrice * (#1 + dailySentiment)))
    ([], p0)) as (s & Hs & E).
  - reflexivity.
  - intros k [preds last] Hk E. injection E as -> ->.
    eexists. split.
    + eapply pure_bind; [apply pure_get; unfold len;
                         rewrite length_map, length_seq; lia |].
      apply pure_ret.
    + rewrite Z.add_0_l, Nat2Z.id.
      rewrite (nth_map_seq (fun k => g (Fin (draws (c + k)%nat)))) by lia.
      rewrite ar_path_S. reflexivity.
  - rewrite Z.sub_0_r in *. subst s. eexists. exact Hs.
Qed.

(** The sentiment loop in exogenous mode: the same term every day. *)
Lemma ar_loop_const (d : number) draws c days p0 :
  exists last,
    pure_ (for_range 0 days
             (fun i '(predictions, lastPrice) =>
                dailySentiment <- ret d ;;
                ret (predictions ++ [lastPrice * (#1 + dailySentiment)],
                     lastPrice * (#1 + dailySentiment)))
             ([], p0))
          (ar_path (fun _ _ => #1 + d) draws c p0 (Z.to_nat days), last).
Proof.
  destruct (pure_for_range
    (fun k (s : list number * number) =>
       s = (ar_path (fun _ _ => #1 + d) draws c p0 k,
            ar_price (fun _ _ => #1 + d) draws c p0 k))
    0 days
    (fun i '(predictions, lastPrice) =>
       dailySentiment <- ret d ;;
       ret (predictions ++ [lastPrice * (#1 + dailySentiment)],
            lastPrice * (#1 + dailySentiment)))
    ([], p0)) as (s & Hs & E).
  - reflexivity.
  - intros k [preds last] Hk E. injection E as -> ->.
    eexists. split.
    + eapply pure_bind; [apply pure_ret | apply pure_ret].
    + rewrite ar_path_S. reflexivity.
  - rewrite Z.sub_0_r in *. subst s. eexists. exact Hs.
Qed.

Lemma Array_in_range n :
  (0 <= n <= 4294967295)%Z -> Array_ n = ret (repeat NaN (Z.to_nat n)).
Proof.
  intros Hn. unfold Array_.
  destruct (n <? 0)%Z eqn:E1; [apply Z.ltb_lt in E1; lia |].
  destruct (4294967295 <? n)%Z eqn:E2; [apply Z.ltb_lt in E2; lia |].
  reflexivity.
Qed.

Lemma Sentiment_predict_stochastic impact series days :
  (0 <= days <= 4294967295)%Z ->
  ar_model (SentimentModel.predict (SentimentModel.new_ false impact) series days)
    series days (Sentiment_factor (SentimentModel.new_ false impact)).
Proof.
  intros Hd w. unfold SentimentModel.predict.
  cbn [SentimentModel.useSentimentAPI SentimentModel.sentimentImpact].
  run_pure get_last. rewrite Array_in_range by exact Hd.
  unfold bind at 1. unfold ret at 1.
  unfold bind at 1.
  rewrite (mapM_random (fun r => (r - #0.4) * #0.02)).
  unfold fill. rewrite length_map, repeat_length.
  cbn [after_model seed cursor oob]. rewrite Nat.add_0_r.
  destruct (ar_loop_scores (fun r => (r - #0.4) * #0.02) (seed w) (cursor w)
              days (lastPrice_of series)) as (last & Hloop).
  unfold bind at 1. rewrite Hloop. reflexivity.
Qed.

Lemma Sentiment_predict_exogenous impact series days w :
  (0 <= days <= 4294967295)%Z ->
  SentimentModel.predict (SentimentModel.new_ true impact) series days w
  = Ok (ar_path (Sentiment_factor (SentimentModel.new_ true impact))
          (seed w) (cursor w) (lastPrice_of series) (Z.to_nat days))
       (after_model series 0 w).
Proof.
  intros Hd. unfold SentimentModel.predict.
  cbn [SentimentModel.useSentimentAPI SentimentModel.sentimentImpact].
  run_pure get_last. rewrite Array_in_range by exact Hd.
  unfold bind at 1. unfold ret at 1.
  run_pure (mapM_ret #0 (fill #0 (repeat NaN (Z.to_nat days)))).
  destruct (ar_loop_const (impact - #1) (seed w) (cursor w)
              days (lastPrice_of series)) as (last & Hloop).
  unfold bind at 1. rewrite Hloop. reflexivity.
Qed.

(** A negative [days] reaches [Array(days)], which throws. *)
Lemma Sentiment_predict_negative this series days w :
  (days < 0)%Z ->
  SentimentModel.predict this series days w
  = Throw RangeError (after_model series 0 w).
Proof.
  intros Hd. unfold SentimentModel.predict.
  run_pure get_last. unfold Array_.
  apply Z.ltb_lt in Hd. rewrite Hd. reflexivity.
Qed.

(** So does a [days] above the greatest length of an array. *)
Lemma Sentiment_predict_too_long this series days w :
  (4294967295 < days)%Z ->
  SentimentModel.predict this series days w
  = Throw RangeError (after_model series 0 w).
Proof.
  intros Hd. unfold SentimentModel.predict.
  run_pure get_last. unfold Array_.
  apply Z.ltb_lt in Hd. rewrite Hd, orb_true_r. reflexivity.
Qed.

Lemma Sentiment_factor_finite s :
  (SentimentModel.useSentimentAPI s = true ->
   isFinite (SentimentModel.sentimentImpact s) = true) ->
  finite_factor (Sentiment_factor s).
Proof.
  intros Hs i r. destruct s as [[|] impact]; [| reflexivity].
  destruct (isFinite_Fin _ (Hs eq_refl)) as (m & E).
  cbn [SentimentModel.sentimentImpact] in E. subst impact. reflexivity.
Qed.

Lemma value_of_pure m a : pure_ m a -> value_of m = a.
Proof. intros H. unfold value_of. rewrite H. reflexivity. Qed.

Lemma Transformer_predict_path series days :
  ar_model (TransformerModel.predict series days) series days
    (Transformer_growth series).
Proof.
  destruct (Transformer_predict_closed series days)
    as (t & v & l & Ht & Hv & Hl & H & _).
  unfold Transformer_growth.
  rewrite (value_of_pure _ _ Ht), (value_of_pure _ _ Hv), (value_of_pure _ _ Hl).
  exact H.
Qed.

Lemma Transformer_growth_finite ps :
  Forall (fun p => 0 < p)%R ps ->
  finite_factor (Transformer_growth (prices_of ps)).
Proof.
  intros Hpos.
  destruct (Transformer_predict_closed (prices_of ps) 0)
    as (t & v & l & Ht & Hv & Hl & _ & H).
  unfold Transformer_growth.
  rewrite (value_of_pure _ _ Ht), (value_of_pure _ _ Hv), (value_of_pure _ _ Hl).
  apply (H ps eq_refl Hpos).
Qed.

Lemma RandomForest_predict_path series days :
  ar_model (RandomForestModel.predict series days) series days
    (RandomForest_growth series).
Proof.
  destruct (RandomForest_predict_closed series days) as (t & v & Ht & Hv & H & _).
  unfold RandomForest_growth.
  rewrite (value_of_pure _ _ Ht), (value_of_pure _ _ Hv). exact H.
Qed.

Lemma RandomForest_growth_finite ps :
  Forall (fun p => 0 < p)%R ps ->
  finite_factor (RandomForest_growth (prices_of ps)).
Proof.
  intros Hpos.
  destruct (RandomForest_predict_closed (prices_of ps) 0)
    as (t & v & Ht & Hv & _ & H).
  unfold RandomForest_growth.
  rewrite (value_of_pure _ _ Ht), (value_of_pure _ _ Hv).
  apply (H ps eq_refl Hpos).
Qed.

Lemma XGBoost_predict_path series days :
  ar_model (XGBoostModel.predict series days) series days
    (XGBoost_growth series).
Proof.
  destruct (XGBoost_predict_closed series days) as (t & v & Ht & Hv & H & _).
  unfold XGBoost_growth.
  rewrite (value_of_pure _ _ Ht), (value_of_pure _ _ Hv). exact H.
Qed.

Lemma XGBoost_growth_finite ps :
  Forall (fun p => 0 < p)%R ps ->
  finite_factor (XGBoost_growth (prices_of ps)).
Proof.
  intros Hpos.
  destruct (XGBoost_predict_closed (prices_of ps) 0)
    as (t & v & Ht & Hv & _ & H).
  unfold XGBoost_growth.
  rewrite (value_of_pure _ _ Ht), (value_of_pure _ _ Hv).
  apply (H ps eq_refl Hpos).
Qed.

Lemma BERT_predict_path series days :
  ar_model (BERTModel.predict series days) series days (BERT_growth series).
Proof.
  destruct (BERT_predict_closed series days) as (t & Ht & H & _).
  unfold BERT_growth. rewrite (value_of_pure _ _ Ht). exact H.
Qed.

Lemma BERT_growth_finite ps :
  Forall (fun p => 0 < p)%R ps -> finite_factor (BERT_growth (prices_of ps)).
Proof.
  intros Hpos.
  destruct (BERT_predict_closed (prices_of ps) 0) as (t & Ht & _ & H).
  unfold BERT_growth. rewrite (value_of_pure _ _ Ht).
  apply (H ps eq_refl Hpos).
Qed.

(** The sentiment model in either mode: it draws only in stochastic
    mode. *)
Lemma Sentiment_predict_path s series days w :
  (0 <= days <= 4294967295)%Z ->
  SentimentModel.predict s series days w
  = Ok (ar_path (Sentiment_factor s) (seed w) (cursor w) (lastPrice_of series)
          (Z.to_nat days))
       (after_model series (sentiment_draws s (Z.to_nat days)) w).
Proof.
  intros Hd. destruct s as [[|] impact].
  - apply Sentiment_predict_exogenous. exact Hd.
  - apply Sentiment_predict_stochastic. exact Hd.
Qed.

Lemma generatePredictionData_ensemble_eq useSentimentAnalysis sentimentImpact :
  generatePredictionData_ensemble useSentimentAnalysis sentimentImpact
  = ensemble_with (sentiment_of useSentimentAnalysis sentimentImpact).
Proof. destruct useSentimentAnalysis; reflexivity. Qed.

(** ** The ensemble in closed form *)

Lemma modelPredictions_closed s series days w :
  (0 <= days <= 4294967295)%Z ->
  EnsembleModel.modelPredictions (ensemble_with s) series days w
  = Ok (forecasts s series (seed w) (cursor w) (Z.to_nat days))
       (after_models s series (Z.to_nat days) w).
Proof.
  intros Hd. unfold EnsembleModel.modelPredictions, ensemble_with.
  cbn [EnsembleModel.models mapM].
  cbn [Model.predict Model.name Model.confidence TransformerModel.model
       RandomForestModel.model XGBoostModel.model SentimentModel.model
       BERTModel.model].
  unfold bind at 1 2. rewrite Transformer_predict_path. unfold ret at 1.
  unfold bind at 1 2 3. rewrite RandomForest_predict_path. unfold ret at 1.
  unfold bind at 1 2 3. rewrite XGBoost_predict_path. unfold ret at 1.
  unfold bind at 1 2 3. rewrite (Sentiment_predict_path _ _ _ _ Hd).
  unfold ret at 1.
  unfold bind at 1 2 3. rewrite BERT_predict_path. unfold ret at 1.
  unfold bind, ret. unfold forecasts, after_models, after_model.
  cbn [seed cursor oob].
  replace (cursor w + Z.to_nat days + Z.to_nat days)%nat
    with (cursor w + 2 * Z.to_nat days)%nat by lia.
  replace (cursor w + 2 * Z.to_nat days + Z.to_nat days)%nat
    with (cursor w + 3 * Z.to_nat days)%nat by lia.
  replace (cursor w + 3 * Z.to_nat days
           + sentiment_draws s (Z.to_nat days) + Z.to_nat days)%nat
    with (cursor w + 4 * Z.to_nat days
          + sentiment_draws s (Z.to_nat days))%nat by lia.
  destruct series; reflexivity.
Qed.

Lemma weightedTotals_pure mps day n :
  paths_of_length n mps -> (0 <= day < Z.of_nat n)%Z ->
  pure_ (EnsembleModel.weightedTotals mps day)
        (weightedSum_of mps day, totalWeight_of mps).
Proof.
  intros Hlen Hday.
  unfold EnsembleModel.weightedTotals, weightedSum_of, totalWeight_of.
  generalize #0 at 1 3. generalize #0.
  induction Hlen as [| m mps Hm Hlen IH]; intros b a.
  - apply pure_ret.
  - cbn [for_of fold_left]. eapply pure_bind; [| apply IH].
    eapply pure_bind; [apply pure_get; unfold len; lia | apply pure_ret].
Qed.

Lemma dayValues_pure mps day n :
  paths_of_length n mps -> (0 <= day < Z.of_nat n)%Z ->
  pure_ (mapM (fun m => (ModelPrediction.predictions m).[day]) mps)
        (dayValues mps day).
Proof.
  intros Hlen Hday. unfold dayValues.
  induction Hlen as [| m mps Hm Hlen IH]; [apply pure_ret |].
  cbn [mapM map].
  eapply pure_bind; [apply pure_get; unfold len; lia |].
  eapply pure_bind; [exact IH | apply pure_ret].
Qed.

Lemma combineDay_pure mps days volatilityFactor day n :
  paths_of_length n mps -> (0 <= day < Z.of_nat n)%Z ->
  pure_ (EnsembleModel.combineDay mps days volatilityFactor day)
        (dayResult mps days volatilityFactor day).
Proof.
  intros Hlen Hday. unfold EnsembleModel.combineDay.
  eapply pure_bind; [apply (weightedTotals_pure mps day n Hlen Hday) |].
  cbv beta iota zeta.
  eapply pure_bind; [apply (dayValues_pure mps day n Hlen Hday) |].
  apply pure_ret.
Qed.

Lemma aggregate_pure mps days volatilityFactor :
  paths_of_length (Z.to_nat days) mps ->
  pure_ (EnsembleModel.aggregate mps days volatilityFactor)
        (map (fun k => dayResult mps days volatilityFactor (Z.of_nat k))
             (seq 0 (Z.to_nat days))).
Proof.
  intros Hlen. unfold EnsembleModel.aggregate.
  destruct (pure_for_range
    (fun k (results : list PredictionResult.t) =>
       results = map (fun k => dayResult mps days volatilityFactor (Z.of_nat k))
                     (seq 0 k))
    0 days
    (fun day results =>
       r <- EnsembleModel.combineDay mps days volatilityFactor day ;;
       ret (results ++ [r]))
    []) as (s & Hs & ->).
  - reflexivity.
  - intros k results Hk ->. eexists. split.
    + eapply pure_bind; [| apply pure_ret].
      apply (combineDay_pure mps days volatilityFactor _ (Z.to_nat days) Hlen). lia.
    + rewrite seq_S, map_app. reflexivity.
  - rewrite Z.sub_0_r in Hs. exact Hs.
Qed.

Lemma forecasts_length s series draws c n :
  paths_of_length n (forecasts s series draws c n).
Proof.
  unfold forecasts, paths_of_length.
  repeat constructor; cbn [ModelPrediction.predictions]; apply ar_path_length.
Qed.

Lemma bind_ext {A B : Type} (m : M A) (k1 k2 : A -> M B) w :
  (forall a w', k1 a w' = k2 a w') -> bind m k1 w = bind m k2 w.
Proof.
  intros Hk. unfold bind. destruct (m w) as [a w' | e w']; [apply Hk | reflexivity].
Qed.

Lemma bind_assoc {A B C : Type} (m : M A) (f : A -> M B) (g : B -> M C) w :
  bind (bind m f) g w = bind m (fun a => bind (f a) g) w.
Proof. unfold bind. destruct (m w) as [a w' | e w']; reflexivity. Qed.

Lemma for_from_ext {S : Type} (body1 body2 : Z -> S -> M S) :
  (forall i s w, body1 i s w = body2 i s w) ->
  forall n lo acc w, for_from n lo body1 acc w = for_from n lo body2 acc w.
Proof.
  intros Hb n. induction n as [| n IH]; intros lo acc w; [reflexivity |].
  cbn [for_from]. unfold bind. rewrite Hb.
  destruct (body2 lo acc w) as [s w' | e w']; [apply IH | reflexivity].
Qed.

(** [predict] is its named parts put together. *)
Lemma predict_parts this historicalPrices days volatilityFactor w :
  EnsembleModel.predict this historicalPrices days volatilityFactor w
  = (mps <- EnsembleModel.modelPredictions this historicalPrices days ;;
     EnsembleModel.aggregate mps days volatilityFactor) w.
Proof.
  unfold EnsembleModel.predict, EnsembleModel.modelPredictions.
  apply bind_ext. intros mps w1.
  unfold EnsembleModel.aggregate, for_range. apply for_from_ext.
  intros day results w'. symmetry.
  unfold EnsembleModel.combineDay. rewrite bind_assoc.
  unfold EnsembleModel.weightedTotals. apply bind_ext.
  intros [weightedSum totalWeight] w2. rewrite bind_assoc. apply bind_ext.
  intros predictions w3. reflexivity.
Qed.

(** [EnsembleModel.predict] in closed form, for any series and any
    [days] that is the length of an array. *)
Lemma predict_closed s series days volatilityFactor w :
  (0 <= days <= 4294967295)%Z ->
  EnsembleModel.predict (ensemble_with s) series days volatilityFactor w
  = Ok (forecast s series days volatilityFactor (seed w) (cursor w))
       (after_models s series (Z.to_nat days) w).
Proof.
  intros Hd. rewrite predict_parts.
  unfold bind. rewrite (modelPredictions_closed _ _ _ _ Hd).
  rewrite (aggregate_pure _ _ _ (forecasts_length _ _ _ _ _)).
  reflexivity.
Qed.

(** A negative [days]: the three models before the sentiment model run,
    then [Array(days)] throws. *)
Lemma predict_negative s series days volatilityFactor w :
  (days < 0)%Z ->
  exists w',
    EnsembleModel.predict (ensemble_with s) series days volatilityFactor w
    = Throw RangeError w'.
Proof.
  intros Hd. rewrite predict_parts. unfold EnsembleModel.modelPredictions.
  unfold ensemble_with. cbn [EnsembleModel.models mapM].
  cbn [Model.predict Model.name Model.confidence TransformerModel.model
       RandomForestModel.model XGBoostModel.model SentimentModel.model
       BERTModel.model].
  unfold bind at 1 2 3. rewrite Transformer_predict_path. unfold ret at 1.
  unfold bind at 1 2 3. rewrite RandomForest_predict_path. unfold ret at 1.
  unfold bind at 1 2 3. rewrite XGBoost_predict_path. unfold ret at 1.
  unfold bind at 1 2 3. rewrite (Sentiment_predict_negative _ _ _ _ Hd).
  eexists. reflexivity.
Qed.

(** ** Lengths *)

Lemma ar_model_length m series days f w :
  ar_model m series days f -> (0 <= days)%Z ->
  returns_ m w (fun path _ => len path = days).
Proof.
  intros Hm Hd. eexists _, _. split; [apply Hm |].
  unfold len. rewrite ar_path_length. lia.
Qed.

Lemma forecast_length s series days volatilityFactor draws c :
  List.length (forecast s series days volatilityFactor draws c)
  = Z.to_nat days.
Proof. unfold forecast. rewrite length_map, length_seq. reflexivity. Qed.

Lemma models_return s series h :
  (0 <= h <= 4294967295)%Z ->
  Forall (fun model =>
            forall w', returns_ (Model.predict model series h) w'
                         (fun path _ => len path = h))
         (EnsembleModel.models (ensemble_with s)).
Proof.
  intros Hh. unfold ensemble_with. cbn [EnsembleModel.models].
  repeat constructor; intros w'; cbn [Model.predict TransformerModel.model
    RandomForestModel.model XGBoostModel.model SentimentModel.model
    BERTModel.model].
  - eapply ar_model_length; [apply Transformer_predict_path | lia].
  - eapply ar_model_length; [apply RandomForest_predict_path | lia].
  - eapply ar_model_length; [apply XGBoost_predict_path | lia].
  - eexists _, _. split; [apply Sentiment_predict_path; lia |].
    unfold len. rewrite ar_path_length. lia.
  - eapply ar_model_length; [apply BERT_predict_path | lia].
Qed.

(** C2, as the code has it.  On a non-empty series and for a horizon
    [h] from 1 to 4294967295, the greatest length of an array, the
    [predict] of each of the five component models returns a path of
    exactly [h] prices, whatever the state of the generator and
    whichever the mode of the sentiment model, and
    [EnsembleModel.predict] returns exactly [h] forecast points. *)
Theorem C2_path_lengths useSentimentAnalysis sentimentImpact series h
  volatilityFactor w :
  series <> [] -> (1 <= h <= 4294967295)%Z ->
  let this :=
    generatePredictionData_ensemble useSentimentAnalysis sentimentImpact in
  Forall (fun model =>
            forall w', returns_ (Model.predict model series h) w'
                         (fun path _ => len path = h))
         (EnsembleModel.models this)
  /\ returns_ (EnsembleModel.predict this series h volatilityFactor)
       w (fun results _ => len results = h).
Proof.
  intros _ Hh this. unfold this. rewrite generatePredictionData_ensemble_eq.
  split.
  - apply models_return. lia.
  - eexists _, _. split; [apply predict_closed; lia |].
    unfold len. rewrite forecast_length. lia.
Qed.

Lemma C2_path_lengths_witness :
  Forall (fun model =>
            forall w', returns_ (Model.predict model [#100] 7) w'
                         (fun path _ => len path = 7%Z))
         (EnsembleModel.models EnsembleModel.new_)
  /\ returns_ (EnsembleModel.predict EnsembleModel.new_ [#100] 7 #1)
       (mkWorld (fun _ => 0.5%R) 0 0) (fun results _ => len results = 7%Z).
Proof.
  apply (C2_path_lengths false #1 [#100] 7 #1 (mkWorld (fun _ => 0.5%R) 0 0));
    [discriminate | lia].
Defined.

(** From the horizon [2^32] on a component model does not return a
    path: on the series of the one price 100, [Array(days)] in the
    sentiment model of [new EnsembleModel()] throws a [RangeError]. *)
Lemma C2_long_horizon_counterexample :
  [#100] <> []
  /\ (1 <= 4294967296)%Z
  /\ In (SentimentModel.model (SentimentModel.new_ false #1))
        (EnsembleModel.models EnsembleModel.new_)
  /\ Model.predict (SentimentModel.model (SentimentModel.new_ false #1))
       [#100] 4294967296 (mkWorld (fun _ => 0.5%R) 0 0)
     = Throw RangeError (mkWorld (fun _ => 0.5%R) 0 0)
  /\ ~ returns_ (Model.predict
                   (SentimentModel.model (SentimentModel.new_ false #1))
                   [#100] 4294967296)
         (mkWorld (fun _ => 0.5%R) 0 0)
         (fun path _ => len path = 4294967296%Z).
Proof.
  assert (H : Model.predict (SentimentModel.model (SentimentModel.new_ false #1))
                [#100] 4294967296 (mkWorld (fun _ => 0.5%R) 0 0)
              = Throw RangeError (mkWorld (fun _ => 0.5%R) 0 0)).
  { cbn [Model.predict SentimentModel.model].
    rewrite Sentiment_predict_too_long by lia. reflexivity. }
  split; [discriminate |]. split; [lia |].
  split; [unfold EnsembleModel.new_; cbn [EnsembleModel.models In]; auto |].
  split; [exact H |].
  intros (path & w' & E & _). rewrite H in E. discriminate.
Qed.

(** ** Finite paths over positive prices *)

Lemma isFinite_mul a b :
  isFinite a = true -> isFinite b = true -> isFinite (a * b) = true.
Proof. destruct a, b; simpl; congruence. Qed.

Lemma ar_price_finite f draws c p0 k :
  isFinite p0 = true -> finite_factor f ->
  isFinite (ar_price f draws c p0 k) = true.
Proof.
  intros Hp Hf. induction k as [| k IH]; [exact Hp |].
  cbn [ar_price]. apply isFinite_mul; [exact IH | apply Hf].
Qed.

Lemma lastPrice_of_finite ps :
  ps <> [] -> isFinite (lastPrice_of (prices_of ps)) = true.
Proof.
  intros Hne. unfold lastPrice_of.
  rewrite nth_prices_of; [reflexivity |].
  unfold len, prices_of. rewrite length_map.
  destruct ps; [contradiction | cbn [List.length]; lia].
Qed.

Lemma sentiment_of_finite useSentimentAnalysis m :
  finite_factor (Sentiment_factor (sentiment_of useSentimentAnalysis (Fin m))).
Proof.
  apply Sentiment_factor_finite. destruct useSentimentAnalysis; reflexivity.
Qed.

Lemma nth_error_map_seq {A : Type} (g : nat -> A) n k :
  (k < n)%nat -> nth_error (map g (seq 0 n)) k = Some (g k).
Proof.
  intros Hk. rewrite nth_error_map.
  rewrite (nth_error_nth' _ 0%nat) by (rewrite length_seq; exact Hk).
  rewrite seq_nth by exact Hk. reflexivity.
Qed.

Lemma nth_forecast s series days volatilityFactor draws c k :
  (k < Z.to_nat days)%nat ->
  nth_error (forecast s series days volatilityFactor draws c) k
  = Some (dayResult (forecasts s series draws c (Z.to_nat days)) days
            volatilityFactor (Z.of_nat k)).
Proof.
  intros Hk. unfold forecast.
  apply (nth_error_map_seq
           (fun k => dayResult (forecasts s series draws c (Z.to_nat days))
                       days volatilityFactor (Z.of_nat k))).
  exact Hk.
Qed.

(** Over positive prices the five prices of a day are finite. *)
Lemma dayValues_finite s ps draws c n d :
  ps <> [] -> Forall (fun p => 0 < p)%R ps ->
  finite_factor (Sentiment_factor s) -> (d < n)%nat ->
  exists x1 x2 x3 x4 x5,
    dayValues (forecasts s (prices_of ps) draws c n) (Z.of_nat d)
    = prices_of [x1; x2; x3; x4; x5].
Proof.
  intros Hne Hpos Hs Hd. unfold dayValues, forecasts.
  cbn [map ModelPrediction.predictions]. rewrite Nat2Z.id.
  rewrite !nth_ar_path by exact Hd.
  pose proof (lastPrice_of_finite ps Hne) as Hp.
  destruct (isFinite_Fin _ (ar_price_finite _ draws c _ (Datatypes.S d) Hp
              (Transformer_growth_finite ps Hpos))) as (x1 & ->).
  destruct (isFinite_Fin _ (ar_price_finite _ draws (c + n) _ (Datatypes.S d) Hp
              (RandomForest_growth_finite ps Hpos))) as (x2 & ->).
  destruct (isFinite_Fin _ (ar_price_finite _ draws (c + 2 * n) _ (Datatypes.S d) Hp
              (XGBoost_growth_finite ps Hpos))) as (x3 & ->).
  destruct (isFinite_Fin _ (ar_price_finite _ draws (c + 3 * n) _ (Datatypes.S d) Hp
              Hs)) as (x4 & ->).
  destruct (isFinite_Fin _ (ar_price_finite _ draws
              (c + 3 * n + sentiment_draws s n) _ (Datatypes.S d) Hp
              (BERT_growth_finite ps Hpos))) as (x5 & ->).
  exists x1, x2, x3, x4, x5. reflexivity.
Qed.

(** ** The weighted mean *)

Lemma totalWeight_forecasts s series draws c n :
  totalWeight_of (forecasts s series draws c n) = #1.1.
Proof.
  unfold totalWeight_of, forecasts.
  cbn [fold_left ModelPrediction.confidence]. js_eval. f_equal. lra.
Qed.

Lemma weightedSum_five (m1 m2 m3 m4 m5 : ModelPrediction.t) d x1 x2 x3 x4 x5
  c1 c2 c3 c4 c5 :
  dayValues [m1; m2; m3; m4; m5] d = prices_of [x1; x2; x3; x4; x5] ->
  map ModelPrediction.confidence [m1; m2; m3; m4; m5]
  = prices_of [c1; c2; c3; c4; c5] ->
  weightedSum_of [m1; m2; m3; m4; m5] d
  = Fin (0 + x1 * c1 + x2 * c2 + x3 * c3 + x4 * c4 + x5 * c5).
Proof.
  unfold dayValues, weightedSum_of. cbn [map fold_left prices_of].
  intros Ev Ec. injection Ev as -> -> -> -> ->. injection Ec as -> -> -> -> ->.
  reflexivity.
Qed.

Lemma weightedSum_forecasts s series draws c n d x1 x2 x3 x4 x5 :
  dayValues (forecasts s series draws c n) d
  = prices_of [x1; x2; x3; x4; x5] ->
  weightedSum_of (forecasts s series draws c n) d
  = Fin (x1 * 0.45 + x2 * 0.25 + x3 * 0.2 + x4 * 0.1 + x5 * 0.1).
Proof.
  intros E. unfold forecasts in *. cbv zeta in *.
  rewrite (weightedSum_five _ _ _ _ _ d x1 x2 x3 x4 x5 0.45 0.25 0.2 0.1 0.1 E eq_refl).
  f_equal. lra.
Qed.

Lemma weighted_mean_in_hull x1 x2 x3 x4 x5 :
  (Rmin_list [x1; x2; x3; x4; x5]
   <= (x1 * 0.45 + x2 * 0.25 + x3 * 0.2 + x4 * 0.1 + x5 * 0.1) / 1.1
   <= Rmax_list [x1; x2; x3; x4; x5])%R.
Proof.
  unfold Rmin_list, Rmax_list. cbn [fold_left].
  set (lo := Rmin (Rmin (Rmin (Rmin x1 x2) x3) x4) x5).
  set (hi := Rmax (Rmax (Rmax (Rmax x1 x2) x3) x4) x5).
  assert (Hlo : (lo <= x1 /\ lo <= x2 /\ lo <= x3 /\ lo <= x4 /\ lo <= x5)%R).
  { unfold lo.
    pose proof (Rmin_l (Rmin (Rmin (Rmin x1 x2) x3) x4) x5).
    pose proof (Rmin_r (Rmin (Rmin (Rmin x1 x2) x3) x4) x5).
    pose proof (Rmin_l (Rmin (Rmin x1 x2) x3) x4).
    pose proof (Rmin_r (Rmin (Rmin x1 x2) x3) x4).
    pose proof (Rmin_l (Rmin x1 x2) x3).
    pose proof (Rmin_r (Rmin x1 x2) x3).
    pose proof (Rmin_l x1 x2). pose proof (Rmin_r x1 x2).
    repeat split; lra. }
  assert (Hhi : (x1 <= hi /\ x2 <= hi /\ x3 <= hi /\ x4 <= hi /\ x5 <= hi)%R).
  { unfold hi.
    pose proof (Rmax_l (Rmax (Rmax (Rmax x1 x2) x3) x4) x5).
    pose proof (Rmax_r (Rmax (Rmax (Rmax x1 x2) x3) x4) x5).
    pose proof (Rmax_l (Rmax (Rmax x1 x2) x3) x4).
    pose proof (Rmax_r (Rmax (Rmax x1 x2) x3) x4).
    pose proof (Rmax_l (Rmax x1 x2) x3).
    pose proof (Rmax_r (Rmax x1 x2) x3).
    pose proof (Rmax_l x1 x2). pose proof (Rmax_r x1 x2).
    repeat split; lra. }
  lra.
Qed.

Lemma five_values s series draws c n d comps :
  dayValues (forecasts s series draws c n) d = prices_of comps ->
  exists x1 x2 x3 x4 x5, comps = [x1; x2; x3; x4; x5].
Proof.
  intros E. apply (f_equal (@List.length number)) in E.
  unfold dayValues, forecasts, prices_of in E. rewrite !length_map in E.
  cbn [List.length] in E.
  do 5 (destruct comps as [| ? comps]; [discriminate |]).
  destruct comps; [| discriminate]. eexists _, _, _, _, _. reflexivity.
Qed.

(** C1, as the code has it, in exact real arithmetic.  On a non-empty
    series, for a horizon [h] from 1 to 4294967295 and a day [d] in
    [0, h), with the sentiment model in either mode: whenever the five
    component predictions of day [d] are finite numbers [x1 .. x5], the
    combined predicted price returned by [EnsembleModel.predict] is
    their weighted mean
    [(0.45 x1 + 0.25 x2 + 0.2 x3 + 0.1 x4 + 0.1 x5) / 1.1], a finite
    number between the least and the greatest of them; and on a series
    of positive prices, with a finite sentiment multiplier, the five
    predictions are finite. *)
Theorem C1_combined_price_in_hull useSentimentAnalysis sentimentImpact series
  h volatilityFactor w d :
  series <> [] -> (1 <= h <= 4294967295)%Z -> (0 <= d < h)%Z ->
  let this :=
    generatePredictionData_ensemble useSentimentAnalysis sentimentImpact in
  exists mps w1 results w2 r,
    EnsembleModel.modelPredictions this series h w = Ok mps w1
    /\ EnsembleModel.predict this series h volatilityFactor w = Ok results w2
    /\ nth_error results (Z.to_nat d) = Some r
    /\ (forall comps,
          dayValues mps d = prices_of comps ->
          exists x1 x2 x3 x4 x5 c,
            comps = [x1; x2; x3; x4; x5]
            /\ c = ((x1 * 0.45 + x2 * 0.25 + x3 * 0.2 + x4 * 0.1 + x5 * 0.1)
                    / 1.1)%R
            /\ PredictionResult.predicted r = Fin c
            /\ (Rmin_list comps <= c <= Rmax_list comps)%R)
    /\ (forall ps m,
          series = prices_of ps -> Forall (fun p => 0 < p)%R ps ->
          sentimentImpact = Fin m ->
          exists comps, dayValues mps d = prices_of comps).
Proof.
  intros Hne Hh Hd this. unfold this.
  rewrite generatePredictionData_ensemble_eq.
  set (s := sentiment_of useSentimentAnalysis sentimentImpact).
  eexists _, _, _, _, _.
  split; [apply modelPredictions_closed; lia |].
  split; [apply predict_closed; lia |].
  split; [apply nth_forecast; lia |].
  rewrite Z2Nat.id by lia. split.
  - intros comps Hv.
    destruct (five_values _ _ _ _ _ _ _ Hv) as (x1 & x2 & x3 & x4 & x5 & ->).
    exists x1, x2, x3, x4, x5. eexists.
    split; [reflexivity |]. split; [reflexivity |]. split.
    + cbn [dayResult PredictionResult.predicted].
      rewrite (weightedSum_forecasts _ _ _ _ _ _ _ _ _ _ _ Hv),
        totalWeight_forecasts.
      apply div_Fin. lra.
    + apply weighted_mean_in_hull.
  - intros ps m -> Hpos Em.
    assert (Hps : ps <> []) by (intros ->; apply Hne; reflexivity).
    destruct (dayValues_finite s ps (seed w) (cursor w) (Z.to_nat h)
                (Z.to_nat d) Hps Hpos) as (x1 & x2 & x3 & x4 & x5 & Hv).
    + unfold s. rewrite Em. apply sentiment_of_finite.
    + lia.
    + rewrite Z2Nat.id in Hv by lia. eexists. exact Hv.
Qed.

Lemma C1_combined_price_in_hull_witness :
  exists mps w1 results w2 r x1 x2 x3 x4 x5 c,
    EnsembleModel.modelPredictions EnsembleModel.new_ (prices_of [100%R]) 7
      (mkWorld (fun _ => 0.5%R) 0 0) = Ok mps w1
    /\ EnsembleModel.predict EnsembleModel.new_ (prices_of [100%R]) 7 #1
         (mkWorld (fun _ => 0.5%R) 0 0) = Ok results w2
    /\ nth_error results (Z.to_nat 6) = Some r
    /\ dayValues mps 6 = prices_of [x1; x2; x3; x4; x5]
    /\ c = ((x1 * 0.45 + x2 * 0.25 + x3 * 0.2 + x4 * 0.1 + x5 * 0.1) / 1.1)%R
    /\ PredictionResult.predicted r = Fin c
    /\ (Rmin_list [x1; x2; x3; x4; x5] <= c
        <= Rmax_list [x1; x2; x3; x4; x5])%R.
Proof.
  destruct (C1_combined_price_in_hull false #1 (prices_of [100%R]) 7 #1
              (mkWorld (fun _ => 0.5%R) 0 0) 6)
    as (mps & w1 & results & w2 & r & Hm & Hp & Hr & Hhull & Hfinite).
  - discriminate.
  - lia.
  - lia.
  - destruct (Hfinite [100%R] 1%R eq_refl) as (comps & Hv).
    + constructor; [lra | constructor].
    + reflexivity.
    + destruct (Hhull comps Hv)
        as (x1 & x2 & x3 & x4 & x5 & c & -> & Hc & Hp' & Hb).
      exists mps, w1, results, w2, r, x1, x2, x3, x4, x5, c. auto 10.
Defined.

(** ** The confidence band *)

Lemma dayFactor_Fin d h :
  h <> 0%Z -> EnsembleModel.dayFactor d h = Fin (1 + IZR d / IZR h).
Proof.
  intros Hh. unfold EnsembleModel.dayFactor, of_Z.
  rewrite div_Fin; [reflexivity |].
  intros E. apply eq_IZR_R0 in E. contradiction.
Qed.

Lemma dayFactor_increasing d1 d2 h :
  (0 <= d1 < d2)%Z -> (d2 < h)%Z ->
  lt (EnsembleModel.dayFactor d1 h) (EnsembleModel.dayFactor d2 h).
Proof.
  intros Hd Hh. rewrite !dayFactor_Fin by lia. unfold lt.
  apply Rplus_lt_compat_l. unfold Rdiv. apply Rmult_lt_compat_r.
  - apply Rinv_0_lt_compat. apply IZR_lt. lia.
  - apply IZR_lt. lia.
Qed.

Lemma dayFactor_first h : h <> 0%Z -> EnsembleModel.dayFactor 0 h = #1.
Proof.
  intros Hh. rewrite dayFactor_Fin by exact Hh. f_equal.
  unfold Rdiv. rewrite Rmult_0_l. apply Rplus_0_r.
Qed.

Lemma dayFactor_last h :
  (1 <= h)%Z -> EnsembleModel.dayFactor (h - 1) h = Fin (2 - 1 / IZR h).
Proof.
  intros Hh. rewrite dayFactor_Fin by lia. f_equal.
  rewrite minus_IZR. assert (0 < IZR h)%R by (apply IZR_lt; lia).
  field. lra.
Qed.

(** ** Model contributions *)

Lemma totalConfidence_default :
  fold_left (fun sum model => sum + Model.confidence model)
    (EnsembleModel.models EnsembleModel.new_) #0
  = #1.1.
Proof.
  unfold EnsembleModel.new_.
  cbn [EnsembleModel.models fold_left Model.confidence TransformerModel.model
       RandomForestModel.model XGBoostModel.model SentimentModel.model
       BERTModel.model].
  js_eval. f_equal. lra.
Qed.

(** C5.  The confidence weights of the five models are 0.45, 0.25, 0.20,
    0.10 and 0.10 and sum to 1.10; [getModelContributions] reports for
    each model [weight / 1.10 * 100], and the reported percentages sum
    to 100.  The result is a value of the model set alone: the function
    takes no generator state and no forecast, and the ensemble with the
    sentiment model in exogenous mode has the same contributions. *)
Theorem C5_model_contributions :
  map Model.confidence (EnsembleModel.models EnsembleModel.new_)
  = [#0.45; #0.25; #0.2; #0.1; #0.1]
  /\ fold_left (fun sum model => sum + Model.confidence model)
       (EnsembleModel.models EnsembleModel.new_) #0 = #1.1
  /\ getModelContributions
     = [ Contribution.mk "Transformer" (Fin (0.45 / 1.1 * 100));
         Contribution.mk "Random Forest" (Fin (0.25 / 1.1 * 100));
         Contribution.mk "XGBoost" (Fin (0.2 / 1.1 * 100));
         Contribution.mk "VADER Sentiment" (Fin (0.1 / 1.1 * 100));
         Contribution.mk "BERT NLP" (Fin (0.1 / 1.1 * 100)) ]
  /\ fold_left (fun sum c => sum + Contribution.weight c)
       getModelContributions #0 = #100
  /\ (forall useSentimentAnalysis sentimentImpact,
        EnsembleModel.getModelContributions
          (generatePredictionData_ensemble useSentimentAnalysis sentimentImpact)
        = getModelContributions).
Proof.
  assert (Hc : getModelContributions
     = [ Contribution.mk "Transformer" (Fin (0.45 / 1.1 * 100));
         Contribution.mk "Random Forest" (Fin (0.25 / 1.1 * 100));
         Contribution.mk "XGBoost" (Fin (0.2 / 1.1 * 100));
         Contribution.mk "VADER Sentiment" (Fin (0.1 / 1.1 * 100));
         Contribution.mk "BERT NLP" (Fin (0.1 / 1.1 * 100)) ]).
  { unfold getModelContributions, EnsembleModel.getModelContributions.
    rewrite totalConfidence_default. unfold EnsembleModel.new_.
    cbn [EnsembleModel.models map Model.confidence Model.name
         TransformerModel.model RandomForestModel.model XGBoostModel.model
         SentimentModel.model BERTModel.model].
    rewrite !div_Fin by lra. reflexivity. }
  split; [reflexivity |].
  split; [apply totalConfidence_default |].
  split; [exact Hc |].
  split.
  - rewrite Hc. cbn [fold_left Contribution.weight]. js_eval. f_equal. lra.
  - intros [|] sentimentImpact; reflexivity.
Qed.

(** ** The sentiment model in exogenous mode *)

Lemma nth_pred_length (ps : list R) :
  nth (List.length ps - 1) ps 0%R = last ps 0%R.
Proof.
  induction ps as [| p ps IH]; [reflexivity |].
  destruct ps as [| q ps]; [reflexivity |].
  cbn [List.length last] in *. rewrite <- IH.
  replace (Datatypes.S (Datatypes.S (List.length ps)) - 1)%nat
    with (Datatypes.S (Datatypes.S (List.length ps) - 1))%nat by lia.
  reflexivity.
Qed.

Lemma lastPrice_of_prices ps :
  ps <> [] -> lastPrice_of (prices_of ps) = Fin (last ps 0%R).
Proof.
  intros Hne. unfold lastPrice_of.
  assert (Hl : (0 < List.length ps)%nat).
  { destruct ps; [contradiction | cbn [List.length]; lia]. }
  unfold len, prices_of. rewrite length_map. fold (prices_of ps).
  rewrite nth_prices_of by lia.
  replace (Z.to_nat (Z.of_nat (List.length ps) - 1))
    with (List.length ps - 1)%nat by lia.
  rewrite nth_pred_length. reflexivity.
Qed.

Lemma ar_price_exogenous m draws c base k :
  ar_price (Sentiment_factor (SentimentModel.new_ true (Fin m))) draws c
    (Fin base) k
  = Fin (base * m ^ k).
Proof.
  induction k as [| k IH]; cbn [ar_price].
  - f_equal. simpl. ring.
  - rewrite IH. unfold Sentiment_factor.
    cbn [SentimentModel.useSentimentAPI SentimentModel.sentimentImpact].
    js_eval. f_equal. simpl. ring.
Qed.

(** C6.  In exogenous mode with impact multiplier [m], on a non-empty
    series of finite prices whose last price is [basePrice], and for a
    horizon that [Array(days)] accepts (at most 4294967295), the
    sentiment model returns for every day [d] in [0, horizon) the price
    [basePrice * m ^ (d + 1)]. *)
Theorem C6_exogenous_sentiment ps m horizon d w :
  ps <> [] -> (horizon <= 4294967295)%Z -> (0 <= d < horizon)%Z ->
  exists path w',
    SentimentModel.predict (SentimentModel.new_ true (Fin m)) (prices_of ps)
      horizon w = Ok path w'
    /\ nth_error path (Z.to_nat d)
       = Some (Fin (last ps 0%R * m ^ (Z.to_nat d + 1))).
Proof.
  intros Hne Hmax Hd. eexists _, _.
  split; [apply Sentiment_predict_exogenous; lia |].
  unfold ar_path.
  rewrite (nth_error_map_seq
             (fun k => ar_price _ (seed w) (cursor w) _ (Datatypes.S k)))
    by lia.
  rewrite (lastPrice_of_prices ps Hne), ar_price_exogenous.
  rewrite Nat.add_1_r. reflexivity.
Qed.

(** Scenario C of the specification: multiplier 1.05 over 7 days. *)
Lemma C6_exogenous_sentiment_witness :
  exists path w',
    SentimentModel.predict (SentimentModel.new_ true #1.05)
      (prices_of [90; 95; 100]%R) 7 (mkWorld (fun _ => 0.5%R) 0 0)
    = Ok path w'
    /\ nth_error path (Z.to_nat 6)
       = Some (Fin (last [90; 95; 100]%R 0%R * 1.05 ^ (Z.to_nat 6 + 1))).
Proof.
  apply (C6_exogenous_sentiment [90; 95; 100]%R 1.05 7 6
           (mkWorld (fun _ => 0.5%R) 0 0)).
  - discriminate.
  - lia.
  - lia.
Defined.

(** ** Fallbacks of the statistics helpers *)

Ltac js_run :=
  cbv -[Rplus Rminus Rmult Rdiv Rinv Ropp exp IZR Req_dec_T Rlt_dec sqrt sin
        tanh PI Rmax pow].

Ltac decide_real :=
  match goal with
  | |- context [Req_dec_T ?a ?b] =>
      destruct (Req_dec_T a b); [try (exfalso; lra) | try (exfalso; lra)]
  | |- context [Rlt_dec ?a ?b] =>
      destruct (Rlt_dec a b); [try (exfalso; lra) | try (exfalso; lra)]
  end.

Lemma short_lt (prices : list number) (n : Z) :
  (len prices < n)%Z -> (len prices <? n)%Z = true.
Proof. intros H. apply Z.ltb_lt. exact H. Qed.

(** C7, as the code has it.  On a series shorter than its guard an
    estimator returns its neutral default, without effect and without
    error: with fewer than 2 observations the weighted trend returns 0
    and each of the three volatilities returns 0.02; with fewer than 5
    the BERT trend returns 0; with fewer than 10 the XGBoost trend
    returns 0, and so does the Random Forest trend.  The long-range
    trend is the exception: with fewer than 30 observations it has no
    default of its own and returns, without effect and without error,
    what the weighted trend returns on the same series. *)
Theorem C7_fallback_defaults prices :
  ((len prices < 2)%Z ->
     pure_ (TransformerModel.calculateTrend prices) #0
     /\ pure_ (TransformerModel.calculateLongRangeTrend prices) #0
     /\ pure_ (TransformerModel.calculateVolatility prices) #0.02
     /\ pure_ (RandomForestModel.calculateVolatility prices) #0.02
     /\ pure_ (XGBoostModel.calculateVolatility prices) #0.02)
  /\ ((len prices < 5)%Z -> pure_ (BERTModel.calculateTrend prices) #0)
  /\ ((len prices < 10)%Z ->
        pure_ (RandomForestModel.calculateTrend prices) #0
        /\ pure_ (XGBoostModel.calculateTrend prices) #0)
  /\ ((len prices < 30)%Z ->
        exists t,
          pure_ (TransformerModel.calculateTrend prices) t
          /\ pure_ (TransformerModel.calculateLongRangeTrend prices) t).
Proof.
  split; [| split; [| split]].
  - intros H. pose proof (short_lt _ _ H) as E.
    assert (E30 : (len prices <? 30)%Z = true) by (apply Z.ltb_lt; lia).
    unfold TransformerModel.calculateTrend,
      TransformerModel.calculateLongRangeTrend,
      TransformerModel.calculateTrend,
      TransformerModel.calculateVolatility,
      RandomForestModel.calculateVolatility, XGBoostModel.calculateVolatility.
    rewrite E, E30. repeat split; apply pure_ret.
  - intros H. unfold BERTModel.calculateTrend. rewrite (short_lt _ _ H).
    apply pure_ret.
  - intros H. unfold RandomForestModel.calculateTrend, XGBoostModel.calculateTrend.
    rewrite (short_lt _ _ H). split; apply pure_ret.
  - intros H. destruct (Transformer_calculateTrend_pure prices) as (t & Ht & _).
    exists t. split; [exact Ht |].
    unfold TransformerModel.calculateLongRangeTrend.
    rewrite (short_lt _ _ H). exact Ht.
Qed.

Lemma C7_fallback_defaults_witness :
  (pure_ (TransformerModel.calculateTrend [#100]) #0
   /\ pure_ (TransformerModel.calculateLongRangeTrend [#100]) #0
   /\ pure_ (TransformerModel.calculateVolatility [#100]) #0.02
   /\ pure_ (RandomForestModel.calculateVolatility [#100]) #0.02
   /\ pure_ (XGBoostModel.calculateVolatility [#100]) #0.02)
  /\ pure_ (BERTModel.calculateTrend [#100]) #0
  /\ (pure_ (RandomForestModel.calculateTrend [#100]) #0
      /\ pure_ (XGBoostModel.calculateTrend [#100]) #0)
  /\ (exists t,
        pure_ (TransformerModel.calculateTrend [#100]) t
        /\ pure_ (TransformerModel.calculateLongRangeTrend [#100]) t).
Proof.
  destruct (C7_fallback_defaults [#100]) as (H2 & H5 & H10 & H30).
  split; [apply H2; unfold len; simpl; lia |].
  split; [apply H5; unfold len; simpl; lia |].
  split; [apply H10; unfold len; simpl; lia |].
  apply H30. unfold len. simpl. lia.
Defined.

(** With two observations, fewer than the 30 of the long-range trend,
    that trend is not the neutral 0: on the series 1, 2 it is 1. *)
Lemma C7_long_range_counterexample :
  (len [#1; #2] < 30)%Z
  /\ pure_ (TransformerModel.calculateLongRangeTrend [#1; #2]) #1
  /\ ~ pure_ (TransformerModel.calculateLongRangeTrend [#1; #2]) #0.
Proof.
  assert (H : pure_ (TransformerModel.calculateLongRangeTrend [#1; #2]) #1).
  { intros w. js_run. decide_real.
    pose proof (exp_pos (1 * / 10 * 1)).
    decide_real. do 2 f_equal. field. lra. }
  split; [unfold len; simpl; lia |]. split; [exact H |].
  intros H0. pose proof (pure_unique _ _ _ H H0) as E.
  injection E as E. lra.
Qed.

(** ** No validation at the boundary *)

(** On the empty series the start price is [undefined], and every price
    that follows from it is [NaN]. *)
Lemma ar_price_NaN f draws c k : ar_price f draws c NaN k = NaN.
Proof.
  induction k as [| k IH]; [reflexivity |].
  cbn [ar_price]. rewrite IH. reflexivity.
Qed.

Lemma dayResult_empty s draws c n days volatilityFactor k :
  (k < n)%nat ->
  dayResult (forecasts s [] draws c n) days volatilityFactor (Z.of_nat k)
  = PredictionResult.mk NaN NaN NaN NaN.
Proof.
  intros Hk.
  assert (Hp : weightedSum_of (forecasts s [] draws c n) (Z.of_nat k) = NaN).
  { unfold weightedSum_of, forecasts. cbv zeta.
    cbn [fold_left ModelPrediction.predictions ModelPrediction.confidence].
    rewrite Nat2Z.id, !nth_ar_path by exact Hk.
    replace (lastPrice_of []) with NaN by reflexivity.
    rewrite !ar_price_NaN. reflexivity. }
  unfold dayResult. cbv zeta. rewrite Hp.
  replace (NaN / totalWeight_of (forecasts s [] draws c n)) with NaN
    by reflexivity.
  destruct (stdDev_of (forecasts s [] draws c n) (Z.of_nat k)); reflexivity.
Qed.

Lemma forecast_empty s days volatilityFactor draws c :
  Forall (fun r => r = PredictionResult.mk NaN NaN NaN NaN)
    (forecast s [] days volatilityFactor draws c).
Proof.
  unfold forecast. apply Forall_map, Forall_forall. intros k Hk.
  apply in_seq in Hk. apply dayResult_empty. lia.
Qed.

(** C4, as the code has it.  [EnsembleModel.predict] checks nothing at
    its boundary.  For every series, the empty one included, and every
    horizon [h] from 0 to 4294967295: each of the five component models
    returns a path of [h] prices without raising, the five forecasts
    are collected, and the aggregation completes with [h] points, none
    for the horizon 0; on the empty series every field of every point
    is [NaN].  A negative horizon is not rejected at the boundary
    either: the Transformer, Random Forest and XGBoost models return
    the empty path, and then [Array(days)] in the sentiment model throws
    the [RangeError] that ends [predict]. *)
Theorem C4_no_boundary_check useSentimentAnalysis sentimentImpact series h
  volatilityFactor w :
  let this :=
    generatePredictionData_ensemble useSentimentAnalysis sentimentImpact in
  ((0 <= h <= 4294967295)%Z ->
     Forall (fun model =>
               forall w', returns_ (Model.predict model series h) w'
                            (fun path _ => len path = h))
            (EnsembleModel.models this)
     /\ exists mps w1 results w2,
          EnsembleModel.modelPredictions this series h w = Ok mps w1
          /\ List.length mps = 5%nat
          /\ paths_of_length (Z.to_nat h) mps
          /\ EnsembleModel.predict this series h volatilityFactor w
             = Ok results w2
          /\ len results = h
          /\ (series = [] ->
              Forall (fun r => r = PredictionResult.mk NaN NaN NaN NaN)
                results))
  /\ ((h < 0)%Z ->
        (forall w', returns_ (TransformerModel.predict series h) w'
                      (fun path _ => path = []))
        /\ (forall w', returns_ (RandomForestModel.predict series h) w'
                         (fun path _ => path = []))
        /\ (forall w', returns_ (XGBoostModel.predict series h) w'
                         (fun path _ => path = []))
        /\ (forall s w', exists w'',
              SentimentModel.predict s series h w' = Throw RangeError w'')
        /\ exists w',
             EnsembleModel.predict this series h volatilityFactor w
             = Throw RangeError w').
Proof.
  intros this. unfold this. rewrite generatePredictionData_ensemble_eq.
  split.
  - intros Hh. split; [apply models_return; exact Hh |].
    eexists _, _, _, _.
    split; [apply modelPredictions_closed; exact Hh |].
    split; [reflexivity |].
    split; [apply forecasts_length |].
    split; [apply predict_closed; exact Hh |].
    split; [unfold len; rewrite forecast_length; lia |].
    intros ->. apply forecast_empty.
  - intros Hh.
    assert (Hn : Z.to_nat h = 0%nat) by lia.
    split; [| split; [| split; [| split]]].
    + intros w'. eexists _, _.
      split; [apply Transformer_predict_path |]. rewrite Hn. reflexivity.
    + intros w'. eexists _, _.
      split; [apply RandomForest_predict_path |]. rewrite Hn. reflexivity.
    + intros w'. eexists _, _.
      split; [apply XGBoost_predict_path |]. rewrite Hn. reflexivity.
    + intros s w'. eexists. apply Sentiment_predict_negative. exact Hh.
    + apply predict_negative. exact Hh.
Qed.

Lemma C4_no_boundary_check_witness :
  Forall (fun model =>
            forall w', returns_ (Model.predict model [] 2) w'
                         (fun path _ => len path = 2%Z))
         (EnsembleModel.models EnsembleModel.new_)
  /\ exists mps w1 results w2,
       EnsembleModel.modelPredictions EnsembleModel.new_ [] 2
         (mkWorld (fun _ => 0.5%R) 0 0) = Ok mps w1
       /\ List.length mps = 5%nat
       /\ paths_of_length (Z.to_nat 2) mps
       /\ EnsembleModel.predict EnsembleModel.new_ [] 2 #1
            (mkWorld (fun _ => 0.5%R) 0 0) = Ok results w2
       /\ len results = 2%Z
       /\ (@nil number = [] ->
           Forall (fun r => r = PredictionResult.mk NaN NaN NaN NaN) results).
Proof.
  apply (proj1 (C4_no_boundary_check false #1 [] 2 #1
                  (mkWorld (fun _ => 0.5%R) 0 0))).
  lia.
Defined.

(** [new EnsembleModel()] is the ensemble with the sentiment model in
    stochastic mode. *)
Lemma predict_new series days volatilityFactor w :
  (0 <= days <= 4294967295)%Z ->
  EnsembleModel.predict EnsembleModel.new_ series days volatilityFactor w
  = Ok (forecast (SentimentModel.new_ false #1) series days volatilityFactor
          (seed w) (cursor w))
       (after_models (SentimentModel.new_ false #1) series (Z.to_nat days) w).
Proof. apply (predict_closed (SentimentModel.new_ false #1)). Qed.

(** Neither malformed input is rejected: a horizon of 0 yields the empty
    forecast, and the empty series yields a point whose fields are all
    [NaN]; in the second call the five models have run (five draws are
    gone and the five start prices were read out of range).  And a model
    can raise on a series and a horizon that are well formed: on the
    series of the one price 100 and the horizon [2^32], [Array(days)]
    in the sentiment model throws a [RangeError]. *)
Lemma C4_rejection_counterexample :
  EnsembleModel.predict EnsembleModel.new_ [#100] 0 #1
    (mkWorld (fun _ => 0.5%R) 0 0)
  = Ok [] (mkWorld (fun _ => 0.5%R) 0 0)
  /\ EnsembleModel.predict EnsembleModel.new_ [] 1 #1
       (mkWorld (fun _ => 0.5%R) 0 0)
     = Ok [PredictionResult.mk NaN NaN NaN NaN]
          (mkWorld (fun _ => 0.5%R) 5 5)
  /\ SentimentModel.predict (SentimentModel.new_ false #1) [#100] 4294967296
       (mkWorld (fun _ => 0.5%R) 0 0)
     = Throw RangeError (mkWorld (fun _ => 0.5%R) 0 0).
Proof.
  split; [| split].
  - rewrite predict_new by lia. reflexivity.
  - rewrite predict_new by lia. reflexivity.
  - rewrite Sentiment_predict_too_long by lia. reflexivity.
Qed.

(** ** The confidence score *)

Lemma variance5_nonneg x1 x2 x3 x4 x5 : (0 <= variance5 x1 x2 x3 x4 x5)%R.
Proof.
  unfold variance5. cbv zeta.
  set (m := ((x1 + x2 + x3 + x4 + x5) / 5)%R).
  pose proof (pow2_ge_0 (x1 - m)). pose proof (pow2_ge_0 (x2 - m)).
  pose proof (pow2_ge_0 (x3 - m)). pose proof (pow2_ge_0 (x4 - m)).
  pose proof (pow2_ge_0 (x5 - m)). lra.
Qed.

Lemma calculateVariance_five x1 x2 x3 x4 x5 :
  EnsembleModel.calculateVariance (prices_of [x1; x2; x3; x4; x5])
  = Fin (variance5 x1 x2 x3 x4 x5).
Proof.
  unfold EnsembleModel.calculateVariance, prices_of, len, of_Z.
  cbn [map fold_left List.length]. js_eval.
  rewrite div_Fin by (simpl; lra). js_eval.
  rewrite div_Fin by (simpl; lra).
  f_equal. unfold variance5. simpl. field.
Qed.

(** The point of a day whose five component prices are finite. *)
Lemma dayResult_five s series draws c n days volatilityFactor d
  x1 x2 x3 x4 x5 :
  dayValues (forecasts s series draws c n) d
  = prices_of [x1; x2; x3; x4; x5] ->
  let r := dayResult (forecasts s series draws c n) days
             volatilityFactor d in
  PredictionResult.predicted r = Fin (mean5 x1 x2 x3 x4 x5)
  /\ stdDev_of (forecasts s series draws c n) d
     = Fin (sqrt (variance5 x1 x2 x3 x4 x5))
  /\ PredictionResult.confidence r
     = #1 - Fin (sqrt (variance5 x1 x2 x3 x4 x5)) / Fin (mean5 x1 x2 x3 x4 x5).
Proof.
  intros Hv r.
  assert (Hp : PredictionResult.predicted r = Fin (mean5 x1 x2 x3 x4 x5)).
  { unfold r. cbn [dayResult PredictionResult.predicted].
    rewrite (weightedSum_forecasts _ _ _ _ _ _ _ _ _ _ _ Hv),
      totalWeight_forecasts.
    apply div_Fin. lra. }
  assert (Hs : stdDev_of (forecasts s series draws c n) d
               = Fin (sqrt (variance5 x1 x2 x3 x4 x5))).
  { unfold stdDev_of. rewrite Hv, calculateVariance_five.
    apply sqrt_Fin, variance5_nonneg. }
  split; [exact Hp |]. split; [exact Hs |].
  unfold r in *. cbn [dayResult PredictionResult.predicted
                      PredictionResult.confidence] in *.
  rewrite Hs, Hp. reflexivity.
Qed.

Lemma dayResult_band s series draws c n h vf d x1 x2 x3 x4 x5 :
  h <> 0%Z ->
  dayValues (forecasts s series draws c n) d
  = prices_of [x1; x2; x3; x4; x5] ->
  let r := dayResult (forecasts s series draws c n) h (Fin vf) d in
  let half :=
    (sqrt (variance5 x1 x2 x3 x4 x5) * 1.96 * (1 + IZR d / IZR h) * vf)%R in
  PredictionResult.predicted r = Fin (mean5 x1 x2 x3 x4 x5)
  /\ PredictionResult.upperBound r = Fin (mean5 x1 x2 x3 x4 x5 + half)
  /\ PredictionResult.lowerBound r = Fin (mean5 x1 x2 x3 x4 x5 - half).
Proof.
  intros Hh Hv r half.
  destruct (dayResult_five s series draws c n h (Fin vf) d x1 x2 x3 x4 x5 Hv)
    as (Hp & Hs & _).
  fold r in Hp. split; [exact Hp |].
  unfold r in *.
  cbn [dayResult PredictionResult.predicted PredictionResult.upperBound
       PredictionResult.lowerBound] in *.
  rewrite Hp, Hs, dayFactor_Fin by exact Hh.
  split; reflexivity.
Qed.

(** C3.  On a non-empty series, for a horizon [h] from 1 to 4294967295
    and a day [d] in [0, h): the point returned for day [d] has
    [upperBound = predicted + halfWidth] and
    [lowerBound = predicted - halfWidth], where
    [halfWidth = stdDev * 1.96 * dayFactor * volatilityFactor], [stdDev]
    is the square root of the variance of the day's five component
    prices and [dayFactor = 1 + d / h].  Whenever the five component
    prices [x1 .. x5] of the day and the volatility factor [v] are
    finite, these are numbers: [predicted] is the weighted mean of the
    five, [stdDev] is the root [sd >= 0] of their variance, and the
    bounds are [predicted +/- sd * 1.96 * (1 + d / h) * v]; and on a
    series of positive prices, with a finite sentiment multiplier, the
    five prices are finite (exact arithmetic).  The day factor is
    strictly increasing in the day, is exactly 1 on day 0 and is
    [2 - 1 / h] on the last day. *)
Theorem C3_confidence_band useSentimentAnalysis sentimentImpact series h
  volatilityFactor w d :
  series <> [] -> (1 <= h <= 4294967295)%Z -> (0 <= d < h)%Z ->
  let this :=
    generatePredictionData_ensemble useSentimentAnalysis sentimentImpact in
  exists mps w1 results w2 r,
    EnsembleModel.modelPredictions this series h w = Ok mps w1
    /\ EnsembleModel.predict this series h volatilityFactor w = Ok results w2
    /\ nth_error results (Z.to_nat d) = Some r
    /\ (let stdDev :=
          Math_sqrt (EnsembleModel.calculateVariance (dayValues mps d)) in
        let halfWidth :=
          stdDev * #1.96 * EnsembleModel.dayFactor d h * volatilityFactor in
        PredictionResult.upperBound r = PredictionResult.predicted r + halfWidth
        /\ PredictionResult.lowerBound r
           = PredictionResult.predicted r - halfWidth)
    /\ (forall x1 x2 x3 x4 x5 v,
          dayValues mps d = prices_of [x1; x2; x3; x4; x5] ->
          volatilityFactor = Fin v ->
          let predicted := mean5 x1 x2 x3 x4 x5 in
          let sd := sqrt (variance5 x1 x2 x3 x4 x5) in
          let halfWidth := (sd * 1.96 * (1 + IZR d / IZR h) * v)%R in
          PredictionResult.predicted r = Fin predicted
          /\ Math_sqrt (EnsembleModel.calculateVariance (dayValues mps d))
             = Fin sd
          /\ (0 <= sd)%R
          /\ PredictionResult.upperBound r = Fin (predicted + halfWidth)
          /\ PredictionResult.lowerBound r = Fin (predicted - halfWidth))
    /\ (forall ps m,
          series = prices_of ps -> Forall (fun p => 0 < p)%R ps ->
          sentimentImpact = Fin m ->
          exists x1 x2 x3 x4 x5,
            dayValues mps d = prices_of [x1; x2; x3; x4; x5])
    /\ EnsembleModel.dayFactor d h = Fin (1 + IZR d / IZR h)
    /\ (forall d1 d2, (0 <= d1 < d2)%Z -> (d2 < h)%Z ->
        lt (EnsembleModel.dayFactor d1 h) (EnsembleModel.dayFactor d2 h))
    /\ EnsembleModel.dayFactor 0 h = #1
    /\ EnsembleModel.dayFactor (h - 1) h = Fin (2 - 1 / IZR h).
Proof.
  intros Hne Hh Hd this. unfold this. rewrite generatePredictionData_ensemble_eq.
  set (s := sentiment_of useSentimentAnalysis sentimentImpact).
  eexists _, _, _, _, _.
  split; [apply modelPredictions_closed; lia |].
  split; [apply predict_closed; lia |].
  split; [apply nth_forecast; lia |].
  rewrite Z2Nat.id by lia.
  split; [split; reflexivity |].
  split.
  { intros x1 x2 x3 x4 x5 v Hv ->. cbv zeta.
    assert (Hh0 : h <> 0%Z) by lia.
    destruct (dayResult_band s _ _ _ _ h v d _ _ _ _ _ Hh0 Hv)
      as (Hp & Hu & Hl).
    split; [exact Hp |].
    split; [rewrite Hv, calculateVariance_five;
            apply sqrt_Fin, variance5_nonneg |].
    split; [apply sqrt_pos |]. split; [exact Hu | exact Hl]. }
  split.
  { intros ps m -> Hpos Em.
    assert (Hps : ps <> []) by (intros ->; apply Hne; reflexivity).
    destruct (dayValues_finite s ps (seed w) (cursor w) (Z.to_nat h)
                (Z.to_nat d) Hps Hpos) as (x1 & x2 & x3 & x4 & x5 & Hv).
    - unfold s. rewrite Em. apply sentiment_of_finite.
    - lia.
    - rewrite Z2Nat.id in Hv by lia.
      exists x1, x2, x3, x4, x5. exact Hv. }
  split; [apply dayFactor_Fin; lia |].
  split; [intros d1 d2 H1 H2; apply dayFactor_increasing; assumption |].
  split; [apply dayFactor_first; lia | apply dayFactor_last; lia].
Qed.

Lemma C3_confidence_band_witness :
  exists mps w1 results w2 r x1 x2 x3 x4 x5,
    EnsembleModel.modelPredictions EnsembleModel.new_
      (prices_of [90; 100]%R) 7 (mkWorld (fun _ => 0.5%R) 0 0) = Ok mps w1
    /\ EnsembleModel.predict EnsembleModel.new_ (prices_of [90; 100]%R) 7 #0.9
         (mkWorld (fun _ => 0.5%R) 0 0) = Ok results w2
    /\ nth_error results (Z.to_nat 3) = Some r
    /\ dayValues mps 3 = prices_of [x1; x2; x3; x4; x5]
    /\ PredictionResult.predicted r = Fin (mean5 x1 x2 x3 x4 x5)
    /\ PredictionResult.upperBound r
       = Fin (mean5 x1 x2 x3 x4 x5
              + sqrt (variance5 x1 x2 x3 x4 x5) * 1.96 * (1 + IZR 3 / IZR 7)
                * 0.9)
    /\ PredictionResult.lowerBound r
       = Fin (mean5 x1 x2 x3 x4 x5
              - sqrt (variance5 x1 x2 x3 x4 x5) * 1.96 * (1 + IZR 3 / IZR 7)
                * 0.9)
    /\ lt (EnsembleModel.dayFactor 2 7) (EnsembleModel.dayFactor 3 7)
    /\ EnsembleModel.dayFactor 0 7 = #1
    /\ EnsembleModel.dayFactor (7 - 1) 7 = Fin (2 - 1 / IZR 7).
Proof.
  destruct (C3_confidence_band false #1 (prices_of [90; 100]%R) 7 #0.9
              (mkWorld (fun _ => 0.5%R) 0 0) 3)
    as (mps & w1 & results & w2 & r & Hm & Hp & Hr & _ & Hband & Hfin & _
        & Hinc & H0 & Hlast).
  - discriminate.
  - lia.
  - lia.
  - destruct (Hfin [90; 100]%R 1%R eq_refl)
      as (x1 & x2 & x3 & x4 & x5 & Hv).
    + repeat (constructor; [lra |]). constructor.
    + reflexivity.
    + destruct (Hband x1 x2 x3 x4 x5 0.9%R Hv eq_refl)
        as (Hpr & _ & _ & Hu & Hl).
      exists mps, w1, results, w2, r, x1, x2, x3, x4, x5.
      split; [exact Hm |]. split; [exact Hp |]. split; [exact Hr |].
      split; [exact Hv |]. split; [exact Hpr |]. split; [exact Hu |].
      split; [exact Hl |]. split; [apply Hinc; lia |].
      split; [exact H0 | exact Hlast].
Defined.

(** ** Three series: a geometric one, one with an early spike, and the
    series of the single price 0 *)

Lemma tanh_bounds x : (-1 < tanh x < 1)%R.
Proof.
  unfold tanh, sinh, cosh.
  pose proof (exp_pos x). pose proof (exp_pos (- x)).
  assert (Hc : (0 < (exp x + exp (- x)) / 2)%R) by lra.
  split.
  - apply (Rmult_lt_reg_r ((exp x + exp (- x)) / 2)); [exact Hc |].
    unfold Rdiv at 2. rewrite Rmult_assoc, Rinv_l by lra. lra.
  - apply (Rmult_lt_reg_r ((exp x + exp (- x)) / 2)); [exact Hc |].
    unfold Rdiv at 1. rewrite Rmult_assoc, Rinv_l by lra. lra.
Qed.

Lemma tanh_0 : tanh 0 = 0%R.
Proof. unfold tanh. rewrite sinh_0. unfold Rdiv. apply Rmult_0_l. Qed.

Ltac exp_facts :=
  repeat match goal with
  | |- context [exp ?x] =>
      lazymatch goal with
      | H : (0 < exp x)%R |- _ => fail
      | _ => pose proof (exp_pos x)
      end
  end.

Lemma geo_T_trend :
  value_of (TransformerModel.calculateTrend (prices_of [1; 3; 9; 27; 81]%R))
  = #2.
Proof. js_run. exp_facts. repeat decide_real. f_equal. field. lra. Qed.

Lemma geo_T_lrt :
  value_of (TransformerModel.calculateLongRangeTrend
              (prices_of [1; 3; 9; 27; 81]%R))
  = #2.
Proof. js_run. exp_facts. repeat decide_real. f_equal. field. lra. Qed.

Lemma geo_B_trend :
  value_of (BERTModel.calculateTrend (prices_of [1; 3; 9; 27; 81]%R)) = #16.
Proof. js_run. repeat decide_real. f_equal. lra. Qed.

Lemma geo_R_trend :
  value_of (RandomForestModel.calculateTrend (prices_of [1; 3; 9; 27; 81]%R))
  = #0.
Proof. reflexivity. Qed.

Lemma geo_X_trend :
  value_of (XGBoostModel.calculateTrend (prices_of [1; 3; 9; 27; 81]%R)) = #0.
Proof. reflexivity. Qed.

Lemma volatility_values ps :
  Forall (fun p => 0 < p)%R ps ->
  exists vT vR vX,
    value_of (TransformerModel.calculateVolatility (prices_of ps)) = Fin vT
    /\ value_of (RandomForestModel.calculateVolatility (prices_of ps)) = Fin vR
    /\ value_of (XGBoostModel.calculateVolatility (prices_of ps)) = Fin vX.
Proof.
  intros Hpos.
  destruct (Transformer_calculateVolatility_pure (prices_of ps)) as (a & Ha & Hfa).
  destruct (RandomForest_calculateVolatility_pure (prices_of ps)) as (b & Hb & Hfb).
  destruct (XGBoost_calculateVolatility_pure (prices_of ps)) as (c & Hc & Hfc).
  destruct (isFinite_Fin _ (Hfa ps eq_refl Hpos)) as (vT & ->).
  destruct (isFinite_Fin _ (Hfb ps eq_refl Hpos)) as (vR & ->).
  destruct (isFinite_Fin _ (Hfc ps eq_refl Hpos)) as (vX & ->).
  exists vT, vR, vX.
  rewrite (value_of_pure _ _ Ha), (value_of_pure _ _ Hb), (value_of_pure _ _ Hc).
  auto.
Qed.

Lemma geo_dayValues :
  dayValues
    (forecasts (SentimentModel.new_ false #1) (prices_of [1; 3; 9; 27; 81]%R)
       (fun _ => 0.5%R) 0 1) 0
  = prices_of [81 * (3 + tanh (2 * 10) * 0.005); 81; 81; 81 * 1.002; 81 * 20.2]%R.
Proof.
  destruct (volatility_values [1; 3; 9; 27; 81]%R) as (vT & vR & vX & HT & HR & HX).
  { repeat constructor; lra. }
  unfold dayValues, forecasts.
  cbn [map ModelPrediction.predictions Z.to_nat].
  rewrite !nth_ar_path by lia. cbn [ar_price Z.of_nat].
  unfold Transformer_growth, RandomForest_growth, XGBoost_growth, BERT_growth.
  rewrite geo_T_trend, geo_T_lrt, geo_B_trend, geo_R_trend, geo_X_trend, HT, HR, HX.
  replace (lastPrice_of (prices_of [1; 3; 9; 27; 81]%R)) with #81 by reflexivity.
  unfold Transformer_factor, RandomForest_factor, XGBoost_factor, BERT_factor,
    Sentiment_factor.
  cbn [SentimentModel.useSentimentAPI Z.rem Z.quotrem fst snd Z.of_N].
  js_eval. rewrite !div_Fin by lra. js_eval.
  unfold prices_of. cbn [map].
  replace (0 * PI / 3.5)%R with 0%R by lra.
  replace (0 * PI / 7)%R with 0%R by lra.
  rewrite sin_0.
  repeat (apply (f_equal2 (@cons number)); [apply (f_equal Fin); lra |]).
  reflexivity.
Qed.

Lemma geo_confidence_negative :
  forall T, (-1 < T < 1)%R ->
  let c := mean5 (81 * (3 + T * 0.005)) 81 81 (81 * 1.002) (81 * 20.2) in
  let v := variance5 (81 * (3 + T * 0.005)) 81 81 (81 * 1.002) (81 * 20.2) in
  (c <> 0 /\ 1 - sqrt v / c < 0)%R.
Proof.
  intros T HT c v.
  assert (Hc : (0 < c)%R) by (unfold c, mean5; lra).
  assert (Hv : (c * c < v)%R) by (unfold c, v, mean5, variance5; nra).
  assert (Hs : (c < sqrt v)%R).
  { rewrite <- (sqrt_square c) by lra. apply sqrt_lt_1_alt. nra. }
  split; [lra |].
  assert (1 < sqrt v / c)%R; [| lra].
  apply (Rmult_lt_reg_r c); [exact Hc |].
  unfold Rdiv. rewrite Rmult_assoc, Rinv_l by lra. lra.
Qed.

Lemma spike_T_trend :
  value_of (TransformerModel.calculateTrend
              (prices_of [1; 100; 1; 1; 1; 1; 1; 1; 1; 1; 1; 1; 1; 1; 1; 1]%R))
  = #0.
Proof.
  js_run. exp_facts. repeat decide_real. f_equal. field. lra.
Qed.

Lemma spike_T_lrt :
  value_of (TransformerModel.calculateLongRangeTrend
              (prices_of [1; 100; 1; 1; 1; 1; 1; 1; 1; 1; 1; 1; 1; 1; 1; 1]%R))
  = #0.
Proof.
  js_run. exp_facts. repeat decide_real. f_equal. field. lra.
Qed.

Lemma spike_R_trend :
  value_of (RandomForestModel.calculateTrend
              (prices_of [1; 100; 1; 1; 1; 1; 1; 1; 1; 1; 1; 1; 1; 1; 1; 1]%R))
  = #0.
Proof. js_run. repeat decide_real. f_equal. lra. Qed.

Lemma spike_X_trend :
  value_of (XGBoostModel.calculateTrend
              (prices_of [1; 100; 1; 1; 1; 1; 1; 1; 1; 1; 1; 1; 1; 1; 1; 1]%R))
  = #0.
Proof. js_run. repeat decide_real. f_equal. lra. Qed.

Lemma spike_B_trend :
  value_of (BERTModel.calculateTrend
              (prices_of [1; 100; 1; 1; 1; 1; 1; 1; 1; 1; 1; 1; 1; 1; 1; 1]%R))
  = #0.
Proof. js_run. repeat decide_real. f_equal. lra. Qed.

Lemma spike_R_volatility :
  exists s,
    value_of (RandomForestModel.calculateVolatility
                (prices_of [1; 100; 1; 1; 1; 1; 1; 1; 1; 1; 1; 1; 1; 1; 1; 1]%R))
    = Fin s
    /\ value_of (XGBoostModel.calculateVolatility
                (prices_of [1; 100; 1; 1; 1; 1; 1; 1; 1; 1; 1; 1; 1; 1; 1; 1]%R))
    = Fin s
    /\ (24 <= s)%R.
Proof.
  js_run. repeat decide_real. eexists. split; [reflexivity |].
  split; [reflexivity |].
  rewrite <- (sqrt_square 24) by lra. apply sqrt_le_1_alt. lra.
Qed.

Lemma spike_dayValues :
  exists s, (24 <= s)%R /\
  dayValues
    (forecasts (SentimentModel.new_ false #1)
       (prices_of [1; 100; 1; 1; 1; 1; 1; 1; 1; 1; 1; 1; 1; 1; 1; 1]%R)
       (fun k => match k with O => 0.5 | _ => 0 end)%R 0 1) 0
  = prices_of [1; 1 - 0.4 * s; 1 - 0.45 * s; 0.992; 0.99]%R.
Proof.
  destruct (volatility_values
              [1; 100; 1; 1; 1; 1; 1; 1; 1; 1; 1; 1; 1; 1; 1; 1]%R)
    as (vT & vR & vX & HT & _ & _).
  { repeat constructor; lra. }
  destruct spike_R_volatility as (s & HR & HX & Hs).
  exists s. split; [exact Hs |].
  unfold dayValues, forecasts.
  cbn [map ModelPrediction.predictions Z.to_nat].
  rewrite !nth_ar_path by lia. cbn [ar_price Z.of_nat Nat.add Nat.mul sentiment_draws
       SentimentModel.useSentimentAPI].
  unfold Transformer_growth, RandomForest_growth, XGBoost_growth, BERT_growth.
  rewrite spike_T_trend, spike_T_lrt, spike_B_trend, spike_R_trend,
    spike_X_trend, HT, HR, HX.
  replace (lastPrice_of
             (prices_of [1; 100; 1; 1; 1; 1; 1; 1; 1; 1; 1; 1; 1; 1; 1; 1]%R))
    with #1 by reflexivity.
  unfold Transformer_factor, RandomForest_factor, XGBoost_factor, BERT_factor,
    Sentiment_factor.
  cbn [SentimentModel.useSentimentAPI Z.rem Z.quotrem fst snd Z.of_N].
  js_eval. rewrite !div_Fin by lra. js_eval.
  unfold prices_of. cbn [map].
  replace (0 * PI / 3.5)%R with 0%R by lra.
  replace (0 * PI / 7)%R with 0%R by lra.
  replace (0 * 10)%R with 0%R by lra.
  rewrite sin_0, tanh_0.
  repeat (apply (f_equal2 (@cons number)); [apply (f_equal Fin); lra |]).
  reflexivity.
Qed.

Lemma spike_confidence_above_one s :
  (24 <= s)%R ->
  let c := mean5 1 (1 - 0.4 * s) (1 - 0.45 * s) 0.992 0.99 in
  let v := variance5 1 (1 - 0.4 * s) (1 - 0.45 * s) 0.992 0.99 in
  (c <> 0 /\ 1 < 1 - sqrt v / c)%R.
Proof.
  intros Hs c v.
  assert (Hc : (c < 0)%R) by (unfold c, mean5; lra).
  assert (Hv : (0 < v)%R) by (unfold v, variance5; nra).
  pose proof (sqrt_lt_R0 v Hv) as Hsq.
  pose proof (Rinv_lt_0_compat c Hc) as Hi.
  split; [lra |]. unfold Rdiv. nra.
Qed.

Lemma degenerate_dayValues :
  dayValues (forecasts (SentimentModel.new_ false #1) [#0] (fun _ => 0.5%R) 0 1) 0
  = prices_of [0; 0; 0; 0; 0]%R.
Proof.
  js_run. repeat decide_real.
  repeat (apply (f_equal2 (@cons number)); [apply (f_equal Fin); lra |]).
  reflexivity.
Qed.

Lemma mean5_zero : mean5 0 0 0 0 0 = 0%R.
Proof. unfold mean5. lra. Qed.

(** C8.  For every day of a horizon from 1 to 4294967295 the confidence
    returned by [EnsembleModel.predict] is [1 - stdDev / predicted],
    with [stdDev] the square root of the variance of the day's five
    component prices, computed by the plain operators: nothing clamps it
    and nothing guards the division.  So
    it can exceed 1 (a series of positive prices with an early spike,
    the low draw 0 for four models), it can be negative (a geometric
    series of positive prices) and, when the combined price is 0 (the
    series of the single price 0), it is [NaN]. *)
Theorem C8_confidence_unclamped :
  (forall useSentimentAnalysis sentimentImpact series h volatilityFactor w d,
     (1 <= h <= 4294967295)%Z -> (0 <= d < h)%Z ->
     let this :=
       generatePredictionData_ensemble useSentimentAnalysis sentimentImpact in
     exists mps w1 results w2 r,
       EnsembleModel.modelPredictions this series h w = Ok mps w1
       /\ EnsembleModel.predict this series h volatilityFactor w
          = Ok results w2
       /\ nth_error results (Z.to_nat d) = Some r
       /\ PredictionResult.confidence r
          = #1 - Math_sqrt (EnsembleModel.calculateVariance (dayValues mps d))
                 / PredictionResult.predicted r)
  /\ (exists r w' c,
        EnsembleModel.predict EnsembleModel.new_
          (prices_of [1; 100; 1; 1; 1; 1; 1; 1; 1; 1; 1; 1; 1; 1; 1; 1]%R) 1 #1
          (mkWorld (fun k => match k with O => 0.5 | _ => 0 end)%R 0 0)
        = Ok [r] w'
        /\ PredictionResult.confidence r = Fin c /\ (1 < c)%R)
  /\ (exists r w' c,
        EnsembleModel.predict EnsembleModel.new_
          (prices_of [1; 3; 9; 27; 81]%R) 1 #1 (mkWorld (fun _ => 0.5%R) 0 0)
        = Ok [r] w'
        /\ PredictionResult.confidence r = Fin c /\ (c < 0)%R)
  /\ (exists r w',
        EnsembleModel.predict EnsembleModel.new_ [#0] 1 #1
          (mkWorld (fun _ => 0.5%R) 0 0)
        = Ok [r] w'
        /\ PredictionResult.predicted r = #0
        /\ PredictionResult.confidence r = NaN).
Proof.
  split; [| split; [| split]].
  - intros useSentimentAnalysis sentimentImpact series h volatilityFactor w d
      Hh Hd this.
    unfold this. rewrite generatePredictionData_ensemble_eq.
    eexists _, _, _, _, _.
    split; [apply modelPredictions_closed; lia |].
    split; [apply predict_closed; lia |].
    split; [apply nth_forecast; lia |].
    rewrite Z2Nat.id by lia. reflexivity.
  - destruct spike_dayValues as (s & Hs & Hv).
    destruct (dayResult_five _ _ _ _ _ 1 #1 _ _ _ _ _ _ Hv)
      as (_ & _ & Hc).
    destruct (spike_confidence_above_one s Hs) as (Hne & Hgt).
    cbv zeta in Hc.
    match type of Hc with PredictionResult.confidence ?r = _ => exists r end.
    eexists _, _. split; [rewrite predict_new by lia; reflexivity |].
    split; [| exact Hgt].
    rewrite Hc. rewrite div_Fin by exact Hne. reflexivity.
  - pose proof geo_dayValues as Hv.
    destruct (dayResult_five _ _ _ _ _ 1 #1 _ _ _ _ _ _ Hv)
      as (_ & _ & Hc).
    destruct (geo_confidence_negative _ (tanh_bounds (2 * 10))) as (Hne & Hlt).
    cbv zeta in Hc.
    match type of Hc with PredictionResult.confidence ?r = _ => exists r end.
    eexists _, _. split; [rewrite predict_new by lia; reflexivity |].
    split; [| exact Hlt].
    rewrite Hc. rewrite div_Fin by exact Hne. reflexivity.
  - pose proof degenerate_dayValues as Hv.
    destruct (dayResult_five _ _ _ _ _ 1 #1 _ _ _ _ _ _ Hv)
      as (Hp & _ & Hc).
    cbv zeta in Hp, Hc.
    match type of Hc with PredictionResult.confidence ?r = _ => exists r end.
    eexists. split; [rewrite predict_new by lia; reflexivity |].
    rewrite mean5_zero in Hp, Hc. split; [exact Hp |].
    rewrite Hc, div_zero. reflexivity.
Qed.

Lemma C8_confidence_unclamped_witness :
  exists mps w1 results w2 r,
    EnsembleModel.modelPredictions EnsembleModel.new_ [#100] 7
      (mkWorld (fun _ => 0.5%R) 0 0) = Ok mps w1
    /\ EnsembleModel.predict EnsembleModel.new_ [#100] 7 #1
         (mkWorld (fun _ => 0.5%R) 0 0) = Ok results w2
    /\ nth_error results (Z.to_nat 3) = Some r
    /\ PredictionResult.confidence r
       = #1 - Math_sqrt (EnsembleModel.calculateVariance (dayValues mps 3))
              / PredictionResult.predicted r.
Proof.
  apply (proj1 C8_confidence_unclamped false #1 [#100] 7%Z #1
           (mkWorld (fun _ => 0.5%R) 0 0) 3%Z); lia.
Defined.

(** ** Outside the hull

    Two inputs on which the combined price is not between the least and
    the greatest component price. *)

(** The five models agree on 100 for the series of the one price 100,
    when the draws are 0.5 for the four models that subtract 0.5 and 0.4
    for the sentiment model, which subtracts 0.4: every term added to 1
    is then 0. *)
Lemma agreeing_dayValues :
  dayValues
    (forecasts (SentimentModel.new_ false #1) [#100]
       (fun k => if (k =? 3)%nat then 0.4%R else 0.5%R) 0 1) 0
  = prices_of [100; 100; 100; 100; 100]%R.
Proof.
  js_run. repeat decide_real.
  replace (0 * PI / (35 * / 10))%R with 0%R by (field; lra).
  replace (0 * PI / 7)%R with 0%R by (field; lra).
  replace (0 * 10)%R with 0%R by lra.
  rewrite sin_0, tanh_0.
  repeat (apply (f_equal2 (@cons number)); [apply (f_equal Fin); lra |]).
  reflexivity.
Qed.

(** On the series 0, 0 the daily return is [0 / 0]. *)
Lemma NaN_day :
  exists r w',
    EnsembleModel.predict EnsembleModel.new_ [#0; #0] 1 #1
      (mkWorld (fun _ => 0.5%R) 0 0) = Ok [r] w'
    /\ PredictionResult.predicted r = NaN.
Proof.
  eexists _, _. rewrite predict_new by lia. split.
  - unfold forecast. cbn [Z.to_nat Pos.to_nat Pos.iter_op Nat.add seq map].
    reflexivity.
  - js_run. repeat decide_real. reflexivity.
Qed.

Section Rounding.

Import PrimFloat.

(** On [predict([100], 1)] with those draws the five components are 100
    and nothing is rounded before the aggregation; there binary64 adds
    the weights to 1.0999999999999999 and the weighted prices to 110,
    and the quotient is 100.00000000000001, above the greatest
    component.  On [predict([0, 0], 1)] the combined price is [NaN],
    which is between nothing.  For the horizon [2^32] there are no five
    predictions to combine: [Array(days)] in the sentiment model
    throws. *)
Lemma C1_hull_counterexample :
  (exists mps w1,
     EnsembleModel.modelPredictions EnsembleModel.new_ [#100] 1
       (mkWorld (fun k => if (k =? 3)%nat then 0.4%R else 0.5%R) 0 0)
     = Ok mps w1
     /\ dayValues mps 0 = prices_of [100; 100; 100; 100; 100]%R)
  /\ Binary64.weightedTotals (Binary64.agreeing [100%float]) 0
     = (110%float, 1.0999999999999999%float)
  /\ Binary64.predictedPrice (Binary64.agreeing [100%float]) 0
     = 100.00000000000001%float
  /\ ltb 100%float 100.00000000000001%float = true
  /\ (exists r w',
        EnsembleModel.predict EnsembleModel.new_ [#0; #0] 1 #1
          (mkWorld (fun _ => 0.5%R) 0 0) = Ok [r] w'
        /\ PredictionResult.predicted r = NaN)
  /\ SentimentModel.predict (SentimentModel.new_ false #1) [#100] 4294967296
       (mkWorld (fun _ => 0.5%R) 0 0)
     = Throw RangeError (mkWorld (fun _ => 0.5%R) 0 0).
Proof.
  split.
  { eexists _, _.
    split; [apply (modelPredictions_closed (SentimentModel.new_ false #1)); lia |].
    exact agreeing_dayValues. }
  split; [vm_compute; reflexivity |].
  split; [vm_compute; reflexivity |].
  split; [vm_compute; reflexivity |].
  split; [exact NaN_day |].
  rewrite Sentiment_predict_too_long by lia. reflexivity.
Qed.

End Rounding.

(** ** Reads within bounds *)





(** ** Dependence on the generator *)

Lemma ar_price_ext f d1 c1 d2 c2 p0 n :
  (forall k, (k < n)%nat -> d1 (c1 + k)%nat = d2 (c2 + k)%nat) ->
  forall k, (k <= n)%nat -> ar_price f d1 c1 p0 k = ar_price f d2 c2 p0 k.
Proof.
  intros Hd k. induction k as [| k IH]; intros Hk; [reflexivity |].
  cbn [ar_price]. rewrite IH by lia. rewrite Hd by lia. reflexivity.
Qed.

Lemma ar_path_ext f d1 c1 d2 c2 p0 n :
  (forall k, (k < n)%nat -> d1 (c1 + k)%nat = d2 (c2 + k)%nat) ->
  ar_path f d1 c1 p0 n = ar_path f d2 c2 p0 n.
Proof.
  intros Hd. unfold ar_path. apply map_ext_in. intros k Hk.
  apply in_seq in Hk. apply (ar_price_ext f d1 c1 d2 c2 p0 n Hd). lia.
Qed.

(** The sentiment path in exogenous mode does not depend on the draws. *)
Lemma ar_path_exogenous impact d1 c1 d2 c2 p0 n :
  ar_path (Sentiment_factor (SentimentModel.new_ true impact)) d1 c1 p0 n
  = ar_path (Sentiment_factor (SentimentModel.new_ true impact)) d2 c2 p0 n.
Proof.
  unfold ar_path. apply map_ext. intros k. generalize (Datatypes.S k).
  intros j. induction j as [| j IH]; [reflexivity |].
  cbn [ar_price]. rewrite IH. reflexivity.
Qed.

Lemma forecasts_ext s series d1 c1 d2 c2 n :
  (forall k, (k < 4 * n + sentiment_draws s n)%nat ->
     d1 (c1 + k)%nat = d2 (c2 + k)%nat) ->
  forecasts s series d1 c1 n = forecasts s series d2 c2 n.
Proof.
  intros Hd. unfold forecasts. cbv zeta.
  rewrite (ar_path_ext _ d1 c1 d2 c2 _ n) by (intros k Hk; apply Hd; lia).
  rewrite (ar_path_ext _ d1 (c1 + n) d2 (c2 + n) _ n)
    by (intros k Hk; rewrite <- !Nat.add_assoc; apply Hd; lia).
  rewrite (ar_path_ext _ d1 (c1 + 2 * n) d2 (c2 + 2 * n) _ n)
    by (intros k Hk; rewrite <- !Nat.add_assoc; apply Hd; lia).
  rewrite (ar_path_ext _ d1 (c1 + 3 * n + sentiment_draws s n) d2
             (c2 + 3 * n + sentiment_draws s n) _ n)
    by (intros k Hk; rewrite <- !Nat.add_assoc; apply Hd; lia).
  destruct s as [[|] impact].
  - rewrite (ar_path_exogenous impact d1 (c1 + 3 * n) d2 (c2 + 3 * n)).
    reflexivity.
  - rewrite (ar_path_ext _ d1 (c1 + 3 * n) d2 (c2 + 3 * n) _ n);
      [reflexivity |].
    intros k Hk. rewrite <- !Nat.add_assoc. apply Hd.
    cbn [sentiment_draws SentimentModel.useSentimentAPI]. lia.
Qed.

Lemma sentiment_of_draws useSentimentAnalysis sentimentImpact n :
  (4 * n + sentiment_draws (sentiment_of useSentimentAnalysis sentimentImpact) n
   = (if useSentimentAnalysis then 4 else 5) * n)%nat.
Proof. destruct useSentimentAnalysis; cbn; lia. Qed.

(** C9.  With the generator made explicit, and for a horizon [h] from 0
    to 4294967295, [EnsembleModel.predict] draws exactly [5 * h] times ([4 * h] when the sentiment model is in
    exogenous mode), and its output is determined by the series, the
    horizon, the volatility factor and those draws: two invocations on
    the same arguments whose generators deliver the same next draws (two
    runs from the same seed, in particular) return the same sequence of
    points, field by field. *)
Theorem C9_deterministic_given_draws useSentimentAnalysis sentimentImpact
  series h volatilityFactor w1 w2 :
  let this :=
    generatePredictionData_ensemble useSentimentAnalysis sentimentImpact in
  let n := ((if useSentimentAnalysis then 4 else 5) * Z.to_nat h)%nat in
  (0 <= h <= 4294967295)%Z ->
  (forall k, (k < n)%nat ->
     seed w1 (cursor w1 + k)%nat = seed w2 (cursor w2 + k)%nat) ->
  exists results w1' w2',
    EnsembleModel.predict this series h volatilityFactor w1 = Ok results w1'
    /\ EnsembleModel.predict this series h volatilityFactor w2 = Ok results w2'
    /\ cursor w1' = (cursor w1 + n)%nat
    /\ cursor w2' = (cursor w2 + n)%nat.
Proof.
  intros this n Hh Hd. unfold this, n in *.
  rewrite generatePredictionData_ensemble_eq.
  rewrite <- sentiment_of_draws with (sentimentImpact := sentimentImpact) in *.
  set (s := sentiment_of useSentimentAnalysis sentimentImpact) in *.
  eexists _, _, _.
  split; [apply predict_closed; exact Hh |].
  split.
  - rewrite predict_closed by exact Hh. f_equal.
    unfold forecast.
    rewrite (forecasts_ext s series (seed w2) (cursor w2) (seed w1)
               (cursor w1) (Z.to_nat h)); [reflexivity |].
    intros k Hk. symmetry. apply Hd. exact Hk.
  - unfold after_models. cbn [cursor]. split; lia.
Qed.

Lemma C9_deterministic_given_draws_witness :
  exists results w1' w2',
    EnsembleModel.predict EnsembleModel.new_ [#90; #100] 1 #1
      (mkWorld (fun _ => 0.25%R) 0 0) = Ok results w1'
    /\ EnsembleModel.predict EnsembleModel.new_ [#90; #100] 1 #1
         (mkWorld (fun k => if (k <? 8)%nat then 0.25%R else 0.75%R) 3 0)
       = Ok results w2'
    /\ cursor w1' = (0 + 5 * Z.to_nat 1)%nat
    /\ cursor w2' = (3 + 5 * Z.to_nat 1)%nat.
Proof.
  apply (C9_deterministic_given_draws false #1 [#90; #100] 1 #1
           (mkWorld (fun _ => 0.25%R) 0 0)
           (mkWorld (fun k => if (k <? 8)%nat then 0.25%R else 0.75%R) 3 0)).
  - lia.
  - intros k Hk. simpl in Hk. cbn [seed cursor].
    do 5 (destruct k as [| k]; [reflexivity |]). lia.
Defined.

(** ** The callers: reasoning rules *)

Lemma returnsE_ret {A : Type} (a : A) w (Q : A -> world -> Prop) :
  Q a w -> returnsE (Try.ret a) w Q.
Proof. intros H. exists a, w. split; [reflexivity | exact H]. Qed.

Lemma returnsE_bind {A B : Type} (m : Try.E A) (k : A -> Try.E B) w
  (Q : B -> world -> Prop) :
  returnsE m w (fun a w' => returnsE (k a) w' Q) ->
  returnsE (Try.bind m k) w Q.
Proof.
  intros (a & w' & Hm & b & w'' & Hk & HQ).
  exists b, w''. split; [| exact HQ].
  unfold Try.bind. rewrite Hm. exact Hk.
Qed.

Lemma returnsE_lift {A : Type} (m : M A) w (Q : A -> world -> Prop) :
  returns_ m w Q -> returnsE (Try.lift m) w Q.
Proof.
  intros (a & w' & Hm & HQ). exists a, w'. split; [| exact HQ].
  unfold Try.lift. rewrite Hm. reflexivity.
Qed.

Lemma returnsE_for_steps {S : Type} (Inv : nat -> S -> world -> Prop) step n :
  forall i (body : Z -> S -> Try.E S) (start : nat),
    (forall k s w, (k < n)%nat -> Inv (start + k)%nat s w ->
       returnsE (body (i + Z.of_nat k * step)%Z s) w
         (Inv (start + Datatypes.S k)%nat)) ->
    forall acc w, Inv start acc w ->
      returnsE (Try.for_steps n i step body acc) w (Inv (start + n)%nat).
Proof.
  induction n as [| n IH]; intros i body start Hbody acc w Hinv.
  - apply returnsE_ret. rewrite Nat.add_0_r. exact Hinv.
  - cbn [Try.for_steps]. apply returnsE_bind.
    pose proof (Hbody 0%nat acc w ltac:(lia)) as Hfirst.
    rewrite Nat.add_0_r in Hfirst. specialize (Hfirst Hinv).
    replace (i + Z.of_nat 0 * step)%Z with i in Hfirst by lia.
    destruct Hfirst as (s & w' & Hrun & Hs).
    exists s, w'. split; [exact Hrun |].
    replace (start + Datatypes.S n)%nat with (Datatypes.S start + n)%nat by lia.
    apply IH; [| replace (Datatypes.S start) with (start + 1)%nat by lia; exact Hs].
    intros k s' w'' Hk Hinv'.
    replace (i + step + Z.of_nat k * step)%Z
      with (i + Z.of_nat (Datatypes.S k) * step)%Z by lia.
    replace (Datatypes.S start + Datatypes.S k)%nat
      with (start + Datatypes.S (Datatypes.S k))%nat by lia.
    apply Hbody; [lia |].
    replace (start + Datatypes.S k)%nat with (Datatypes.S start + k)%nat by lia.
    exact Hinv'.
Qed.

Lemma returnsE_for_up {S : Type} (Inv : nat -> S -> world -> Prop)
  lo hi (body : Z -> S -> Try.E S) acc w :
  Inv 0%nat acc w ->
  (forall k s w', (Z.of_nat k < hi - lo)%Z -> Inv k s w' ->
     returnsE (body (lo + Z.of_nat k)%Z s) w' (Inv (Datatypes.S k))) ->
  returnsE (Try.for_up lo hi body acc) w (Inv (Z.to_nat (hi - lo))).
Proof.
  intros H0 Hbody. unfold Try.for_up.
  apply (returnsE_for_steps Inv 1 (Z.to_nat (hi - lo)) lo body 0%nat).
  - intros k s w' Hk Hinv. cbn [Nat.add] in *.
    replace (lo + Z.of_nat k * 1)%Z with (lo + Z.of_nat k)%Z by lia.
    apply Hbody; [lia | exact Hinv].
  - exact H0.
Qed.

Lemma returnsE_for_down {S : Type} (Inv : nat -> S -> world -> Prop)
  hi lo (body : Z -> S -> Try.E S) acc w :
  Inv 0%nat acc w ->
  (forall k s w', (Z.of_nat k < hi - lo)%Z -> Inv k s w' ->
     returnsE (body (hi - Z.of_nat k)%Z s) w' (Inv (Datatypes.S k))) ->
  returnsE (Try.for_down hi lo body acc) w (Inv (Z.to_nat (hi - lo))).
Proof.
  intros H0 Hbody. unfold Try.for_down.
  apply (returnsE_for_steps Inv (-1) (Z.to_nat (hi - lo)) hi body 0%nat).
  - intros k s w' Hk Hinv. cbn [Nat.add] in *.
    replace (hi + Z.of_nat k * -1)%Z with (hi - Z.of_nat k)%Z by lia.
    apply Hbody; [lia | exact Hinv].
  - exact H0.
Qed.

Lemma returnsE_date calendar k w (Q : string -> world -> Prop) :
  calendar k <> None -> Q (date_of calendar k) w ->
  returnsE (Date_string calendar k) w Q.
Proof.
  intros Hk HQ. unfold Date_string, date_of in *.
  destruct (calendar k) as [s |]; [| congruence].
  apply returnsE_ret. exact HQ.
Qed.

Lemma returnsE_item {A : Type} (xs : list A) i d w (Q : A -> world -> Prop) :
  (0 <= i < len xs)%Z -> Q (nth (Z.to_nat i) xs d) w ->
  returnsE (Try.item xs i) w Q.
Proof.
  intros Hi HQ. unfold Try.item.
  destruct (0 <=? i)%Z eqn:E; [| lia].
  destruct (nth_error xs (Z.to_nat i)) as [a |] eqn:En.
  - apply returnsE_ret. rewrite (nth_error_nth _ _ _ En) in HQ. exact HQ.
  - apply nth_error_None in En. unfold len in Hi. lia.
Qed.

(** ** The chart in closed form *)

Lemma volatility_of_eq currency :
  (if String.eqb currency "BTC" then #0.03 else #0.04)
  = Fin (volatility_of currency).
Proof. unfold volatility_of. destruct (String.eqb currency "BTC"); reflexivity. Qed.

Lemma futureDays_of_cases timeframe :
  futureDays_of timeframe = 1%Z \/ futureDays_of timeframe = 7%Z
  \/ futureDays_of timeframe = 30%Z.
Proof.
  unfold futureDays_of.
  destruct (String.eqb timeframe "1d"); [tauto |].
  destruct (String.eqb timeframe "7d"); tauto.
Qed.

Lemma futureDays_of_pos timeframe : (1 <= futureDays_of timeframe <= 30)%Z.
Proof. destruct (futureDays_of_cases timeframe) as [-> | [-> | ->]]; lia. Qed.

Lemma pastRows_S calendar volatility draws c startPrice n k :
  map (fun j =>
         flatRow (date_of calendar (Z.of_nat j - Z.of_nat n))
           (walk volatility draws c startPrice (Datatypes.S j)))
      (seq 0 (Datatypes.S k))
  = map (fun j =>
           flatRow (date_of calendar (Z.of_nat j - Z.of_nat n))
             (walk volatility draws c startPrice (Datatypes.S j)))
        (seq 0 k)
    ++ [flatRow (date_of calendar (Z.of_nat k - Z.of_nat n))
          (walk volatility draws c startPrice (Datatypes.S k))].
Proof. rewrite seq_S, map_app. reflexivity. Qed.

Lemma history_loop calendar volatility days startPrice w :
  calendar_covers calendar (- days) (-1) ->
  returnsE
    (Try.for_down days 0
      (fun i '(data, historicalPrices, currentPrice) =>
         r <~ Try.lift Math_random ;;
         let change := (r - #0.5) * volatility * currentPrice in
         let currentPrice := currentPrice + change in
         date <~ Date_string calendar (- i) ;;
         Try.ret
           (data ++ [PredictionData.mk date currentPrice currentPrice
                       currentPrice currentPrice],
            historicalPrices ++ [currentPrice],
            currentPrice))
      ([], [], startPrice)) w
    (fun s w' =>
       s = (pastRows calendar volatility (seed w) (cursor w) startPrice
              (Z.to_nat days),
            map (fun k => walk volatility (seed w) (cursor w) startPrice
                            (Datatypes.S k)) (seq 0 (Z.to_nat days)),
            walk volatility (seed w) (cursor w) startPrice (Z.to_nat days))
       /\ w' = mkWorld (seed w) (cursor w + Z.to_nat days) (oob w)).
Proof.
  intros Hcal.
  pose proof (returnsE_for_down
    (fun k (s : list PredictionData.t * list number * number) w' =>
       s = (map (fun j =>
                   flatRow (date_of calendar (Z.of_nat j - Z.of_nat (Z.to_nat days)))
                     (walk volatility (seed w) (cursor w) startPrice
                        (Datatypes.S j)))
                (seq 0 k),
            map (fun j => walk volatility (seed w) (cursor w) startPrice
                            (Datatypes.S j)) (seq 0 k),
            walk volatility (seed w) (cursor w) startPrice k)
       /\ w' = mkWorld (seed w) (cursor w + k) (oob w))
    days 0) as H.
  rewrite Z.sub_0_r in H. apply H; clear H.
  - split; [reflexivity |]. rewrite Nat.add_0_r. symmetry. apply world_eta.
  - intros k [[data hist] cur] w' Hk [E ->]. injection E as -> -> ->.
    apply returnsE_bind, returnsE_lift, returns_random.
    cbn [seed cursor oob]. cbv zeta.
    apply returnsE_bind, returnsE_date; [apply Hcal; lia |].
    apply returnsE_ret. split.
    + rewrite pastRows_S, seq_S, map_app. cbn [map walk Nat.add].
      replace (- (days - Z.of_nat k))%Z
        with (Z.of_nat k - Z.of_nat (Z.to_nat days))%Z by lia.
      reflexivity.
    + f_equal. lia.
Qed.

Lemma history_length volatility draws c startPrice n :
  List.length (history volatility draws c startPrice n) = Datatypes.S n.
Proof.
  unfold history. rewrite length_app, length_map, length_seq.
  cbn [List.length]. lia.
Qed.

Lemma history_nonempty volatility draws c startPrice n :
  history volatility draws c startPrice n <> [].
Proof.
  intros E. pose proof (history_length volatility draws c startPrice n) as H.
  rewrite E in H. discriminate H.
Qed.

Lemma after_models_chart days timeframe useSentimentAnalysis sentimentImpact
  series w :
  series <> [] ->
  after_models (sentiment_of useSentimentAnalysis sentimentImpact) series
    (Z.to_nat (futureDays_of timeframe))
    (mkWorld (seed w) (cursor w + Z.to_nat days) (oob w))
  = after_chart days timeframe useSentimentAnalysis w.
Proof.
  intros Hne. unfold after_models, after_chart. cbn [seed cursor oob].
  destruct series as [| p series]; [congruence |].
  f_equal.
  pose proof (sentiment_of_draws useSentimentAnalysis sentimentImpact
                (Z.to_nat (futureDays_of timeframe))) as H.
  lia.
Qed.

Lemma future_loop calendar (predictions : list PredictionResult.t) data w :
  calendar_covers calendar 1 (len predictions) ->
  returnsE
    (Try.for_up 0 (len predictions)
       (fun i data =>
          date <~ Date_string calendar (i + 1) ;;
          p_predicted <~ Try.item predictions i ;;
          p_upper <~ Try.item predictions i ;;
          p_lower <~ Try.item predictions i ;;
          Try.ret
            (data ++ [PredictionData.mk date #0
                        (PredictionResult.predicted p_predicted)
                        (PredictionResult.upperBound p_upper)
                        (PredictionResult.lowerBound p_lower)]))
       data) w
    (fun rows w' => rows = data ++ futureRows calendar predictions /\ w' = w).
Proof.
  intros Hcal.
  pose proof (returnsE_for_up
    (fun k (rows : list PredictionData.t) w' =>
       rows = data
              ++ map (fun j =>
                        futureRow (date_of calendar (Z.of_nat j + 1))
                          (nth j predictions (PredictionResult.mk NaN NaN NaN NaN)))
                     (seq 0 k)
       /\ w' = w)
    0 (len predictions)) as H.
  rewrite Z.sub_0_r in H. unfold len at 3 in H. rewrite Nat2Z.id in H.
  apply H; clear H.
  - split; [| reflexivity]. cbn [seq map]. rewrite app_nil_r. reflexivity.
  - intros k rows w' Hk [-> ->]. rewrite Z.add_0_l.
    apply returnsE_bind, returnsE_date; [apply Hcal; lia |].
    apply returnsE_bind,
      (returnsE_item _ _ (PredictionResult.mk NaN NaN NaN NaN)); [lia |].
    apply returnsE_bind,
      (returnsE_item _ _ (PredictionResult.mk NaN NaN NaN NaN)); [lia |].
    apply returnsE_bind,
      (returnsE_item _ _ (PredictionResult.mk NaN NaN NaN NaN)); [lia |].
    apply returnsE_ret. split; [| reflexivity].
    rewrite seq_S, map_app, app_assoc. cbn [map Nat.add].
    rewrite Nat2Z.id. reflexivity.
Qed.

Lemma returnsE_weaken {A : Type} (m : Try.E A) w (P Q : A -> world -> Prop) :
  returnsE m w P -> (forall a w', P a w' -> Q a w') -> returnsE m w Q.
Proof.
  intros (a & w' & Hm & HP) HPQ. exists a, w'. split; [exact Hm | auto].
Qed.

Lemma generatePredictionData_closed calendar days startPrice currency
  timeframe useSentimentAnalysis sentimentImpact w :
  calendar_covers calendar (- Z.max days 0) (futureDays_of timeframe) ->
  generatePredictionData calendar days startPrice currency timeframe
    useSentimentAnalysis sentimentImpact w
  = Try.Return
      (chart calendar days startPrice currency timeframe useSentimentAnalysis
         sentimentImpact (seed w) (cursor w))
      (after_chart days timeframe useSentimentAnalysis w).
Proof.
  intros Hcal.
  pose proof (futureDays_of_pos timeframe) as Hpos.
  enough (returnsE
            (generatePredictionData calendar days startPrice currency timeframe
               useSentimentAnalysis sentimentImpact) w
            (fun rows w' =>
               rows = chart calendar days startPrice currency timeframe
                        useSentimentAnalysis sentimentImpact (seed w) (cursor w)
               /\ w' = after_chart days timeframe useSentimentAnalysis w))
    as (rows & w' & Hrun & -> & ->) by exact Hrun.
  unfold generatePredictionData. rewrite volatility_of_eq.
  fold (futureDays_of timeframe). cbv zeta.
  apply returnsE_bind.
  eapply returnsE_weaken.
  { apply (history_loop calendar (Fin (volatility_of currency)) days
             startPrice w).
    intros k Hk. apply Hcal. lia. }
  intros s w1 [-> ->].
  apply returnsE_bind, returnsE_date; [apply Hcal; lia |].
  fold (history (Fin (volatility_of currency)) (seed w) (cursor w) startPrice
          (Z.to_nat days)).
  apply returnsE_bind, returnsE_lift.
  rewrite generatePredictionData_ensemble_eq.
  eexists _, _. split; [apply predict_closed; lia |].
  cbn [seed cursor oob].
  rewrite after_models_chart by apply history_nonempty.
  replace (#(volatility_of currency) * #30)
    with (Fin (volatility_of currency * 30)) by reflexivity.
  set (predictions := forecast _ _ _ _ _ _).
  assert (Hlen : len predictions = futureDays_of timeframe).
  { unfold len, predictions. rewrite forecast_length. lia. }
  rewrite <- Hlen.
  eapply returnsE_weaken.
  { apply future_loop. intros k Hk. apply Hcal. lia. }
  intros rows w2 [-> ->]. split; [| reflexivity].
  unfold chart. rewrite <- app_assoc. reflexivity.
Qed.

(** ** The rows of the chart *)

Lemma pastRows_length calendar volatility draws c startPrice n :
  List.length (pastRows calendar volatility draws c startPrice n) = n.
Proof. unfold pastRows. rewrite length_map, length_seq. reflexivity. Qed.

Lemma futureRows_length calendar predictions :
  List.length (futureRows calendar predictions) = List.length predictions.
Proof. unfold futureRows. rewrite length_map, length_seq. reflexivity. Qed.

Lemma chart_length calendar days startPrice currency timeframe
  useSentimentAnalysis sentimentImpact draws c :
  len (chart calendar days startPrice currency timeframe useSentimentAnalysis
         sentimentImpact draws c)
  = (Z.max days 0 + 1 + futureDays_of timeframe)%Z.
Proof.
  pose proof (futureDays_of_pos timeframe).
  unfold len, chart. rewrite !length_app, pastRows_length, futureRows_length.
  rewrite forecast_length. cbn [List.length]. lia.
Qed.

Lemma chart_past calendar days startPrice currency timeframe
  useSentimentAnalysis sentimentImpact draws c k :
  (k < Z.to_nat days)%nat ->
  nth_error (chart calendar days startPrice currency timeframe
               useSentimentAnalysis sentimentImpact draws c) k
  = Some (flatRow (date_of calendar (Z.of_nat k - Z.max days 0))
            (walk (Fin (volatility_of currency)) draws c startPrice
               (Datatypes.S k))).
Proof.
  intros Hk. unfold chart.
  rewrite nth_error_app1 by (rewrite pastRows_length; exact Hk).
  unfold pastRows.
  rewrite (nth_error_map_seq
             (fun k => flatRow (date_of calendar (Z.of_nat k - Z.of_nat (Z.to_nat days)))
                         (walk (Fin (volatility_of currency)) draws c startPrice
                            (Datatypes.S k)))) by exact Hk.
  replace (Z.of_nat (Z.to_nat days)) with (Z.max days 0) by lia.
  reflexivity.
Qed.

Lemma chart_today calendar days startPrice currency timeframe
  useSentimentAnalysis sentimentImpact draws c :
  nth_error (chart calendar days startPrice currency timeframe
               useSentimentAnalysis sentimentImpact draws c) (Z.to_nat days)
  = Some (flatRow (date_of calendar 0)
            (walk (Fin (volatility_of currency)) draws c startPrice
               (Z.to_nat days))).
Proof.
  unfold chart.
  rewrite nth_error_app2 by (rewrite pastRows_length; lia).
  rewrite pastRows_length, Nat.sub_diag. reflexivity.
Qed.

Lemma chart_future calendar days startPrice currency timeframe
  useSentimentAnalysis sentimentImpact draws c k :
  (k < Z.to_nat (futureDays_of timeframe))%nat ->
  nth_error (chart calendar days startPrice currency timeframe
               useSentimentAnalysis sentimentImpact draws c)
    (Z.to_nat days + 1 + k)
  = Some (futureRow (date_of calendar (Z.of_nat k + 1))
            (dayResult
               (forecasts (sentiment_of useSentimentAnalysis sentimentImpact)
                  (history (Fin (volatility_of currency)) draws c startPrice
                     (Z.to_nat days))
                  draws (c + Z.to_nat days)
                  (Z.to_nat (futureDays_of timeframe)))
               (futureDays_of timeframe)
               (Fin (volatility_of currency * 30)) (Z.of_nat k))).
Proof.
  intros Hk. unfold chart.
  rewrite nth_error_app2 by (rewrite pastRows_length; lia).
  rewrite pastRows_length.
  replace (Z.to_nat days + 1 + k - Z.to_nat days)%nat with (Datatypes.S k) by lia.
  cbn [app nth_error]. unfold futureRows.
  rewrite forecast_length.
  rewrite (nth_error_map_seq
             (fun k => futureRow (date_of calendar (Z.of_nat k + 1))
                         (nth k (forecast _ _ _ _ _ _)
                            (PredictionResult.mk NaN NaN NaN NaN)))) by exact Hk.
  f_equal. f_equal.
  apply nth_error_nth. apply nth_forecast. exact Hk.
Qed.

(** ** The synthetic history stays positive *)

Lemma walk_Fin v draws c p k :
  walk (Fin v) draws c (Fin p) k = Fin (walkR v draws c p k).
Proof.
  induction k as [| k IH]; [reflexivity |].
  cbn [walk walkR]. rewrite IH. reflexivity.
Qed.

Lemma walkR_step v draws c p k :
  (0 < v < 2)%R -> unit_draws draws -> (0 < walkR v draws c p k)%R ->
  (walkR v draws c p k * (1 - v / 2) <= walkR v draws c p (Datatypes.S k)
   < walkR v draws c p k * (1 + v / 2))%R.
Proof.
  intros Hv Hd Hpos. cbn [walkR]. cbv zeta.
  pose proof (Hd (c + k)%nat) as Hr.
  set (x := walkR v draws c p k) in *. set (r := draws (c + k)%nat) in *.
  assert (Hvx : (0 < v * x)%R) by (apply Rmult_lt_0_compat; lra).
  assert (H1 : (0 <= r * (v * x))%R) by (apply Rmult_le_pos; lra).
  assert (H2 : (0 < (1 - r) * (v * x))%R) by (apply Rmult_lt_0_compat; lra).
  split; lra.
Qed.

Lemma walkR_pos v draws c p k :
  (0 < v < 2)%R -> unit_draws draws -> (0 < p)%R ->
  (0 < walkR v draws c p k)%R.
Proof.
  intros Hv Hd Hp. induction k as [| k IH]; [exact Hp |].
  pose proof (walkR_step v draws c p k Hv Hd IH) as [Hlo _].
  assert (0 < walkR v draws c p k * (1 - v / 2))%R by nra.
  lra.
Qed.

Lemma volatility_of_range currency : (0 < volatility_of currency < 2)%R.
Proof. unfold volatility_of. destruct (String.eqb currency "BTC"); lra. Qed.

Lemma history_prices v draws c p n :
  history (Fin v) draws c (Fin p) n
  = prices_of (map (fun k => walkR v draws c p (Datatypes.S k)) (seq 0 n)
               ++ [walkR v draws c p n]).
Proof.
  unfold history, prices_of. rewrite map_app, map_map. cbn [map].
  rewrite walk_Fin. f_equal.
  apply map_ext. intros k. apply walk_Fin.
Qed.

Lemma history_positive v draws c p n :
  (0 < v < 2)%R -> unit_draws draws -> (0 < p)%R ->
  Forall (fun p => 0 < p)%R
    (map (fun k => walkR v draws c p (Datatypes.S k)) (seq 0 n)
     ++ [walkR v draws c p n]).
Proof.
  intros Hv Hd Hp. apply Forall_app. split.
  - apply Forall_map, Forall_forall. intros k _. apply walkR_pos; assumption.
  - constructor; [apply walkR_pos; assumption | constructor].
Qed.

(** ** The chart: rows, draws, layout *)

Lemma returnsE_chart calendar days startPrice currency timeframe
  useSentimentAnalysis sentimentImpact w (Q : list PredictionData.t -> world -> Prop) :
  calendar_covers calendar (- Z.max days 0) (futureDays_of timeframe) ->
  Q (chart calendar days startPrice currency timeframe useSentimentAnalysis
       sentimentImpact (seed w) (cursor w))
    (after_chart days timeframe useSentimentAnalysis w) ->
  returnsE (generatePredictionData calendar days startPrice currency timeframe
              useSentimentAnalysis sentimentImpact) w Q.
Proof.
  intros Hcal HQ. eexists _, _. split; [| exact HQ].
  apply generatePredictionData_closed. exact Hcal.
Qed.

(** X1.  Whatever the number of days (an integer, also zero or negative),
    the start price, the currency and the timeframe, and as long as the
    dates of the chart can be printed, [generatePredictionData] returns,
    with one row for each past day, one for today and one for each day
    of the horizon: [max(days, 0) + 1 + futureDays] rows, where the
    horizon is 1 day for ["1d"], 7 for ["7d"] and 30 for every other
    timeframe. *)
Theorem X1_chart_row_count calendar days startPrice currency timeframe
  useSentimentAnalysis sentimentImpact w :
  calendar_covers calendar (- Z.max days 0) (futureDays_of timeframe) ->
  returnsE (generatePredictionData calendar days startPrice currency timeframe
              useSentimentAnalysis sentimentImpact) w
    (fun rows _ =>
       len rows = (Z.max days 0 + 1 + futureDays_of timeframe)%Z)
  /\ futureDays_of "1d" = 1%Z
  /\ futureDays_of "7d" = 7%Z
  /\ (timeframe <> "1d"%string -> timeframe <> "7d"%string ->
      futureDays_of timeframe = 30%Z).
Proof.
  intros Hcal. split; [| split; [reflexivity | split; [reflexivity |]]].
  - apply returnsE_chart; [exact Hcal |]. apply chart_length.
  - intros H1 H7. unfold futureDays_of.
    apply String.eqb_neq in H1, H7. rewrite H1, H7. reflexivity.
Qed.

Lemma X1_chart_row_count_witness :
  returnsE (generatePredictionData (fun _ => Some "2024-01-01"%string) 14 #65000
              "BTC" "7d" false #1) (mkWorld (fun _ => 0.5%R) 0 0)
    (fun rows _ => len rows = (Z.max 14 0 + 1 + futureDays_of "7d")%Z)
  /\ futureDays_of "1d" = 1%Z
  /\ futureDays_of "7d" = 7%Z
  /\ ("7d"%string <> "1d"%string -> "7d"%string <> "7d"%string ->
      futureDays_of "7d" = 30%Z).
Proof.
  apply (X1_chart_row_count (fun _ => Some "2024-01-01"%string) 14 #65000
           "BTC" "7d" false #1 (mkWorld (fun _ => 0.5%R) 0 0)).
  intros k _. discriminate.
Defined.

(** X2.  [generatePredictionData] draws once for each past day and then
    lets the ensemble draw: [max(days, 0) + 5 * futureDays] draws in all,
    and [4 * futureDays] in place of [5 * futureDays] with sentiment
    analysis on.  It never reads an array outside its bounds: the series
    it hands to the ensemble is never empty. *)
Theorem X2_chart_draws calendar days startPrice currency timeframe
  useSentimentAnalysis sentimentImpact w :
  calendar_covers calendar (- Z.max days 0) (futureDays_of timeframe) ->
  returnsE (generatePredictionData calendar days startPrice currency timeframe
              useSentimentAnalysis sentimentImpact) w
    (fun _ w' =>
       seed w' = seed w
       /\ cursor w'
          = (cursor w + Z.to_nat days
             + (if useSentimentAnalysis then 4 else 5)
               * Z.to_nat (futureDays_of timeframe))%nat
       /\ oob w' = oob w).
Proof.
  intros Hcal. apply returnsE_chart; [exact Hcal |].
  unfold after_chart. cbn [seed cursor oob]. repeat split.
Qed.

Lemma X2_chart_draws_witness :
  returnsE (generatePredictionData (fun _ => Some "2024-01-01"%string) 14 #65000
              "BTC" "7d" true #1.01) (mkWorld (fun _ => 0.5%R) 3 0)
    (fun _ w' =>
       seed w' = (fun _ => 0.5%R)
       /\ cursor w' = (3 + Z.to_nat 14 + 4 * Z.to_nat (futureDays_of "7d"))%nat
       /\ oob w' = 0%nat).
Proof.
  apply (X2_chart_draws (fun _ => Some "2024-01-01"%string) 14 #65000
           "BTC" "7d" true #1.01 (mkWorld (fun _ => 0.5%R) 3 0)).
  intros k _. discriminate.
Defined.

(** X3.  The rows up to today: row [k] (for [k <= days]) carries the date
    of the day [days - k] days back, and one price in all four fields:
    the price after [k + 1] steps of the random walk from [startPrice],
    each step being [price += (random - 0.5) * volatility * price], and
    for today the price after [days] steps.  The start price itself is
    on no row unless [days <= 0]. *)
Theorem X3_past_rows calendar days startPrice currency timeframe
  useSentimentAnalysis sentimentImpact w k :
  calendar_covers calendar (- Z.max days 0) (futureDays_of timeframe) ->
  (k <= Z.to_nat days)%nat ->
  returnsE (generatePredictionData calendar days startPrice currency timeframe
              useSentimentAnalysis sentimentImpact) w
    (fun rows _ =>
       exists row,
         nth_error rows k = Some row
         /\ PredictionData.date row
            = date_of calendar (Z.of_nat k - Z.max days 0)
         /\ PredictionData.actual row
            = walk (Fin (volatility_of currency)) (seed w) (cursor w)
                startPrice (Nat.min (Datatypes.S k) (Z.to_nat days))
         /\ PredictionData.predicted row = PredictionData.actual row
         /\ PredictionData.upperBound row = PredictionData.actual row
         /\ PredictionData.lowerBound row = PredictionData.actual row).
Proof.
  intros Hcal Hk. apply returnsE_chart; [exact Hcal |].
  destruct (Nat.eq_dec k (Z.to_nat days)) as [-> | Hne].
  - eexists. split; [apply chart_today |].
    replace (Z.of_nat (Z.to_nat days) - Z.max days 0)%Z with 0%Z by lia.
    rewrite Nat.min_r by lia. cbn. repeat split.
  - eexists. split; [apply chart_past; lia |].
    rewrite Nat.min_l by lia. cbn. repeat split.
Qed.

Lemma X3_past_rows_witness :
  returnsE (generatePredictionData
              (fun k => if (k =? 0)%Z then Some "today"%string
                        else Some "another day"%string)
              2 #100 "ETH" "1d" false #1) (mkWorld (fun _ => 0.75%R) 0 0)
    (fun rows _ =>
       exists row,
         nth_error rows 2 = Some row
         /\ PredictionData.date row
            = date_of (fun k => if (k =? 0)%Z then Some "today"%string
                                else Some "another day"%string)
                (Z.of_nat 2 - Z.max 2 0)
         /\ PredictionData.actual row
            = walk (Fin (volatility_of "ETH")) (fun _ => 0.75%R) 0 #100
                (Nat.min 3 (Z.to_nat 2))
         /\ PredictionData.predicted row = PredictionData.actual row
         /\ PredictionData.upperBound row = PredictionData.actual row
         /\ PredictionData.lowerBound row = PredictionData.actual row).
Proof.
  apply (X3_past_rows
           (fun k => if (k =? 0)%Z then Some "today"%string
                     else Some "another day"%string)
           2 #100 "ETH" "1d" false #1 (mkWorld (fun _ => 0.75%R) 0 0) 2).
  - intros k _. destruct (k =? 0)%Z; discriminate.
  - vm_compute. lia.
Defined.

(** X4.  With at least one past day, the row of today repeats the price
    of the row of yesterday: the loop has already stored the last price
    when the row of today is added.  The series handed to the ensemble
    therefore ends with the same price twice. *)
Theorem X4_today_repeats_yesterday calendar days startPrice currency
  timeframe useSentimentAnalysis sentimentImpact w :
  calendar_covers calendar (- Z.max days 0) (futureDays_of timeframe) ->
  (1 <= days)%Z ->
  returnsE (generatePredictionData calendar days startPrice currency timeframe
              useSentimentAnalysis sentimentImpact) w
    (fun rows _ =>
       exists yesterday today,
         nth_error rows (Z.to_nat days - 1) = Some yesterday
         /\ nth_error rows (Z.to_nat days) = Some today
         /\ PredictionData.actual today = PredictionData.actual yesterday
         /\ PredictionData.predicted today = PredictionData.predicted yesterday
         /\ PredictionData.upperBound today = PredictionData.upperBound yesterday
         /\ PredictionData.lowerBound today = PredictionData.lowerBound yesterday)
  /\ (let series :=
        history (Fin (volatility_of currency)) (seed w) (cursor w) startPrice
          (Z.to_nat days) in
      len series = (days + 1)%Z
      /\ nth (Z.to_nat days) series NaN = nth (Z.to_nat days - 1) series NaN).
Proof.
  intros Hcal Hd. split.
  - apply returnsE_chart; [exact Hcal |].
    eexists _, _. split; [apply chart_past; lia |].
    split; [apply chart_today |].
    replace (Datatypes.S (Z.to_nat days - 1)) with (Z.to_nat days) by lia.
    cbn. repeat split.
  - cbv zeta. split.
    + unfold len. rewrite history_length. lia.
    + unfold history.
      rewrite app_nth2 by (rewrite length_map, length_seq; lia).
      rewrite length_map, length_seq, Nat.sub_diag.
      rewrite app_nth1 by (rewrite length_map, length_seq; lia).
      rewrite (nth_map_seq
                 (fun k => walk (Fin (volatility_of currency)) (seed w)
                             (cursor w) startPrice (Datatypes.S k))) by lia.
      replace (Datatypes.S (Z.to_nat days - 1)) with (Z.to_nat days) by lia.
      reflexivity.
Qed.

Lemma X4_today_repeats_yesterday_witness :
  returnsE (generatePredictionData (fun _ => Some "2024-01-01"%string) 7 #3500
              "ETH" "1d" false #1) (mkWorld (fun _ => 0.25%R) 0 0)
    (fun rows _ =>
       exists yesterday today,
         nth_error rows (Z.to_nat 7 - 1) = Some yesterday
         /\ nth_error rows (Z.to_nat 7) = Some today
         /\ PredictionData.actual today = PredictionData.actual yesterday
         /\ PredictionData.predicted today = PredictionData.predicted yesterday
         /\ PredictionData.upperBound today = PredictionData.upperBound yesterday
         /\ PredictionData.lowerBound today = PredictionData.lowerBound yesterday)
  /\ (let series :=
        history (Fin (volatility_of "ETH")) (fun _ => 0.25%R) 0 #3500
          (Z.to_nat 7) in
      len series = (7 + 1)%Z
      /\ nth (Z.to_nat 7) series NaN = nth (Z.to_nat 7 - 1) series NaN).
Proof.
  apply (X4_today_repeats_yesterday (fun _ => Some "2024-01-01"%string) 7
           #3500 "ETH" "1d" false #1 (mkWorld (fun _ => 0.25%R) 0 0)).
  - intros k _. discriminate.
  - lia.
Defined.

(** X5.  The rows after today are the forecast of the ensemble, day by
    day: [EnsembleModel.predict] run on the synthetic history (today's
    price included), over the horizon of the timeframe, with the
    volatility factor [volatility * 30] (0.9 for BTC, 1.2 otherwise),
    from the generator state the walk has left.  Row [days + 1 + d] has
    the date of the day [d + 1] days ahead, [actual = 0], and the
    predicted price and the two bounds of the forecast of day [d]. *)
Theorem X5_future_rows calendar days startPrice currency timeframe
  useSentimentAnalysis sentimentImpact w d :
  calendar_covers calendar (- Z.max days 0) (futureDays_of timeframe) ->
  (0 <= d < futureDays_of timeframe)%Z ->
  exists rows w' predictions p row,
    generatePredictionData calendar days startPrice currency timeframe
      useSentimentAnalysis sentimentImpact w = Try.Return rows w'
    /\ EnsembleModel.predict
         (generatePredictionData_ensemble useSentimentAnalysis sentimentImpact)
         (history (Fin (volatility_of currency)) (seed w) (cursor w) startPrice
            (Z.to_nat days))
         (futureDays_of timeframe)
         (Fin (volatility_of currency * 30))
         (mkWorld (seed w) (cursor w + Z.to_nat days) (oob w))
       = Ok predictions w'
    /\ nth_error predictions (Z.to_nat d) = Some p
    /\ nth_error rows (Z.to_nat days + 1 + Z.to_nat d) = Some row
    /\ PredictionData.date row = date_of calendar (d + 1)
    /\ PredictionData.actual row = #0
    /\ PredictionData.predicted row = PredictionResult.predicted p
    /\ PredictionData.upperBound row = PredictionResult.upperBound p
    /\ PredictionData.lowerBound row = PredictionResult.lowerBound p.
Proof.
  intros Hcal Hd.
  pose proof (futureDays_of_pos timeframe) as Hfd.
  eexists _, _, _, _, _.
  split; [apply generatePredictionData_closed; exact Hcal |].
  split.
  { rewrite generatePredictionData_ensemble_eq, predict_closed by lia.
    cbn [seed cursor oob].
    rewrite after_models_chart by apply history_nonempty. reflexivity. }
  split; [apply nth_forecast; lia |].
  split; [apply chart_future; lia |].
  rewrite Z2Nat.id by lia. cbn. repeat split.
Qed.

Lemma X5_future_rows_witness :
  exists rows w' predictions p row,
    generatePredictionData (fun _ => Some "2024-01-01"%string) 14 #65000 "BTC"
      "7d" false #1 (mkWorld (fun _ => 0.5%R) 0 0) = Try.Return rows w'
    /\ EnsembleModel.predict
         (generatePredictionData_ensemble false #1)
         (history (Fin (volatility_of "BTC")) (fun _ => 0.5%R) 0 #65000
            (Z.to_nat 14))
         (futureDays_of "7d")
         (Fin (volatility_of "BTC" * 30))
         (mkWorld (fun _ => 0.5%R) (0 + Z.to_nat 14) 0)
       = Ok predictions w'
    /\ nth_error predictions (Z.to_nat 6) = Some p
    /\ nth_error rows (Z.to_nat 14 + 1 + Z.to_nat 6) = Some row
    /\ PredictionData.date row = date_of (fun _ => Some "2024-01-01"%string) (6 + 1)
    /\ PredictionData.actual row = #0
    /\ PredictionData.predicted row = PredictionResult.predicted p
    /\ PredictionData.upperBound row = PredictionResult.upperBound p
    /\ PredictionData.lowerBound row = PredictionResult.lowerBound p.
Proof.
  apply (X5_future_rows (fun _ => Some "2024-01-01"%string) 14 #65000 "BTC"
           "7d" false #1 (mkWorld (fun _ => 0.5%R) 0 0) 6).
  - intros k _. discriminate.
  - vm_compute. split; [discriminate | reflexivity].
Defined.

(** ** The chart on a positive start price *)

Lemma chart_future_finite calendar days p currency timeframe
  useSentimentAnalysis m draws c k :
  (0 < p)%R -> unit_draws draws ->
  (k < Z.to_nat (futureDays_of timeframe))%nat ->
  exists row x half,
    nth_error (chart calendar days (Fin p) currency timeframe
                 useSentimentAnalysis (Fin m) draws c)
      (Z.to_nat days + 1 + k) = Some row
    /\ PredictionData.actual row = #0
    /\ PredictionData.predicted row = Fin x
    /\ PredictionData.upperBound row = Fin (x + half)
    /\ PredictionData.lowerBound row = Fin (x - half)
    /\ (0 <= half)%R.
Proof.
  intros Hp Hd Hk.
  pose proof (futureDays_of_pos timeframe) as Hfd.
  pose proof (volatility_of_range currency) as Hv.
  rewrite chart_future by exact Hk.
  rewrite history_prices.
  destruct (dayValues_finite (sentiment_of useSentimentAnalysis (Fin m))
              (map (fun k => walkR (volatility_of currency) draws c p
                                (Datatypes.S k)) (seq 0 (Z.to_nat days))
               ++ [walkR (volatility_of currency) draws c p (Z.to_nat days)])
              draws (c + Z.to_nat days) (Z.to_nat (futureDays_of timeframe)) k)
    as (x1 & x2 & x3 & x4 & x5 & Hvals).
  { intros E. apply app_eq_nil in E. destruct E as [_ E]. discriminate E. }
  { apply history_positive; assumption. }
  { apply sentiment_of_finite. }
  { exact Hk. }
  destruct (dayResult_band _ _ _ _ _ (futureDays_of timeframe)
              (volatility_of currency * 30) _ _ _ _ _ _
              ltac:(lia) Hvals) as (H1 & H2 & H3).
  eexists _, _, _. split; [reflexivity |].
  cbn [futureRow PredictionData.actual PredictionData.predicted
       PredictionData.upperBound PredictionData.lowerBound].
  split; [reflexivity |].
  split; [exact H1 |]. split; [exact H2 |]. split; [exact H3 |].
  assert (0 <= IZR (Z.of_nat k) / IZR (futureDays_of timeframe))%R.
  { apply Rmult_le_pos; [apply IZR_le; lia |].
    apply Rlt_le, Rinv_0_lt_compat, IZR_lt. lia. }
  pose proof (sqrt_pos (variance5 x1 x2 x3 x4 x5)).
  apply Rmult_le_pos; [| lra].
  apply Rmult_le_pos; [| lra].
  apply Rmult_le_pos; lra.
Qed.

(** X6.  On a positive start price, and with draws in [[0, 1)] as
    [Math.random] gives them, the synthetic history never leaves the
    positive prices and never moves by more than half the volatility in
    a day: every price up to today is within 1.5 % of the price of the
    day before for BTC, and within 2 % for any other currency; the first
    row is within that distance of the start price. *)
Theorem X6_history_steps calendar days p currency timeframe
  useSentimentAnalysis sentimentImpact w :
  calendar_covers calendar (- Z.max days 0) (futureDays_of timeframe) ->
  (0 < p)%R -> unit_draws (seed w) ->
  returnsE (generatePredictionData calendar days (Fin p) currency timeframe
              useSentimentAnalysis sentimentImpact) w
    (fun rows _ =>
       let v := if String.eqb currency "BTC" then 0.03%R else 0.04%R in
       (exists row x,
          nth_error rows 0 = Some row
          /\ PredictionData.actual row = Fin x
          /\ (p * (1 - v / 2) <= x <= p * (1 + v / 2))%R)
       /\ (forall k, (k < Z.to_nat days)%nat ->
           exists row next x y,
             nth_error rows k = Some row
             /\ nth_error rows (Datatypes.S k) = Some next
             /\ PredictionData.actual row = Fin x
             /\ PredictionData.actual next = Fin y
             /\ (0 < x)%R
             /\ (x * (1 - v / 2) <= y <= x * (1 + v / 2))%R)).
Proof.
  intros Hcal Hp Hd. apply returnsE_chart; [exact Hcal |].
  fold (volatility_of currency). cbv zeta.
  pose proof (volatility_of_range currency) as Hv.
  set (v := volatility_of currency) in *.
  assert (Hstep : forall k,
            (walkR v (seed w) (cursor w) p k * (1 - v / 2)
             <= walkR v (seed w) (cursor w) p (Datatypes.S k)
             <= walkR v (seed w) (cursor w) p k * (1 + v / 2))%R).
  { intros k.
    pose proof (walkR_step v (seed w) (cursor w) p k Hv Hd
                  (walkR_pos v (seed w) (cursor w) p k Hv Hd Hp)).
    lra. }
  split.
  - destruct (Z.to_nat days) as [| n] eqn:En.
    + eexists _, p. split; [rewrite <- En; apply chart_today |].
      rewrite En. cbn [flatRow PredictionData.actual walk].
      split; [reflexivity |].
      assert (0 <= p * (v / 2))%R by (apply Rmult_le_pos; lra). lra.
    + eexists _, _. split; [apply chart_past; lia |].
      cbn [flatRow PredictionData.actual]. split; [apply walk_Fin |].
      apply (Hstep 0%nat).
  - intros k Hk.
    destruct (Nat.eq_dec (Datatypes.S k) (Z.to_nat days)) as [E | Hne].
    + eexists _, _, _, _. split; [apply chart_past; lia |].
      split; [rewrite E; apply chart_today |].
      cbn [flatRow PredictionData.actual].
      split; [apply walk_Fin |]. split; [apply walk_Fin |].
      split; [apply walkR_pos; assumption |].
      rewrite <- E.
      pose proof (walkR_pos v (seed w) (cursor w) p (Datatypes.S k) Hv Hd Hp).
      assert (0 <= walkR v (seed w) (cursor w) p (Datatypes.S k) * (v / 2))%R
        by (apply Rmult_le_pos; lra).
      fold v. lra.
    + eexists _, _, _, _. split; [apply chart_past; lia |].
      split; [apply chart_past; lia |].
      cbn [flatRow PredictionData.actual].
      split; [apply walk_Fin |]. split; [apply walk_Fin |].
      split; [apply walkR_pos; assumption |].
      apply (Hstep (Datatypes.S k)).
Qed.

Lemma X6_history_steps_witness :
  returnsE (generatePredictionData (fun _ => Some "2024-01-01"%string) 14
              (Fin 65000) "BTC" "7d" false #1) (mkWorld (fun _ => 0.5%R) 0 0)
    (fun rows _ =>
       let v := if String.eqb "BTC" "BTC" then 0.03%R else 0.04%R in
       (exists row x,
          nth_error rows 0 = Some row
          /\ PredictionData.actual row = Fin x
          /\ (65000 * (1 - v / 2) <= x <= 65000 * (1 + v / 2))%R)
       /\ (forall k, (k < Z.to_nat 14)%nat ->
           exists row next x y,
             nth_error rows k = Some row
             /\ nth_error rows (Datatypes.S k) = Some next
             /\ PredictionData.actual row = Fin x
             /\ PredictionData.actual next = Fin y
             /\ (0 < x)%R
             /\ (x * (1 - v / 2) <= y <= x * (1 + v / 2))%R)).
Proof.
  apply (X6_history_steps (fun _ => Some "2024-01-01"%string) 14 65000 "BTC"
           "7d" false #1 (mkWorld (fun _ => 0.5%R) 0 0)).
  - intros k _. discriminate.
  - lra.
  - intros k. cbn [seed]. lra.
Defined.

(** X7.  On a positive start price, with draws in [[0, 1)] and a finite
    sentiment impact, every row after today holds finite numbers, and
    its band is centred on the predicted price and not inverted:
    [upperBound = predicted + h] and [lowerBound = predicted - h] for
    some [h >= 0], so [lowerBound <= predicted <= upperBound]. *)
Theorem X7_future_rows_finite calendar days p currency timeframe
  useSentimentAnalysis m w d :
  calendar_covers calendar (- Z.max days 0) (futureDays_of timeframe) ->
  (0 < p)%R -> unit_draws (seed w) ->
  (0 <= d < futureDays_of timeframe)%Z ->
  returnsE (generatePredictionData calendar days (Fin p) currency timeframe
              useSentimentAnalysis (Fin m)) w
    (fun rows _ =>
       exists row x half,
         nth_error rows (Z.to_nat days + 1 + Z.to_nat d) = Some row
         /\ PredictionData.actual row = #0
         /\ PredictionData.predicted row = Fin x
         /\ PredictionData.upperBound row = Fin (x + half)
         /\ PredictionData.lowerBound row = Fin (x - half)
         /\ (0 <= half)%R).
Proof.
  intros Hcal Hp Hd Hk. apply returnsE_chart; [exact Hcal |].
  apply chart_future_finite; [exact Hp | exact Hd | lia].
Qed.

Lemma X7_future_rows_finite_witness :
  returnsE (generatePredictionData (fun _ => Some "2024-01-01"%string) 30
              (Fin 3500) "ETH" "30d" true (Fin 1.012))
    (mkWorld (fun _ => 0.5%R) 0 0)
    (fun rows _ =>
       exists row x half,
         nth_error rows (Z.to_nat 30 + 1 + Z.to_nat 29) = Some row
         /\ PredictionData.actual row = #0
         /\ PredictionData.predicted row = Fin x
         /\ PredictionData.upperBound row = Fin (x + half)
         /\ PredictionData.lowerBound row = Fin (x - half)
         /\ (0 <= half)%R).
Proof.
  apply (X7_future_rows_finite (fun _ => Some "2024-01-01"%string) 30 3500
           "ETH" "30d" true 1.012 (mkWorld (fun _ => 0.5%R) 0 0) 29).
  - intros k _. discriminate.
  - lra.
  - intros k. cbn [seed]. lra.
  - vm_compute. split; [discriminate | reflexivity].
Defined.

(** ** The sentiment data *)

Lemma count_nonneg f articles : (0 <= count f articles)%Z.
Proof. unfold count, len. lia. Qed.

Lemma count_cons f a articles :
  count f (a :: articles)
  = ((if f a then 1 else 0) + count f articles)%Z.
Proof.
  unfold count, len. cbn [filter]. destruct (f a); cbn [List.length]; lia.
Qed.

Lemma counts_disjoint articles :
  (count countsPositive articles + count countsNegative articles
   <= len articles)%Z.
Proof.
  induction articles as [| a articles IH]; [unfold count, len; simpl; lia |].
  rewrite !count_cons. unfold len in *. cbn [List.length].
  destruct (countsPositive a) eqn:Ep, (countsNegative a) eqn:En; try lia.
  unfold countsPositive, countsNegative in Ep, En.
  destruct (mentions SentimentAnalysis.positiveKeywords a),
           (mentions SentimentAnalysis.negativeKeywords a); discriminate.
Qed.

Lemma body_lower (body : option string) :
  match body with
  | Some (String a s) => Text.toLowerCase (String a s)
  | _ => EmptyString
  end
  = match body with
    | Some body => Text.toLowerCase body
    | None => EmptyString
    end.
Proof. destruct body as [[| a s] |]; reflexivity. Qed.

(** The loop over the articles. *)
Lemma count_loop articles : forall p n u w,
  Forall hasTitle articles ->
  Try.forEach articles
    (fun article '(positiveCount, negativeCount, neutralCount) =>
       title <~
         match Article.title article with
         | Some title => Try.ret (Text.toLowerCase title)
         | None => Try.throw Try.TypeError
         end ;;
       let body :=
         match Article.body article with
         | Some (String a s) => Text.toLowerCase (String a s)
         | _ => EmptyString
         end in
       let isPositive :=
         existsb (fun keyword =>
                    Text.includes title keyword
                    || Text.includes body keyword)%bool
           SentimentAnalysis.positiveKeywords in
       let isNegative :=
         existsb (fun keyword =>
                    Text.includes title keyword
                    || Text.includes body keyword)%bool
           SentimentAnalysis.negativeKeywords in
       if (isPositive && negb isNegative)%bool
       then Try.ret (positiveCount + 1, negativeCount, neutralCount)%Z
       else if (isNegative && negb isPositive)%bool
       then Try.ret (positiveCount, negativeCount + 1, neutralCount)%Z
       else Try.ret (positiveCount, negativeCount, neutralCount + 1)%Z)
    (p, n, u) w
  = Try.Return
      ((p + count countsPositive articles)%Z,
       (n + count countsNegative articles)%Z,
       (u + (len articles - count countsPositive articles
             - count countsNegative articles))%Z) w.
Proof.
  induction articles as [| a articles IH]; intros p n u w Hall.
  - unfold count, len. cbn [Try.forEach filter List.length].
    change (Z.of_nat 0) with 0%Z. rewrite !Z.sub_0_r, !Z.add_0_r. reflexivity.
  - inversion Hall as [| ? ? Ha Hrest]; subst.
    cbn [Try.forEach]. unfold Try.bind at 1.
    unfold hasTitle in Ha.
    rewrite !count_cons. unfold countsPositive at 1 3, countsNegative at 1 3.
    unfold mentions.
    rewrite (body_lower (Article.body a)).
    destruct (Article.title a) as [title |]; [| congruence].
    unfold Try.bind at 1, Try.ret at 1. cbv zeta.
    set (pos := existsb _ SentimentAnalysis.positiveKeywords).
    set (neg := existsb _ SentimentAnalysis.negativeKeywords).
    unfold len. cbn [List.length].
    destruct pos, neg; cbn [andb negb]; unfold Try.ret at 1;
      rewrite IH by exact Hrest; unfold len;
      (apply (f_equal2 (@Try.Return _)); [| reflexivity]);
      (apply f_equal2; [apply f_equal2 |]); lia.
Qed.

Lemma count_loop_untitled articles : forall acc w,
  ~ Forall hasTitle articles ->
  exists e,
    Try.forEach articles
      (fun article '(positiveCount, negativeCount, neutralCount) =>
         title <~
           match Article.title article with
           | Some title => Try.ret (Text.toLowerCase title)
           | None => Try.throw Try.TypeError
           end ;;
         let body :=
           match Article.body article with
           | Some (String a s) => Text.toLowerCase (String a s)
           | _ => EmptyString
           end in
         let isPositive :=
           existsb (fun keyword =>
                      Text.includes title keyword
                      || Text.includes body keyword)%bool
             SentimentAnalysis.positiveKeywords in
         let isNegative :=
           existsb (fun keyword =>
                      Text.includes title keyword
                      || Text.includes body keyword)%bool
             SentimentAnalysis.negativeKeywords in
         if (isPositive && negb isNegative)%bool
         then Try.ret (positiveCount + 1, negativeCount, neutralCount)%Z
         else if (isNegative && negb isPositive)%bool
         then Try.ret (positiveCount, negativeCount + 1, neutralCount)%Z
         else Try.ret (positiveCount, negativeCount, neutralCount + 1)%Z)
      acc w
    = Try.Raise e w.
Proof.
  induction articles as [| a articles IH]; intros [[p n] u] w Hnot.
  - exfalso. apply Hnot. constructor.
  - cbn [Try.forEach]. unfold Try.bind at 1.
    destruct (Article.title a) as [title |] eqn:Et.
    + unfold Try.bind at 1, Try.ret at 1. cbv zeta.
      assert (Hrest : ~ Forall hasTitle articles).
      { intros H. apply Hnot. constructor; [| exact H].
        unfold hasTitle. rewrite Et. discriminate. }
      match goal with
      | |- context [if ?c then _ else _] => destruct c
      end; [| match goal with
              | |- context [if ?c then _ else _] => destruct c
              end];
        unfold Try.ret at 1; apply IH; exact Hrest.
    + exists Try.TypeError. reflexivity.
Qed.

Lemma item_in {A : Type} (xs : list A) i d w :
  (0 <= i < len xs)%Z ->
  Try.item xs i w = Try.Return (nth (Z.to_nat i) xs d) w.
Proof.
  intros Hi. unfold Try.item.
  destruct (0 <=? i)%Z eqn:E; [| lia].
  destruct (nth_error xs (Z.to_nat i)) as [a |] eqn:En.
  - rewrite (nth_error_nth _ _ _ En). reflexivity.
  - apply nth_error_None in En. unfold len in Hi. lia.
Qed.

Lemma nth_last {A : Type} (xs : list A) d :
  nth (Z.to_nat (len xs - 1)) xs d = List.last xs d.
Proof.
  unfold len. destruct xs as [| x xs]; [reflexivity |].
  replace (Z.to_nat (Z.of_nat (List.length (x :: xs)) - 1))
    with (List.length (x :: xs) - 1)%nat by (cbn [List.length]; lia).
  generalize (x :: xs). clear. intros l.
  induction l as [| a [| b l] IH]; [reflexivity | reflexivity |].
  cbn [List.length Nat.sub] in *. rewrite Nat.sub_0_r in *.
  change (List.last (a :: b :: l) d) with (List.last (b :: l) d).
  rewrite <- IH. reflexivity.
Qed.

Lemma toISOString_printable print t w :
  printable t ->
  Date_toISOString print t w = Try.Return (print_time print t) w.
Proof.
  intros Ht. destruct t as [x |]; [| contradiction].
  unfold Date_toISOString, printable in *.
  destruct (Rle_dec (Rabs x) 8640000000000000); [reflexivity | contradiction].
Qed.

Lemma toISOString_unprintable print t w :
  ~ printable t ->
  Date_toISOString print t w = Try.Raise (Try.Native RangeError) w.
Proof.
  intros Ht. destruct t as [x |]; [| reflexivity].
  unfold Date_toISOString, printable in *.
  destruct (Rle_dec (Rabs x) 8640000000000000); [contradiction | reflexivity].
Qed.

Lemma mockSentimentData_ok now print symbol w :
  clock_ok now ->
  mockSentimentData now print symbol w
  = Try.Return (mockSentiment now print symbol) w.
Proof.
  intros [Hnow Hweek]. unfold mockSentimentData.
  unfold Try.bind at 1.
  replace (#now - #86400000 * #7) with (Fin (now - 86400000 * 7))
    by reflexivity.
  rewrite toISOString_printable by exact Hweek.
  unfold Try.bind at 1. rewrite toISOString_printable by exact Hnow.
  unfold mockSentiment, print_time.
  destruct (String.eqb symbol "BTC"); reflexivity.
Qed.

Lemma mockSentimentData_outcome now print symbol w :
  (clock_ok now
   /\ mockSentimentData now print symbol w
      = Try.Return (mockSentiment now print symbol) w)
  \/ (~ clock_ok now
      /\ mockSentimentData now print symbol w
         = Try.Raise (Try.Native RangeError) w).
Proof.
  destruct (Classical_Prop.classic (clock_ok now)) as [H | H].
  - left. split; [exact H | apply mockSentimentData_ok; exact H].
  - right. split; [exact H |].
    unfold mockSentimentData. unfold Try.bind at 1.
    replace (#now - #86400000 * #7) with (Fin (now - 86400000 * 7))
      by reflexivity.
    destruct (Classical_Prop.classic (printable (Fin (now - 86400000 * 7))))
      as [Hweek | Hweek].
    + rewrite toISOString_printable by exact Hweek.
      unfold Try.bind at 1.
      rewrite toISOString_unprintable; [reflexivity |].
      intros Hnow. apply H. split; assumption.
    + rewrite toISOString_unprintable by exact Hweek. reflexivity.
Qed.

Lemma bindE_ret {A B : Type} (a : A) (k : A -> Try.E B) w :
  Try.bind (Try.ret a) k w = k a w.
Proof. reflexivity. Qed.

Lemma bindE_throw {A B : Type} e (k : A -> Try.E B) w :
  Try.bind (Try.throw e) k w = Try.Raise e w.
Proof. reflexivity. Qed.

Lemma bindE_run {A B : Type} (m : Try.E A) (k : A -> Try.E B) w a w' :
  m w = Try.Return a w' -> Try.bind m k w = k a w'.
Proof. intros H. unfold Try.bind. rewrite H. reflexivity. Qed.

Lemma bindE_fail {A B : Type} (m : Try.E A) (k : A -> Try.E B) w e w' :
  m w = Try.Raise e w' -> Try.bind m k w = Try.Raise e w'.
Proof. intros H. unfold Try.bind. rewrite H. reflexivity. Qed.

(** The two ways of [fetchSentimentData]: the data of the feed when it
    is usable, the [catch] block otherwise. *)
Lemma fetchSentimentData_cases fetch now print symbol w :
  (exists articles,
     usable (fetch (Text.toLowerCase symbol)) articles
     /\ SentimentAnalysis.fetchSentimentData fetch now print symbol w
        = Try.Return (liveSentiment print articles) w)
  \/ ((forall articles, ~ usable (fetch (Text.toLowerCase symbol)) articles)
      /\ SentimentAnalysis.fetchSentimentData fetch now print symbol w
         = mockSentimentData now print symbol w).
Proof.
  unfold SentimentAnalysis.fetchSentimentData, Try.try_catch.
  fold (mockSentimentData now print symbol).
  destruct (fetch (Text.toLowerCase symbol)) as [[ok status json] |] eqn:Ef;
    cbn [await];
    [| rewrite bindE_throw; right; split;
       [intros a (s & H & _); discriminate H | reflexivity]].
  rewrite bindE_ret. cbn [Response.ok Response.json Response.status].
  destruct ok; cbn [negb];
    [| right; split; [intros a (s & H & _); discriminate H | reflexivity]].
  destruct json as [[[articles |]] |]; cbn [await];
    [ rewrite bindE_ret; cbn [News.Data]
    | rewrite bindE_ret; cbn [News.Data]; right; split;
      [intros a (s & H & _); discriminate H | reflexivity]
    | rewrite bindE_throw; right; split;
      [intros a (s & H & _); discriminate H | reflexivity]].
  destruct (len articles =? 0)%Z eqn:El.
  { right. split; [| reflexivity].
    intros a (s & H & Hne & _). injection H as _ <-.
    apply Z.eqb_eq in El. unfold len in El. destruct articles; [congruence |].
    discriminate El. }
  apply Z.eqb_neq in El.
  assert (Hne : articles <> []) by (intros ->; apply El; reflexivity).
  assert (Hlen : (1 <= len articles)%Z)
    by (unfold len in *; destruct articles; [congruence | cbn [List.length]; lia]).
  destruct (Classical_Prop.classic (Forall hasTitle articles)) as [Ht | Ht].
  2:{ right. split.
      - intros a (s & H & _ & Hall & _). injection H as _ <-. contradiction.
      - destruct (count_loop_untitled articles (0, 0, 0)%Z w Ht) as (e & He).
        rewrite (bindE_fail _ _ _ _ _ He). reflexivity. }
  rewrite (bindE_run _ _ _ _ _ (count_loop articles 0 0 0 w Ht)).
  rewrite !Z.add_0_l.
  rewrite (bindE_run _ _ _ _ _
             (item_in articles 0 (Article.mk None None NaN) w ltac:(lia))).
  rewrite (bindE_run _ _ _ _ _
             (item_in articles (len articles - 1) (Article.mk None None NaN) w
                ltac:(lia))).
  rewrite nth_last.
  replace (nth (Z.to_nat 0) articles (Article.mk None None NaN))
    with (hd (Article.mk None None NaN) articles)
    by (destruct articles; reflexivity).
  set (oldest := Article.published_on (List.last articles _) * #1000).
  set (latest := Article.published_on (hd _ articles) * #1000).
  destruct (Classical_Prop.classic (printable oldest)) as [Ho | Ho].
  2:{ right. split.
      - intros a (s & H & _ & _ & _ & Hlast). injection H as _ <-.
        apply Ho. exact Hlast.
      - rewrite (bindE_fail _ _ _ _ _ (toISOString_unprintable print _ w Ho)).
        reflexivity. }
  rewrite (bindE_run _ _ _ _ _ (toISOString_printable print _ w Ho)).
  destruct (Classical_Prop.classic (printable latest)) as [Hl | Hl].
  2:{ right. split.
      - intros a (s & H & _ & _ & Hfirst & _). injection H as _ <-.
        apply Hl. exact Hfirst.
      - rewrite (bindE_fail _ _ _ _ _ (toISOString_unprintable print _ w Hl)).
        reflexivity. }
  rewrite (bindE_run _ _ _ _ _ (toISOString_printable print _ w Hl)).
  left. exists articles. split.
  - exists status. repeat split; assumption.
  - unfold Try.ret, liveSentiment. cbv zeta. fold oldest latest.
    reflexivity.
Qed.

Lemma gtb_true a b x y :
  a = Fin x -> b = Fin y -> (gtb a b = true <-> (y < x)%R).
Proof.
  intros -> ->. unfold gtb. destruct (Rlt_dec y x); split; intros H;
    try reflexivity; try assumption; try discriminate; contradiction.
Qed.

Lemma liveSentiment_invariant print articles :
  articles <> [] -> sentiment_invariant (liveSentiment print articles).
Proof.
  intros Hne.
  pose proof (count_nonneg countsPositive articles) as Hp.
  pose proof (count_nonneg countsNegative articles) as Hn.
  pose proof (counts_disjoint articles) as Hsum.
  pose proof (IZR_len_pos articles Hne) as HT.
  assert (Hlen : (1 <= len articles)%Z).
  { unfold len. destruct articles; [congruence | cbn [List.length]; lia]. }
  unfold liveSentiment, sentiment_invariant. cbv zeta.
  set (p := count countsPositive articles) in *.
  set (n := count countsNegative articles) in *.
  set (T := len articles) in *.
  apply IZR_le in Hp, Hn, Hsum. rewrite plus_IZR in Hsum.
  unfold of_Z.
  rewrite !div_Fin by lra. js_eval. rewrite div_Fin by lra.
  cbn [SentimentData.bullishPercentage SentimentData.bearishPercentage
       SentimentData.sentimentScore SentimentData.totalArticles
       SentimentData.sentimentClass].
  assert (HiT : (0 < / IZR T)%R) by (apply Rinv_0_lt_compat; exact HT).
  assert (Hb : (0 <= IZR p / IZR T)%R)
    by (apply Rmult_le_pos; [exact Hp | lra]).
  assert (Hr : (0 <= IZR n / IZR T)%R)
    by (apply Rmult_le_pos; [exact Hn | lra]).
  assert (Hbr : (IZR p / IZR T + IZR n / IZR T <= 1)%R).
  { replace (IZR p / IZR T + IZR n / IZR T)%R
      with ((IZR p + IZR n) * / IZR T)%R by (unfold Rdiv; ring).
    apply (Rmult_le_reg_r (IZR T)); [exact HT |].
    rewrite Rmult_assoc, Rinv_l by lra. lra. }
  eexists _, _, _. split; [reflexivity |]. split; [reflexivity |].
  split; [reflexivity |].
  split; [lra |]. split; [lra |]. split; [lra |].
  split; [field; lra |]. split; [exact Hlen |].
  set (s := ((IZR p - IZR n) / IZR T)%R).
  pose proof (gtb_true (Fin s) #0.2 s 0.2 eq_refl eq_refl) as Hg.
  pose proof (gtb_true (Fin (-0.2)) (Fin s) (-0.2) s eq_refl eq_refl) as Hl.
  fold (ltb (Fin s) (Fin (-0.2))) in Hl.
  destruct (ltb (Fin s) (Fin (-0.2))) eqn:El, (gtb (Fin s) #0.2) eqn:Eg;
    split; split; intros H; try reflexivity; try discriminate;
    try (apply Hg; reflexivity); try (apply Hl; reflexivity);
    try (exfalso;
         assert (s < -0.2)%R by (apply Hl; reflexivity);
         assert (0.2 < s)%R by (apply Hg; try reflexivity; assumption); lra);
    try (apply Hg in H; discriminate H);
    try (apply Hl in H; discriminate H).
Qed.

Lemma mockSentiment_invariant now print symbol :
  sentiment_invariant (mockSentiment now print symbol).
Proof.
  unfold mockSentiment, sentiment_invariant.
  cbn [SentimentData.bullishPercentage SentimentData.bearishPercentage
       SentimentData.sentimentScore SentimentData.totalArticles
       SentimentData.sentimentClass].
  destruct (String.eqb symbol "BTC").
  - exists 65%R, 25%R, 0.4%R. repeat split; try lra; try lia;
      intros H; try discriminate; lra.
  - exists 58%R, 32%R, 0.26%R. repeat split; try lra; try lia;
      intros H; try discriminate; lra.
Qed.

Lemma usable_nonempty response articles :
  usable response articles -> articles <> [].
Proof. intros (s & _ & H & _). exact H. Qed.

(** X8.  Whatever the feed answers, and as long as the clock is one that
    [toISOString] prints, [fetchSentimentData] returns data that hold
    together: the two percentages are not negative and sum to at most
    100, the score is their difference over 100 (hence between -1 and
    1), at least one article is counted, and the class is bullish
    exactly when the score exceeds 0.2 and bearish exactly when it is
    below -0.2.  The mock data of the [catch] block satisfy this as
    well. *)
Theorem X8_sentiment_data_invariant fetch now print symbol w :
  clock_ok now ->
  returnsE (SentimentAnalysis.fetchSentimentData fetch now print symbol) w
    (fun d w' =>
       w' = w
       /\ exists b r s,
            SentimentData.bullishPercentage d = Fin b
            /\ SentimentData.bearishPercentage d = Fin r
            /\ SentimentData.sentimentScore d = Fin s
            /\ (0 <= b)%R /\ (0 <= r)%R /\ (b + r <= 100)%R
            /\ s = ((b - r) / 100)%R
            /\ (1 <= SentimentData.totalArticles d)%Z
            /\ (SentimentData.sentimentClass d = SentimentClass.bullish
                <-> (0.2 < s)%R)
            /\ (SentimentData.sentimentClass d = SentimentClass.bearish
                <-> (s < -0.2)%R)).
Proof.
  intros Hclock.
  destruct (fetchSentimentData_cases fetch now print symbol w)
    as [(articles & Hu & Hrun) | (_ & Hrun)].
  - eexists _, _. split; [exact Hrun |]. split; [reflexivity |].
    apply liveSentiment_invariant. eapply usable_nonempty. exact Hu.
  - rewrite mockSentimentData_ok in Hrun by exact Hclock.
    eexists _, _. split; [exact Hrun |]. split; [reflexivity |].
    apply mockSentiment_invariant.
Qed.

Lemma X8_sentiment_data_invariant_witness :
  returnsE (SentimentAnalysis.fetchSentimentData
              (fun _ =>
                 Some (Response.mk true "200"
                         (Some (News.mk
                                  (Some [ Article.mk (Some "Bitcoin rally"%string)
                                            None #1700000000;
                                          Article.mk (Some "Markets crash"%string)
                                            (Some "Prices fall"%string)
                                            #1699990000 ])))))
              1700000000000 (fun _ => "a date"%string) "BTC")
    (mkWorld (fun _ => 0.5%R) 0 0)
    (fun d w' =>
       w' = mkWorld (fun _ => 0.5%R) 0 0
       /\ exists b r s,
            SentimentData.bullishPercentage d = Fin b
            /\ SentimentData.bearishPercentage d = Fin r
            /\ SentimentData.sentimentScore d = Fin s
            /\ (0 <= b)%R /\ (0 <= r)%R /\ (b + r <= 100)%R
            /\ s = ((b - r) / 100)%R
            /\ (1 <= SentimentData.totalArticles d)%Z
            /\ (SentimentData.sentimentClass d = SentimentClass.bullish
                <-> (0.2 < s)%R)
            /\ (SentimentData.sentimentClass d = SentimentClass.bearish
                <-> (s < -0.2)%R)).
Proof.
  apply (X8_sentiment_data_invariant _ 1700000000000 (fun _ => "a date"%string)
           "BTC" (mkWorld (fun _ => 0.5%R) 0 0)).
  unfold clock_ok, printable. split; apply Rabs_le; lra.
Defined.

Lemma impact_range s : (-1 <= s <= 1)%R -> (0.97 <= 1 + s * 0.03 <= 1.03)%R.
Proof. intros H. lra. Qed.

Lemma score_impact d :
  sentiment_invariant d ->
  exists m,
    #1 + SentimentData.sentimentScore d * #0.03 = Fin m
    /\ (0.97 <= m <= 1.03)%R.
Proof.
  intros (b & r & s & _ & _ & -> & Hb & Hr & Hbr & -> & _).
  eexists. split; [reflexivity |]. apply impact_range. lra.
Qed.

(** [fetchSentimentData] returns sound data, or fails on the clock. *)
Lemma fetchSentimentData_outcome fetch now print symbol w :
  (exists d,
     SentimentAnalysis.fetchSentimentData fetch now print symbol w
     = Try.Return d w
     /\ sentiment_invariant d)
  \/ SentimentAnalysis.fetchSentimentData fetch now print symbol w
     = Try.Raise (Try.Native RangeError) w.
Proof.
  destruct (fetchSentimentData_cases fetch now print symbol w)
    as [(articles & Hu & Hrun) | (_ & Hrun)].
  - left. eexists. split; [exact Hrun |].
    apply liveSentiment_invariant. eapply usable_nonempty. exact Hu.
  - destruct (mockSentimentData_outcome now print symbol w)
      as [(_ & Hmock) | (_ & Hmock)]; rewrite Hmock in Hrun.
    + left. eexists. split; [exact Hrun |]. apply mockSentiment_invariant.
    + right. exact Hrun.
Qed.

(** X9.  [getSentimentPriceImpact] never throws, leaves the generator
    alone, and whatever the network and the clock do it returns a factor
    between 0.97 and 1.03: the sentiment moves a price by 3 % at most,
    as the comment in the code says. *)
Theorem X9_sentiment_impact_bounded fetch now print symbol currentPrice w :
  exists m,
    SentimentAnalysis.getSentimentPriceImpact fetch now print symbol
      currentPrice w
    = Try.Return (Fin m) w
    /\ (0.97 <= m <= 1.03)%R.
Proof.
  unfold SentimentAnalysis.getSentimentPriceImpact, Try.try_catch.
  destruct (fetchSentimentData_outcome fetch now print symbol w)
    as [(d & Hrun & Hinv) | Hrun].
  - rewrite (bindE_run _ _ _ _ _ Hrun).
    destruct (score_impact d Hinv) as (m & -> & Hm).
    exists m. split; [reflexivity | exact Hm].
  - rewrite (bindE_fail _ _ _ _ _ Hrun).
    exists 1%R. split; [reflexivity | lra].
Qed.


(** X10.  When the feed cannot be used, the data are the mock data of
    the [catch] block, and the impact on the price is the one of the
    mock score: this is so when the request fails, when the response is
    not [ok], when its body does not parse, holds no [Data] or an empty
    [Data], and when an article has no title.  The mock data are those
    of BTC (65 % bullish, 25 % bearish, score 0.4, impact 1.012) for the
    symbol ["BTC"] only, and 58 %, 32 %, 0.26 and 1.0078 for every other
    symbol. *)
Theorem X10_sentiment_fallback fetch now print symbol currentPrice w :
  clock_ok now ->
  (fetch (Text.toLowerCase symbol) = None
   \/ exists response,
        fetch (Text.toLowerCase symbol) = Some response
        /\ (Response.ok response = false
            \/ Response.json response = None
            \/ Response.json response = Some (News.mk None)
            \/ Response.json response = Some (News.mk (Some []))
            \/ exists articles,
                 Response.json response = Some (News.mk (Some articles))
                 /\ Exists (fun a => Article.title a = None) articles)) ->
  SentimentAnalysis.fetchSentimentData fetch now print symbol w
  = Try.Return
      (SentimentData.mk
         (if String.eqb symbol "BTC" then #65 else #58)
         (if String.eqb symbol "BTC" then #25 else #32)
         (print (now - 86400000 * 7)%R) (print now) 42
         (if String.eqb symbol "BTC" then #0.4 else #0.26)
         SentimentClass.bullish) w
  /\ SentimentAnalysis.getSentimentPriceImpact fetch now print symbol
       currentPrice w
     = Try.Return (if String.eqb symbol "BTC" then #1.012 else #1.0078) w.
Proof.
  intros Hclock Hbad.
  assert (Hrun : SentimentAnalysis.fetchSentimentData fetch now print symbol w
                 = Try.Return (mockSentiment now print symbol) w).
  { destruct (fetchSentimentData_cases fetch now print symbol w)
      as [(articles & Hu & _) | (_ & Hrun)].
    - exfalso. destruct Hu as (status & Hf & Hne & Hall & _).
      destruct Hbad as [Hnone | (response & Hsome & Hcase)];
        [congruence |].
      rewrite Hf in Hsome. injection Hsome as <-.
      cbn [Response.ok Response.json] in Hcase.
      destruct Hcase as [H | [H | [H | [H | (others & H & Hex)]]]];
        try discriminate H.
      + injection H as ->. congruence.
      + injection H as <-.
        apply Exists_exists in Hex. destruct Hex as (a & Hin & Ha).
        rewrite Forall_forall in Hall. apply (Hall a Hin). exact Ha.
    - rewrite Hrun. apply mockSentimentData_ok. exact Hclock. }
  split; [exact Hrun |].
  unfold SentimentAnalysis.getSentimentPriceImpact, Try.try_catch.
  rewrite (bindE_run _ _ _ _ _ Hrun).
  unfold mockSentiment. cbn [SentimentData.sentimentScore].
  destruct (String.eqb symbol "BTC"); unfold Try.ret; js_eval;
    repeat f_equal; lra.
Qed.

Lemma X10_sentiment_fallback_witness :
  SentimentAnalysis.fetchSentimentData
    (fun _ => Some (Response.mk false "429" None)) 1700000000000
    (fun _ => "a date"%string) "ETH" (mkWorld (fun _ => 0.5%R) 0 0)
  = Try.Return
      (SentimentData.mk
         (if String.eqb "ETH" "BTC" then #65 else #58)
         (if String.eqb "ETH" "BTC" then #25 else #32)
         "a date" "a date" 42
         (if String.eqb "ETH" "BTC" then #0.4 else #0.26)
         SentimentClass.bullish) (mkWorld (fun _ => 0.5%R) 0 0)
  /\ SentimentAnalysis.getSentimentPriceImpact
       (fun _ => Some (Response.mk false "429" None)) 1700000000000
       (fun _ => "a date"%string) "ETH" #3500 (mkWorld (fun _ => 0.5%R) 0 0)
     = Try.Return (if String.eqb "ETH" "BTC" then #1.012 else #1.0078)
         (mkWorld (fun _ => 0.5%R) 0 0).
Proof.
  apply (X10_sentiment_fallback
           (fun _ => Some (Response.mk false "429" None)) 1700000000000
           (fun _ => "a date"%string) "ETH" #3500
           (mkWorld (fun _ => 0.5%R) 0 0)).
  - unfold clock_ok, printable. split; apply Rabs_le; lra.
  - right. eexists. split; [reflexivity |]. left. reflexivity.
Defined.

(** X11.  On a usable feed the percentages are shares of the articles:
    [bullishPercentage] is 100 times the share of the articles that
    mention a positive keyword and no negative one, in the title or in
    the body and whatever the case of the letters;
    [bearishPercentage] is the same with the two lists exchanged; an
    article that mentions keywords of both lists, or of neither, counts
    for neither.  The score is the difference of the two counts over the
    number of articles. *)
Theorem X11_sentiment_shares fetch now print symbol w articles :
  usable (fetch (Text.toLowerCase symbol)) articles ->
  returnsE (SentimentAnalysis.fetchSentimentData fetch now print symbol) w
    (fun d w' =>
       w' = w
       /\ SentimentData.totalArticles d = len articles
       /\ SentimentData.bullishPercentage d
          = Fin (IZR (count countsPositive articles) / IZR (len articles) * 100)
       /\ SentimentData.bearishPercentage d
          = Fin (IZR (count countsNegative articles) / IZR (len articles) * 100)
       /\ SentimentData.sentimentScore d
          = Fin ((IZR (count countsPositive articles)
                  - IZR (count countsNegative articles))
                 / IZR (len articles))).
Proof.
  intros Hu.
  destruct (fetchSentimentData_cases fetch now print symbol w)
    as [(articles' & Hu' & Hrun) | (Hno & _)];
    [| exfalso; apply (Hno articles); exact Hu].
  assert (articles' = articles) as ->.
  { destruct Hu as (s & H & _), Hu' as (s' & H' & _).
    rewrite H in H'. injection H' as _ ->. reflexivity. }
  eexists _, _. split; [exact Hrun |]. split; [reflexivity |].
  pose proof (IZR_len_pos articles (usable_nonempty _ _ Hu)) as HT.
  unfold liveSentiment.
  cbn [SentimentData.bullishPercentage SentimentData.bearishPercentage
       SentimentData.sentimentScore SentimentData.totalArticles].
  unfold of_Z. rewrite !div_Fin by lra. js_eval. rewrite div_Fin by lra.
  repeat split.
Qed.

Lemma X11_sentiment_shares_witness :
  returnsE (SentimentAnalysis.fetchSentimentData
              (fun _ =>
                 Some (Response.mk true "200"
                         (Some (News.mk
                                  (Some [ Article.mk (Some "Bitcoin RALLY"%string)
                                            None #1700000000;
                                          Article.mk (Some "Markets crash"%string)
                                            (Some "Prices fall"%string)
                                            #1699990000 ])))))
              1700000000000 (fun _ => "a date"%string) "BTC")
    (mkWorld (fun _ => 0.5%R) 0 0)
    (fun d w' =>
       let articles :=
         [ Article.mk (Some "Bitcoin RALLY"%string) None #1700000000;
           Article.mk (Some "Markets crash"%string) (Some "Prices fall"%string)
             #1699990000 ] in
       w' = mkWorld (fun _ => 0.5%R) 0 0
       /\ SentimentData.totalArticles d = len articles
       /\ SentimentData.bullishPercentage d
          = Fin (IZR (count countsPositive articles) / IZR (len articles) * 100)
       /\ SentimentData.bearishPercentage d
          = Fin (IZR (count countsNegative articles) / IZR (len articles) * 100)
       /\ SentimentData.sentimentScore d
          = Fin ((IZR (count countsPositive articles)
                  - IZR (count countsNegative articles))
                 / IZR (len articles))).
Proof.
  apply (X11_sentiment_shares _ 1700000000000 (fun _ => "a date"%string) "BTC"
           (mkWorld (fun _ => 0.5%R) 0 0)
           [ Article.mk (Some "Bitcoin RALLY"%string) None #1700000000;
             Article.mk (Some "Markets crash"%string) (Some "Prices fall"%string)
               #1699990000 ]).
  exists "200"%string. split; [reflexivity |]. split; [discriminate |].
  split; [repeat constructor; discriminate |].
  unfold printable. cbn [hd List.last Article.published_on]. js_eval.
  split; apply Rabs_le; lra.
Defined.

(** X12.  The impact factor of [getSentimentPriceImpact], handed to the
    sentiment model in exogenous mode as [PredictionSection] and
    [PredictionChart] do, keeps that model's path within 3 % a day of
    the last price, compounded: on day [d] of a horizon of at most
    4294967295 days the price lies between [last * 0.97^(d+1)] and
    [last * 1.03^(d+1)], whatever the feed answers. *)
Theorem X12_sentiment_path_within_3_percent fetch now print symbol
  currentPrice w ps horizon d w2 :
  ps <> [] -> (0 < last ps 0)%R -> (horizon <= 4294967295)%Z ->
  (0 <= d < horizon)%Z ->
  exists m path w2' x,
    SentimentAnalysis.getSentimentPriceImpact fetch now print symbol
      currentPrice w
    = Try.Return (Fin m) w
    /\ SentimentModel.predict (SentimentModel.new_ true (Fin m))
         (prices_of ps) horizon w2
       = Ok path w2'
    /\ nth_error path (Z.to_nat d) = Some (Fin x)
    /\ (last ps 0 * 0.97 ^ (Z.to_nat d + 1) <= x
        <= last ps 0 * 1.03 ^ (Z.to_nat d + 1))%R.
Proof.
  intros Hne Hlast Hmax Hd.
  assert (Himpact : exists m,
            SentimentAnalysis.getSentimentPriceImpact fetch now print symbol
              currentPrice w = Try.Return (Fin m) w
            /\ (0.97 <= m <= 1.03)%R).
  { unfold SentimentAnalysis.getSentimentPriceImpact, Try.try_catch.
    destruct (fetchSentimentData_outcome fetch now print symbol w)
      as [(sd & Hrun & Hinv) | Hrun].
    - rewrite (bindE_run _ _ _ _ _ Hrun).
      destruct (score_impact sd Hinv) as (m & -> & Hm).
      exists m. split; [reflexivity | exact Hm].
    - rewrite (bindE_fail _ _ _ _ _ Hrun).
      exists 1%R. split; [reflexivity | lra]. }
  destruct Himpact as (m & Hm & Hrange).
  eexists m, _, _, _. split; [exact Hm |].
  split; [apply Sentiment_predict_exogenous; lia |].
  split.
  - unfold ar_path.
    rewrite (nth_error_map_seq
               (fun k => ar_price _ (seed w2) (cursor w2) _ (Datatypes.S k)))
      by lia.
    rewrite (lastPrice_of_prices ps Hne), ar_price_exogenous.
    reflexivity.
  - rewrite Nat.add_1_r.
    split; apply Rmult_le_compat_l; try lra; apply pow_incr; lra.
Qed.

Lemma X12_sentiment_path_within_3_percent_witness :
  exists m path w2' x,
    SentimentAnalysis.getSentimentPriceImpact (fun _ => None) 0
      (fun _ => "a date"%string) "BTC" #65000 (mkWorld (fun _ => 0.5%R) 0 0)
    = Try.Return (Fin m) (mkWorld (fun _ => 0.5%R) 0 0)
    /\ SentimentModel.predict (SentimentModel.new_ true (Fin m))
         (prices_of [64000; 65000]%R) 7 (mkWorld (fun _ => 0.5%R) 0 0)
       = Ok path w2'
    /\ nth_error path (Z.to_nat 6) = Some (Fin x)
    /\ (last [64000; 65000]%R 0 * 0.97 ^ (Z.to_nat 6 + 1) <= x
        <= last [64000; 65000]%R 0 * 1.03 ^ (Z.to_nat 6 + 1))%R.
Proof.
  apply (X12_sentiment_path_within_3_percent (fun _ => None) 0
           (fun _ => "a date"%string) "BTC" #65000
           (mkWorld (fun _ => 0.5%R) 0 0) [64000; 65000]%R 7 6
           (mkWorld (fun _ => 0.5%R) 0 0)).
  - discriminate.
  - cbn [last]. lra.
  - lia.
  - lia.
Defined.

(** ** The historical prices *)

Lemma Math_max_Fin a b : Math_max (Fin a) (Fin b) = Fin (Rmax a b).
Proof. reflexivity. Qed.

Lemma mockStart_eq symbol :
  (if String.eqb symbol "BTC" then #65000 else #3500) = Fin (mockStart symbol).
Proof. unfold mockStart. destruct (String.eqb symbol "BTC"); reflexivity. Qed.

Lemma mockFloor_eq symbol :
  (if String.eqb symbol "BTC" then #10000 else #500) = Fin (mockFloor symbol).
Proof. unfold mockFloor. destruct (String.eqb symbol "BTC"); reflexivity. Qed.

Lemma mockFloor_pos symbol : (500 <= mockFloor symbol)%R.
Proof. unfold mockFloor. destruct (String.eqb symbol "BTC"); lra. Qed.

Lemma mockPrice_floor symbol draws c k :
  (mockFloor symbol <= mockPrice symbol draws c (Datatypes.S k))%R.
Proof. cbn [mockPrice]. apply Rmax_r. Qed.

(** The loop of the mock data. *)
Lemma mock_loop calendar symbol days w :
  calendar_covers calendar (- days) 0 ->
  returnsE
    (Try.for_down days (-1)
       (fun i '(mockData, price) =>
          r <~ Try.lift Math_random ;;
          let price := price * (#1 + (r - #0.5) * Fin (volatility_of symbol)) in
          let price := Math_max price (Fin (mockFloor symbol)) in
          date <~ Date_string calendar (- i) ;;
          r' <~ Try.lift Math_random ;;
          let volume :=
            Math_floor
              (r' * (if String.eqb symbol "BTC" then #30000000000
                     else #15000000000)) in
          Try.ret (mockData ++ [HistoricalPrice.mk date price volume],
                   price))
       ([], Fin (mockStart symbol))) w
    (fun s w' =>
       s = (map (mockRow calendar symbol days (seed w) (cursor w))
              (seq 0 (Z.to_nat (days + 1))),
            Fin (mockPrice symbol (seed w) (cursor w) (Z.to_nat (days + 1))))
       /\ w' = mkWorld (seed w) (cursor w + 2 * Z.to_nat (days + 1)) (oob w)).
Proof.
  intros Hcal.
  pose proof (returnsE_for_down
    (fun k (s : list HistoricalPrice.t * number) w' =>
       s = (map (mockRow calendar symbol days (seed w) (cursor w)) (seq 0 k),
            Fin (mockPrice symbol (seed w) (cursor w) k))
       /\ w' = mkWorld (seed w) (cursor w + 2 * k) (oob w))
    days (-1)) as H.
  replace (days - -1)%Z with (days + 1)%Z in H by lia.
  apply H; clear H.
  - split; [reflexivity |]. rewrite Nat.mul_0_r, Nat.add_0_r.
    symmetry. apply world_eta.
  - intros k [mockData price] w' Hk [E ->]. injection E as -> ->.
    apply returnsE_bind, returnsE_lift, returns_random.
    cbn [seed cursor oob]. cbv zeta.
    apply returnsE_bind, returnsE_date; [apply Hcal; lia |].
    apply returnsE_bind, returnsE_lift, returns_random.
    cbn [seed cursor oob].
    apply returnsE_ret. split.
    + rewrite seq_S, map_app. cbn [map Nat.add]. unfold mockRow at 2.
      replace (- (days - Z.of_nat k))%Z with (Z.of_nat k - days)%Z by lia.
      replace (Datatypes.S (cursor w + 2 * k)) with (cursor w + 2 * k + 1)%nat
        by lia.
      reflexivity.
    + f_equal. lia.
Qed.

Lemma mockHistoricalPrices_closed calendar symbol days w :
  calendar_covers calendar (- days) 0 ->
  mockHistoricalPrices calendar symbol days w
  = Try.Return
      (map (mockRow calendar symbol days (seed w) (cursor w))
         (seq 0 (Z.to_nat (days + 1))))
      (mkWorld (seed w) (cursor w + 2 * Z.to_nat (days + 1)) (oob w)).
Proof.
  intros Hcal.
  enough (returnsE (mockHistoricalPrices calendar symbol days) w
            (fun rows w' =>
               rows = map (mockRow calendar symbol days (seed w) (cursor w))
                        (seq 0 (Z.to_nat (days + 1)))
               /\ w' = mkWorld (seed w) (cursor w + 2 * Z.to_nat (days + 1))
                         (oob w)))
    as (rows & w' & Hrun & -> & ->) by exact Hrun.
  unfold mockHistoricalPrices.
  rewrite mockStart_eq, mockFloor_eq, volatility_of_eq. cbv zeta.
  apply returnsE_bind.
  eapply returnsE_weaken; [apply mock_loop; exact Hcal |].
  intros s w1 [-> ->]. apply returnsE_ret. split; reflexivity.
Qed.

Lemma bindE_assoc {A B C : Type} (m : Try.E A) (f : A -> Try.E B)
  (g : B -> Try.E C) w :
  Try.bind (Try.bind m f) g w = Try.bind m (fun a => Try.bind (f a) g) w.
Proof. unfold Try.bind. destruct (m w); reflexivity. Qed.

Lemma formatRow_outcome printDay symbol total_volumes timestamp price i w :
  (printable timestamp
   /\ exists row w',
        formatRow printDay symbol total_volumes (timestamp, price) i w
        = Try.Return row w'
        /\ HistoricalPrice.price row = price
        /\ seed w' = seed w /\ oob w' = oob w)
  \/ (~ printable timestamp
      /\ exists e w',
           formatRow printDay symbol total_volumes (timestamp, price) i w
           = Try.Raise e w'
           /\ seed w' = seed w /\ oob w' = oob w).
Proof.
  unfold formatRow.
  set (volume_of := match total_volumes with None => _ | Some _ => _ end).
  assert (Hvol : exists v w1,
            volume_of w = Try.Return v w1
            /\ seed w1 = seed w /\ oob w1 = oob w).
  { unfold volume_of.
    destruct total_volumes as [tv |].
    - destruct (if (0 <=? i)%Z then nth_error tv (Z.to_nat i) else None)
        as [[[t v] |] |].
      + exists v, w. repeat split.
      + eexists _, _. split; [reflexivity |]. split; reflexivity.
      + eexists _, _. split; [reflexivity |]. split; reflexivity.
    - eexists _, _. split; [reflexivity |]. split; reflexivity. }
  destruct Hvol as (v & w1 & Hv & Hs1 & Ho1).
  rewrite !(bindE_run _ _ _ _ _ Hv).
  destruct (Classical_Prop.classic (printable timestamp)) as [Hp | Hp].
  - left. split; [exact Hp |].
    rewrite (bindE_run _ _ _ _ _ (toISOString_printable printDay _ w1 Hp)).
    eexists _, _. split; [reflexivity |]. repeat split; assumption.
  - right. split; [exact Hp |].
    rewrite (bindE_fail _ _ _ _ _ (toISOString_unprintable printDay _ w1 Hp)).
    eexists _, _. split; [reflexivity |]. split; assumption.
Qed.

(** The callback of [data.prices.map], whatever it does, keeps the
    stream of draws; when every time stamp can be printed there is a
    row for every pair, and otherwise the whole [map] fails. *)
Lemma format_outcome printDay symbol total_volumes prices : forall i w,
  (Forall (fun tp => printable (fst tp)) prices
   /\ exists rows w',
        Api.mapi_from (formatRow printDay symbol total_volumes) prices i w
        = Try.Return rows w'
        /\ map HistoricalPrice.price rows = map snd prices
        /\ seed w' = seed w /\ oob w' = oob w)
  \/ (Exists (fun tp => ~ printable (fst tp)) prices
      /\ exists e w',
           Api.mapi_from (formatRow printDay symbol total_volumes) prices i w
           = Try.Raise e w'
           /\ seed w' = seed w /\ oob w' = oob w).
Proof.
  induction prices as [| [timestamp price] prices IH]; intros i w.
  - left. split; [constructor |]. exists [], w. repeat split.
  - cbn [Api.mapi_from].
    destruct (formatRow_outcome printDay symbol total_volumes timestamp price
                i w)
      as [(Hp & row & w1 & Hrow & Hprice & Hs1 & Ho1)
         | (Hp & e & w1 & Hrow & Hs1 & Ho1)].
    + rewrite !(bindE_run _ _ _ _ _ Hrow).
      destruct (IH (i + 1)%Z w1)
        as [(Hall & rows & w' & Hrun & Hrows & Hs & Ho)
           | (Hex & e & w' & Hrun & Hs & Ho)].
      * left. split; [constructor; assumption |].
        rewrite (bindE_run _ _ _ _ _ Hrun).
        eexists _, _. split; [reflexivity |].
        cbn [map snd]. rewrite Hrows, Hprice.
        repeat split; congruence.
      * right. split; [apply Exists_cons_tl; exact Hex |].
        rewrite (bindE_fail _ _ _ _ _ Hrun).
        eexists _, _. split; [reflexivity |]. split; congruence.
    + right. split; [apply Exists_cons_hd; exact Hp |].
      rewrite (bindE_fail _ _ _ _ _ Hrow).
      eexists _, _. split; [reflexivity |]. split; assumption.
Qed.

Lemma answers_functional inherited fetch symbol days p1 p2 :
  answers inherited fetch symbol days p1 ->
  answers inherited fetch symbol days p2 -> p1 = p2.
Proof.
  intros (id1 & s1 & v1 & Hid1 & Hf1) (id2 & s2 & v2 & Hid2 & Hf2).
  rewrite Hid1 in Hid2. injection Hid2 as <-.
  rewrite Hf1 in Hf2. injection Hf2 as _ -> _. reflexivity.
Qed.

(** The two ways of [fetchHistoricalPrices]: the rows of the answer, or
    the [catch] block, entered with the draws made so far. *)
Lemma fetchHistoricalPrices_cases inherited fetch printDay calendar symbol
  days w :
  (exists prices rows w',
     answers inherited fetch symbol days prices
     /\ Forall (fun tp => printable (fst tp)) prices
     /\ Api.fetchHistoricalPrices inherited fetch printDay calendar symbol days w
        = Try.Return rows w'
     /\ map HistoricalPrice.price rows = map snd prices
     /\ seed w' = seed w /\ oob w' = oob w)
  \/ (exists w1,
        (forall prices,
           answers inherited fetch symbol days prices ->
           Exists (fun tp => ~ printable (fst tp)) prices)
        /\ Api.fetchHistoricalPrices inherited fetch printDay calendar symbol
             days w
           = mockHistoricalPrices calendar symbol days w1
        /\ seed w1 = seed w /\ oob w1 = oob w
        /\ ((forall prices, ~ answers inherited fetch symbol days prices) ->
            w1 = w)).
Proof.
  unfold Api.fetchHistoricalPrices, Try.try_catch.
  fold (mockHistoricalPrices calendar symbol days).
  assert (Hmock : forall w1,
            seed w1 = seed w -> oob w1 = oob w ->
            (forall prices,
               answers inherited fetch symbol days prices ->
               Exists (fun tp => ~ printable (fst tp)) prices) ->
            ((forall prices, ~ answers inherited fetch symbol days prices) ->
             w1 = w) ->
            exists w1',
              (forall prices,
                 answers inherited fetch symbol days prices ->
                 Exists (fun tp => ~ printable (fst tp)) prices)
              /\ mockHistoricalPrices calendar symbol days w1
                 = mockHistoricalPrices calendar symbol days w1'
              /\ seed w1' = seed w /\ oob w1' = oob w
              /\ ((forall prices,
                     ~ answers inherited fetch symbol days prices) ->
                  w1' = w)).
  { intros w1 Hs Ho Hn Hw. exists w1. repeat split; assumption. }
  destruct (Api.coinGeckoIds inherited symbol) as [coinId |] eqn:Eid.
  2:{ right. apply Hmock; try reflexivity.
      intros prices (id & s & v & Hid & _). congruence. }
  destruct (fetch coinId days) as [[ok status json] |] eqn:Ef; cbn [await].
  2:{ right. rewrite bindE_throw. apply Hmock; try reflexivity.
      intros prices (id & s & v & Hid & Hf). congruence. }
  rewrite bindE_ret. cbn [Response.ok Response.json Response.status].
  destruct ok; cbn [negb].
  2:{ right. apply Hmock; try reflexivity.
      intros prices (id & s & v & Hid & Hf). congruence. }
  destruct json as [[prices total_volumes] |]; cbn [await].
  2:{ right. rewrite bindE_throw. apply Hmock; try reflexivity.
      intros prices (id & s & v & Hid & Hf). congruence. }
  rewrite bindE_ret. cbn [MarketChart.prices MarketChart.total_volumes].
  destruct prices as [prices |].
  2:{ right. apply Hmock; try reflexivity.
      intros prices (id & s & v & Hid & Hf). congruence. }
  assert (Hans : answers inherited fetch symbol days prices).
  { exists coinId, status, total_volumes. split; [exact Eid | exact Ef]. }
  fold (formatRow printDay symbol total_volumes).
  destruct (format_outcome printDay symbol total_volumes prices 0 w)
    as [(Hall & rows & w' & Hrun & Hrows & Hs & Ho)
       | (Hex & e & w' & Hrun & Hs & Ho)].
  - left. exists prices, rows, w'. rewrite Hrun. repeat split; assumption.
  - right. rewrite Hrun. apply Hmock; try assumption.
    + intros prices' Hans'.
      rewrite (answers_functional _ _ _ _ _ _ Hans' Hans). exact Hex.
    + intros Hno. exfalso. apply (Hno prices). exact Hans.
Qed.

(** X13.  When the API gives no prices (the symbol is unknown, the
    request fails, the response is not [ok], or its body does not parse
    or holds no [prices]), [fetchHistoricalPrices] returns mock data: for
    [days >= -1] and dates that can be printed, [days + 1] rows, one for
    each day from [days] days back to today, at the cost of two draws a
    row, and every price in them is at least the floor of the symbol
    (10000 for BTC, 500 for any other), hence positive. *)
Theorem X13_mock_history inherited fetch printDay calendar symbol days w :
  (-1 <= days)%Z ->
  calendar_covers calendar (- days) 0 ->
  (forall prices, ~ answers inherited fetch symbol days prices) ->
  returnsE (Api.fetchHistoricalPrices inherited fetch printDay calendar symbol
              days) w
    (fun rows w' =>
       len rows = (days + 1)%Z
       /\ seed w' = seed w
       /\ cursor w' = (cursor w + 2 * Z.to_nat (days + 1))%nat
       /\ oob w' = oob w
       /\ forall k row,
            nth_error rows k = Some row ->
            HistoricalPrice.date row = date_of calendar (Z.of_nat k - days)
            /\ exists x,
                 HistoricalPrice.price row = Fin x
                 /\ ((if String.eqb symbol "BTC" then 10000 else 500) <= x)%R).
Proof.
  intros Hdays Hcal Hno.
  destruct (fetchHistoricalPrices_cases inherited fetch printDay calendar
              symbol days w)
    as [(prices & _ & _ & Hans & _) | (w1 & _ & Hrun & _ & _ & Hw)];
    [exfalso; apply (Hno prices); exact Hans |].
  rewrite (Hw Hno) in Hrun.
  rewrite mockHistoricalPrices_closed in Hrun by exact Hcal.
  eexists _, _. split; [exact Hrun |].
  cbn [seed cursor oob].
  split; [unfold len; rewrite length_map, length_seq; lia |].
  repeat split.
  - destruct (Nat.lt_ge_cases k (Z.to_nat (days + 1))) as [Hk | Hk].
    + rewrite (nth_error_map_seq
                 (mockRow calendar symbol days (seed w) (cursor w))) in H
        by exact Hk.
      injection H as <-. reflexivity.
    + assert (nth_error
                (map (mockRow calendar symbol days (seed w) (cursor w))
                   (seq 0 (Z.to_nat (days + 1)))) k = None) as E
        by (apply nth_error_None; rewrite length_map, length_seq; exact Hk).
      congruence.
  - destruct (Nat.lt_ge_cases k (Z.to_nat (days + 1))) as [Hk | Hk].
    + rewrite (nth_error_map_seq
                 (mockRow calendar symbol days (seed w) (cursor w))) in H
        by exact Hk.
      injection H as <-. eexists. split; [reflexivity |].
      fold (mockFloor symbol). apply mockPrice_floor.
    + assert (nth_error
                (map (mockRow calendar symbol days (seed w) (cursor w))
                   (seq 0 (Z.to_nat (days + 1)))) k = None) as E
        by (apply nth_error_None; rewrite length_map, length_seq; exact Hk).
      congruence.
Qed.

Lemma X13_mock_history_witness :
  returnsE (Api.fetchHistoricalPrices (fun _ => None) (fun _ _ => None)
              (fun _ => "a day"%string) (fun _ => Some "a day"%string) "BTC" 7)
    (mkWorld (fun _ => 0.5%R) 0 0)
    (fun rows w' =>
       len rows = (7 + 1)%Z
       /\ seed w' = (fun _ => 0.5%R)
       /\ cursor w' = (0 + 2 * Z.to_nat (7 + 1))%nat
       /\ oob w' = 0%nat
       /\ forall k row,
            nth_error rows k = Some row ->
            HistoricalPrice.date row
            = date_of (fun _ => Some "a day"%string) (Z.of_nat k - 7)
            /\ exists x,
                 HistoricalPrice.price row = Fin x
                 /\ ((if String.eqb "BTC" "BTC" then 10000 else 500) <= x)%R).
Proof.
  apply (X13_mock_history (fun _ => None) (fun _ _ => None)
           (fun _ => "a day"%string) (fun _ => Some "a day"%string) "BTC" 7
           (mkWorld (fun _ => 0.5%R) 0 0)).
  - lia.
  - intros k _. discriminate.
  - intros prices (id & s & v & _ & H). discriminate H.
Defined.

(** ** The chart component *)

Lemma historyDays_of_cases timeframe :
  (historyDays_of timeframe = 7 /\ futureDays_of timeframe = 1)%Z
  \/ (historyDays_of timeframe = 14 /\ futureDays_of timeframe = 7)%Z
  \/ (historyDays_of timeframe = 30 /\ futureDays_of timeframe = 30)%Z.
Proof.
  unfold historyDays_of, futureDays_of.
  destruct (String.eqb timeframe "1d"); [tauto |].
  destruct (String.eqb timeframe "7d"); tauto.
Qed.

Lemma calendar_month calendar timeframe :
  calendar_covers calendar (-30) 30 ->
  calendar_covers calendar (- Z.max (historyDays_of timeframe) 0)
    (futureDays_of timeframe)
  /\ calendar_covers calendar (- historyDays_of timeframe) 0.
Proof.
  intros Hcal.
  destruct (historyDays_of_cases timeframe)
    as [[-> ->] | [[-> ->] | [-> ->]]];
    split; intros k Hk; apply Hcal; lia.
Qed.

Lemma last_mock_row calendar symbol days draws c d :
  (0 <= days)%Z ->
  HistoricalPrice.price
    (nth (Z.to_nat (len (map (mockRow calendar symbol days draws c)
                           (seq 0 (Z.to_nat (days + 1)))) - 1))
       (map (mockRow calendar symbol days draws c)
          (seq 0 (Z.to_nat (days + 1)))) d)
  = Fin (mockPrice symbol draws c (Z.to_nat (days + 1))).
Proof.
  intros Hd. unfold len. rewrite length_map, length_seq.
  rewrite (nth_map_seq (mockRow calendar symbol days draws c)) by lia.
  unfold mockRow. cbn [HistoricalPrice.price]. f_equal. f_equal. lia.
Qed.

(** What [fetchDataAndPredict] leaves in the state: a chart over the
    history of the timeframe, from some start price and some draw on. *)
Lemma fetchDataAndPredict_outcome inherited fetch printDay calendar currency
  timeframe useSentimentAnalysis sentimentImpact w :
  calendar_covers calendar (-30) 30 ->
  exists startPrice c error w',
    PredictionChart.fetchDataAndPredict inherited fetch printDay calendar
      currency timeframe useSentimentAnalysis sentimentImpact w
    = Try.Return
        (PredictionChart.mk
           (chart calendar (historyDays_of timeframe) startPrice currency
              timeframe useSentimentAnalysis sentimentImpact (seed w) c)
           error) w'
    /\ seed w' = seed w /\ oob w' = oob w
    /\ (error = Some "Failed to fetch data for predictions"%string
        <-> answers inherited fetch currency (historyDays_of timeframe) [])
    /\ (error = None
        <-> ~ answers inherited fetch currency (historyDays_of timeframe) [])
    /\ ((forall prices,
           ~ answers inherited fetch currency (historyDays_of timeframe) prices) ->
        exists x, startPrice = Fin x /\ (mockFloor currency <= x)%R).
Proof.
  intros Hcal.
  destruct (calendar_month calendar timeframe Hcal) as [Hchart Hmock].
  assert (Hdays : (0 <= historyDays_of timeframe)%Z)
    by (destruct (historyDays_of_cases timeframe)
          as [[-> _] | [[-> _] | [-> _]]]; lia).
  unfold PredictionChart.fetchDataAndPredict, Try.try_catch.
  fold (historyDays_of timeframe). cbv zeta.
  destruct (fetchHistoricalPrices_cases inherited fetch printDay calendar
              currency (historyDays_of timeframe) w)
    as [(prices & rows & w1 & Hans & _ & Hrun & Hrows & Hs & Ho)
       | (w1 & Hex & Hrun & Hs & Ho & Hw)].
  - rewrite (bindE_run _ _ _ _ _ Hrun).
    destruct rows as [| row rows].
    + assert (prices = []) as -> by (destruct prices; [reflexivity | discriminate]).
      cbn [len List.length Z.of_nat Z.eqb]. unfold Try.throw at 1.
      rewrite (bindE_run _ _ _ _ _
                 (generatePredictionData_closed calendar _ _ currency timeframe
                    useSentimentAnalysis sentimentImpact w1 Hchart)).
      unfold Try.ret, after_chart. rewrite Hs.
      eexists _, _, _, _. split; [reflexivity |].
      cbn [seed oob]. split; [reflexivity |]. split; [exact Ho |].
      split; [split; [intros _; exact Hans | reflexivity] |].
      split; [split; [discriminate | intros H; contradiction] |].
      intros Hno. exfalso. apply (Hno []). exact Hans.
    + assert (Hnz : (len (row :: rows) =? 0)%Z = false)
        by (apply Z.eqb_neq; unfold len; cbn [List.length]; lia).
      rewrite Hnz.
      rewrite (bindE_run _ _ _ _ _
                 (item_in (row :: rows) (len (row :: rows) - 1) row w1
                    ltac:(unfold len; cbn [List.length]; lia))).
      rewrite (bindE_run _ _ _ _ _
                 (generatePredictionData_closed calendar _ _ currency timeframe
                    useSentimentAnalysis sentimentImpact w1 Hchart)).
      unfold Try.ret, after_chart. rewrite Hs.
      assert (Hnot : ~ answers inherited fetch currency
                         (historyDays_of timeframe) []).
      { intros Hempty.
        pose proof (answers_functional _ _ _ _ _ _ Hans Hempty) as E.
        rewrite E in Hrows. discriminate Hrows. }
      eexists _, _, _, _. split; [reflexivity |].
      cbn [seed oob]. split; [reflexivity |]. split; [exact Ho |].
      split; [split; [discriminate | intros H; contradiction] |].
      split; [split; [intros _; exact Hnot | reflexivity] |].
      intros Hno. exfalso. apply (Hno prices). exact Hans.
  - assert (Hne : ~ answers inherited fetch currency
                       (historyDays_of timeframe) []).
    { intros Hempty. apply Hex in Hempty. inversion Hempty. }
    rewrite mockHistoricalPrices_closed in Hrun by exact Hmock.
    rewrite (bindE_run _ _ _ _ _ Hrun).
    set (rows := map _ (seq 0 _)) in *.
    assert (Hlen : len rows = (historyDays_of timeframe + 1)%Z)
      by (unfold len, rows; rewrite length_map, length_seq; lia).
    assert (Hnz : (len rows =? 0)%Z = false) by (apply Z.eqb_neq; lia).
    rewrite Hnz.
    rewrite (bindE_run _ _ _ _ _
               (item_in rows (len rows - 1) (HistoricalPrice.mk EmptyString NaN NaN)
                  _ ltac:(lia))).
    unfold rows at 1 2. rewrite last_mock_row by exact Hdays.
    rewrite (bindE_run _ _ _ _ _
               (generatePredictionData_closed calendar _ _ currency timeframe
                  useSentimentAnalysis sentimentImpact _ Hchart)).
    unfold Try.ret, after_chart. cbn [seed cursor oob]. rewrite Hs.
    eexists _, _, _, _. split; [reflexivity |].
    cbn [seed oob]. split; [reflexivity |].
    split; [exact Ho |].
    split; [split; [discriminate | intros H; contradiction] |].
    split; [split; [intros _; exact Hne | reflexivity] |].
    intros _. eexists. split; [reflexivity |].
    replace (Z.to_nat (historyDays_of timeframe + 1))
      with (Datatypes.S (Z.to_nat (historyDays_of timeframe))) by lia.
    apply mockPrice_floor.
Qed.

(** X14.  Whatever the API answers, and as long as the dates of a month
    around today can be printed, [fetchDataAndPredict] ends with a chart
    in the state, of 9 rows for the timeframe ["1d"] (7 past days, today
    and 1 day ahead), 22 rows for ["7d"] (14, today, 7) and 61 rows for
    any other timeframe (30, today, 30): the history that was fetched
    contributes its last price and nothing else. *)
Theorem X14_component_chart_rows inherited fetch printDay calendar currency
  timeframe useSentimentAnalysis sentimentImpact w :
  calendar_covers calendar (-30) 30 ->
  returnsE (PredictionChart.fetchDataAndPredict inherited fetch printDay
              calendar currency timeframe useSentimentAnalysis sentimentImpact)
    w
    (fun st _ =>
       len (PredictionChart.chartData st)
       = (if String.eqb timeframe "1d" then 9
          else if String.eqb timeframe "7d" then 22 else 61)%Z).
Proof.
  intros Hcal.
  destruct (fetchDataAndPredict_outcome inherited fetch printDay calendar
              currency timeframe useSentimentAnalysis sentimentImpact w Hcal)
    as (p & c & e & w' & Hrun & _).
  eexists _, _. split; [exact Hrun |].
  cbn [PredictionChart.chartData]. rewrite chart_length.
  unfold historyDays_of, futureDays_of.
  destruct (String.eqb timeframe "1d"); [reflexivity |].
  destruct (String.eqb timeframe "7d"); reflexivity.
Qed.

Lemma X14_component_chart_rows_witness :
  returnsE (PredictionChart.fetchDataAndPredict (fun _ => None)
              (fun _ _ => None) (fun _ => "a day"%string)
              (fun _ => Some "a day"%string) "BTC" "7d" false #1)
    (mkWorld (fun _ => 0.5%R) 0 0)
    (fun st _ =>
       len (PredictionChart.chartData st)
       = (if String.eqb "7d" "1d" then 9
          else if String.eqb "7d" "7d" then 22 else 61)%Z).
Proof.
  apply (X14_component_chart_rows (fun _ => None) (fun _ _ => None)
           (fun _ => "a day"%string) (fun _ => Some "a day"%string) "BTC" "7d"
           false #1 (mkWorld (fun _ => 0.5%R) 0 0)).
  intros k _. discriminate.
Defined.

(** X15.  [fetchDataAndPredict] reports a failure exactly when the API
    answers with an empty list of prices.  A request that fails, a
    response that is not [ok] and a symbol the API does not know are not
    reported: [fetchHistoricalPrices] has already replaced them by mock
    prices. *)
Theorem X15_component_error_report inherited fetch printDay calendar currency
  timeframe useSentimentAnalysis sentimentImpact w :
  calendar_covers calendar (-30) 30 ->
  returnsE (PredictionChart.fetchDataAndPredict inherited fetch printDay
              calendar currency timeframe useSentimentAnalysis sentimentImpact)
    w
    (fun st _ =>
       let days :=
         if String.eqb timeframe "1d" then 7%Z
         else if String.eqb timeframe "7d" then 14%Z else 30%Z in
       (PredictionChart.fetchError st
        = Some "Failed to fetch data for predictions"%string
        <-> answers inherited fetch currency days [])
       /\ (PredictionChart.fetchError st = None
           <-> ~ answers inherited fetch currency days [])
       /\ ((forall prices, ~ answers inherited fetch currency days prices) ->
           PredictionChart.fetchError st = None)).
Proof.
  intros Hcal.
  destruct (fetchDataAndPredict_outcome inherited fetch printDay calendar
              currency timeframe useSentimentAnalysis sentimentImpact w Hcal)
    as (p & c & e & w' & Hrun & _ & _ & Hsome & Hnone & _).
  eexists _, _. split; [exact Hrun |].
  cbn [PredictionChart.fetchError]. fold (historyDays_of timeframe). cbv zeta.
  split; [exact Hsome |]. split; [exact Hnone |].
  intros Hno. apply Hnone. apply Hno.
Qed.

Lemma X15_component_error_report_witness :
  returnsE (PredictionChart.fetchDataAndPredict (fun _ => None)
              (fun _ _ =>
                 Some (Response.mk true "200"
                         (Some (MarketChart.mk (Some []) None))))
              (fun _ => "a day"%string)
              (fun _ => Some "a day"%string) "ETH" "1d" false #1)
    (mkWorld (fun _ => 0.5%R) 0 0)
    (fun st _ =>
       let fetch :=
         fun (_ : string) (_ : Z) =>
           Some (Response.mk true "200"
                   (Some (MarketChart.mk (Some []) None))) in
       let days :=
         if String.eqb "1d" "1d" then 7%Z
         else if String.eqb "1d" "7d" then 14%Z else 30%Z in
       (PredictionChart.fetchError st
        = Some "Failed to fetch data for predictions"%string
        <-> answers (fun _ => None) fetch "ETH" days [])
       /\ (PredictionChart.fetchError st = None
           <-> ~ answers (fun _ => None) fetch "ETH" days [])
       /\ ((forall prices, ~ answers (fun _ => None) fetch "ETH" days prices) ->
           PredictionChart.fetchError st = None)).
Proof.
  apply (X15_component_error_report (fun _ => None)
           (fun _ _ =>
              Some (Response.mk true "200"
                      (Some (MarketChart.mk (Some []) None))))
           (fun _ => "a day"%string) (fun _ => Some "a day"%string) "ETH" "1d"
           false #1 (mkWorld (fun _ => 0.5%R) 0 0)).
  intros k _. discriminate.
Defined.

(** X16.  When the API gives no prices, the chart of the component is
    still sound: no failure is reported, the chart starts from a mock
    price of at least 500 and, with draws in [[0, 1)] and a finite
    sentiment impact, each of its forecast rows holds finite numbers
    with [lowerBound <= predicted <= upperBound], the band being centred
    on the predicted price. *)
Theorem X16_component_offline_chart inherited fetch printDay calendar currency
  timeframe useSentimentAnalysis m w d :
  calendar_covers calendar (-30) 30 ->
  unit_draws (seed w) ->
  (forall prices,
     ~ answers inherited fetch currency (historyDays_of timeframe) prices) ->
  (0 <= d < futureDays_of timeframe)%Z ->
  returnsE (PredictionChart.fetchDataAndPredict inherited fetch printDay
              calendar currency timeframe useSentimentAnalysis (Fin m))
    w
    (fun st _ =>
       PredictionChart.fetchError st = None
       /\ exists row x half,
            nth_error (PredictionChart.chartData st)
              (Z.to_nat (historyDays_of timeframe) + 1 + Z.to_nat d)
            = Some row
            /\ PredictionData.actual row = #0
            /\ PredictionData.predicted row = Fin x
            /\ PredictionData.upperBound row = Fin (x + half)
            /\ PredictionData.lowerBound row = Fin (x - half)
            /\ (0 <= half)%R).
Proof.
  intros Hcal Hdraws Hno Hd.
  destruct (fetchDataAndPredict_outcome inherited fetch printDay calendar
              currency timeframe useSentimentAnalysis (Fin m) w Hcal)
    as (p & c & e & w' & Hrun & _ & _ & _ & Hnone & Hstart).
  destruct (Hstart Hno) as (x & -> & Hx).
  eexists _, _. split; [exact Hrun |].
  cbn [PredictionChart.fetchError PredictionChart.chartData].
  split; [apply Hnone; apply Hno |].
  apply chart_future_finite; [| exact Hdraws | lia].
  pose proof (mockFloor_pos currency). lra.
Qed.

Lemma X16_component_offline_chart_witness :
  returnsE (PredictionChart.fetchDataAndPredict (fun _ => None)
              (fun _ _ => None) (fun _ => "a day"%string)
              (fun _ => Some "a day"%string) "BTC" "30d" true (Fin 1.012))
    (mkWorld (fun _ => 0.5%R) 0 0)
    (fun st _ =>
       PredictionChart.fetchError st = None
       /\ exists row x half,
            nth_error (PredictionChart.chartData st)
              (Z.to_nat (historyDays_of "30d") + 1 + Z.to_nat 29)
            = Some row
            /\ PredictionData.actual row = #0
            /\ PredictionData.predicted row = Fin x
            /\ PredictionData.upperBound row = Fin (x + half)
            /\ PredictionData.lowerBound row = Fin (x - half)
            /\ (0 <= half)%R).
Proof.
  apply (X16_component_offline_chart (fun _ => None) (fun _ _ => None)
           (fun _ => "a day"%string) (fun _ => Some "a day"%string) "BTC" "30d"
           true 1.012 (mkWorld (fun _ => 0.5%R) 0 0) 29).
  - intros k _. discriminate.
  - intros k. cbn [seed]. lra.
  - intros prices (id & s & v & _ & H). discriminate H.
  - vm_compute. split; [discriminate | reflexivity].
Defined.

Lemma mock_rows_floor calendar symbol days draws c row :
  In row (map (mockRow calendar symbol days draws c)
            (seq 0 (Z.to_nat (days + 1)))) ->
  exists x, HistoricalPrice.price row = Fin x /\ (mockFloor symbol <= x)%R.
Proof.
  intros Hin. apply in_map_iff in Hin. destruct Hin as (k & <- & _).
  eexists. split; [reflexivity |]. apply mockPrice_floor.
Qed.

(** X17.  When the API answers and every time stamp of the answer can be
    printed, [fetchHistoricalPrices] returns one row for each
    [[timestamp, price]] pair, in order and with the price of the pair,
    and reads no array outside its bounds. *)
Theorem X17_history_answer inherited fetch printDay calendar symbol days w
  prices :
  answers inherited fetch symbol days prices ->
  Forall (fun tp => printable (fst tp)) prices ->
  returnsE (Api.fetchHistoricalPrices inherited fetch printDay calendar symbol
              days) w
    (fun rows w' =>
       map HistoricalPrice.price rows = map snd prices
       /\ len rows = len prices
       /\ seed w' = seed w /\ oob w' = oob w).
Proof.
  intros Hans Hall.
  destruct (fetchHistoricalPrices_cases inherited fetch printDay calendar
              symbol days w)
    as [(prices' & rows & w' & Hans' & _ & Hrun & Hrows & Hs & Ho)
       | (w1 & Hex & _)].
  - rewrite (answers_functional _ _ _ _ _ _ Hans' Hans) in Hrows.
    eexists _, _. split; [exact Hrun |].
    split; [exact Hrows |]. split; [| split; assumption].
    unfold len. apply (f_equal (@List.length number)) in Hrows.
    rewrite !length_map in Hrows. congruence.
  - exfalso. apply Hex in Hans.
    apply Exists_exists in Hans. destruct Hans as (tp & Hin & Hbad).
    rewrite Forall_forall in Hall. apply Hbad, Hall, Hin.
Qed.

Lemma X17_history_answer_witness :
  returnsE (Api.fetchHistoricalPrices (fun _ => None)
              (fun _ _ =>
                 Some (Response.mk true "200"
                         (Some (MarketChart.mk
                                  (Some [(#1700000000000, #64000);
                                         (#1700086400000, #65000)]) None))))
              (fun _ => "a day"%string) (fun _ => Some "a day"%string)
              "BTC" 7)
    (mkWorld (fun _ => 0.5%R) 0 0)
    (fun rows w' =>
       map HistoricalPrice.price rows
       = map snd [(#1700000000000, #64000); (#1700086400000, #65000)]
       /\ len rows = len [(#1700000000000, #64000); (#1700086400000, #65000)]
       /\ seed w' = (fun _ => 0.5%R) /\ oob w' = 0%nat).
Proof.
  apply (X17_history_answer (fun _ => None)
           (fun _ _ =>
              Some (Response.mk true "200"
                      (Some (MarketChart.mk
                               (Some [(#1700000000000, #64000);
                                      (#1700086400000, #65000)]) None))))
           (fun _ => "a day"%string) (fun _ => Some "a day"%string) "BTC" 7
           (mkWorld (fun _ => 0.5%R) 0 0)
           [(#1700000000000, #64000); (#1700086400000, #65000)]).
  - exists "bitcoin"%string, "200"%string, None. split; reflexivity.
  - repeat (constructor; [cbn [fst printable]; apply Rabs_le; lra |]).
    constructor.
Defined.

(** X18.  An answer of the API is used whole or not at all: when one of
    its time stamps cannot be printed (it is not a number, or beyond the
    range of [Date]), all of its prices are dropped and the rows are the
    [days + 1] rows of mock data, with prices at or above the floor of
    the symbol. *)
Theorem X18_history_bad_timestamp inherited fetch printDay calendar symbol
  days w prices :
  answers inherited fetch symbol days prices ->
  (-1 <= days)%Z -> calendar_covers calendar (- days) 0 ->
  Exists (fun tp => ~ printable (fst tp)) prices ->
  returnsE (Api.fetchHistoricalPrices inherited fetch printDay calendar
              symbol days) w
    (fun rows w' =>
       len rows = (days + 1)%Z
       /\ seed w' = seed w /\ oob w' = oob w
       /\ forall row,
            In row rows ->
            exists x,
              HistoricalPrice.price row = Fin x
              /\ ((if String.eqb symbol "BTC" then 10000 else 500) <= x)%R).
Proof.
  intros Hans Hdays Hcal Hex.
  destruct (fetchHistoricalPrices_cases inherited fetch printDay calendar
              symbol days w)
    as [(prices' & rows & w' & Hans' & Hall & _)
       | (w1 & _ & Hrun & Hs & Ho & _)].
  - exfalso. rewrite (answers_functional _ _ _ _ _ _ Hans' Hans) in Hall.
    apply Exists_exists in Hex. destruct Hex as (tp & Hin & Hbad).
    rewrite Forall_forall in Hall. apply Hbad, Hall, Hin.
  - rewrite mockHistoricalPrices_closed in Hrun by exact Hcal.
    eexists _, _. split; [exact Hrun |]. cbn [seed oob].
    split; [unfold len; rewrite length_map, length_seq; lia |].
    split; [exact Hs |]. split; [exact Ho |].
    intros row Hin. fold (mockFloor symbol).
    eapply mock_rows_floor. exact Hin.
Qed.

Lemma X18_history_bad_timestamp_witness :
  returnsE (Api.fetchHistoricalPrices (fun _ => None)
              (fun _ _ =>
                 Some (Response.mk true "200"
                         (Some (MarketChart.mk
                                  (Some [(#1700000000000, #64000);
                                         (NaN, #65000)]) None))))
              (fun _ => "a day"%string) (fun _ => Some "a day"%string)
              "ETH" 7)
    (mkWorld (fun _ => 0.5%R) 0 0)
    (fun rows w' =>
       len rows = (7 + 1)%Z
       /\ seed w' = (fun _ => 0.5%R) /\ oob w' = 0%nat
       /\ forall row,
            In row rows ->
            exists x,
              HistoricalPrice.price row = Fin x
              /\ ((if String.eqb "ETH" "BTC" then 10000 else 500) <= x)%R).
Proof.
  apply (X18_history_bad_timestamp (fun _ => None)
           (fun _ _ =>
              Some (Response.mk true "200"
                      (Some (MarketChart.mk
                               (Some [(#1700000000000, #64000);
                                      (NaN, #65000)]) None))))
           (fun _ => "a day"%string) (fun _ => Some "a day"%string) "ETH" 7
           (mkWorld (fun _ => 0.5%R) 0 0)
           [(#1700000000000, #64000); (NaN, #65000)]).
  - exists "ethereum"%string, "200"%string, None. split; reflexivity.
  - lia.
  - intros k _. discriminate.
  - apply Exists_cons_tl, Exists_cons_hd. cbn [fst printable]. tauto.
Defined.

(** ** The forecast does not depend on the unit of the prices *)

Ltac number_cases :=
  repeat match goal with
  | a : number |- _ => destruct a
  end;
  cbv [add sub mul div lift1 lift2 Math_pow];
  repeat match goal with
  | |- context [Req_dec_T ?a ?b] => destruct (Req_dec_T a b)
  end;
  try reflexivity.

Lemma ratio_scale k a b :
  k <> 0%R -> (Fin k * a - Fin k * b) / (Fin k * b) = (a - b) / b.
Proof.
  intros Hk. number_cases.
  - exfalso. apply Rmult_integral in e. tauto.
  - exfalso. subst. apply n. ring.
  - f_equal. field. split; assumption.
Qed.

Lemma div_scale k a b : (Fin k * a) / b = Fin k * (a / b).
Proof. number_cases. f_equal. field. assumption. Qed.

Lemma div_scale_both k a b :
  k <> 0%R -> (Fin k * a) / (Fin k * b) = a / b.
Proof.
  intros Hk. number_cases.
  - exfalso. apply Rmult_integral in e. tauto.
  - exfalso. subst. apply n. ring.
  - f_equal. field. split; assumption.
Qed.

Lemma mul_scale k a b : (Fin k * a) * b = Fin k * (a * b).
Proof. number_cases. f_equal. ring. Qed.

Lemma add_scale k a b : Fin k * a + Fin k * b = Fin k * (a + b).
Proof. number_cases. f_equal. ring. Qed.

Lemma sub_scale k a b : Fin k * a - Fin k * b = Fin k * (a - b).
Proof. number_cases. f_equal. ring. Qed.

Lemma sq_scale k a b :
  Math_pow (Fin k * a - Fin k * b) 2 = Fin (k * k) * Math_pow (a - b) 2.
Proof. number_cases. f_equal. ring. Qed.

Lemma sqrt_scale k v :
  (0 < k)%R -> Math_sqrt (Fin (k * k) * v) = Fin k * Math_sqrt v.
Proof.
  intros Hk. destruct v as [x |]; [| reflexivity].
  cbv [mul lift2 Math_sqrt].
  assert (Hkk : (0 < k * k)%R) by (apply Rmult_lt_0_compat; assumption).
  destruct (Rlt_dec (k * k * x) 0) as [H | H], (Rlt_dec x 0) as [Hx | Hx];
    try reflexivity.
  - exfalso. apply Hx.
    destruct (Rlt_le_dec x 0) as [Hl | Hl]; [exact Hl |].
    assert (0 <= k * k * x)%R by (apply Rmult_le_pos; lra). lra.
  - exfalso. apply H.
    assert (0 < k * k * (- x))%R by (apply Rmult_lt_0_compat; lra). lra.
  - f_equal. rewrite sqrt_mult_alt by lra.
    rewrite sqrt_square by lra. reflexivity.
Qed.

Lemma scale_length k xs : List.length (scale k xs) = List.length xs.
Proof. apply length_map. Qed.

Lemma scale_len k xs : len (scale k xs) = len xs.
Proof. unfold len. rewrite scale_length. reflexivity. Qed.

Lemma nth_scale k xs i : nth i (scale k xs) NaN = Fin k * nth i xs NaN.
Proof.
  unfold scale.
  change NaN with ((fun p => Fin k * p) NaN) at 1.
  apply map_nth.
Qed.

Lemma slice_last_scale k n xs :
  slice_last n (scale k xs) = scale k (slice_last n xs).
Proof.
  unfold slice_last, scale. rewrite length_map. apply skipn_map.
Qed.

Lemma get_scale k xs i w :
  get (scale k xs) i w
  = match get xs i w with
    | Ok a w' => Ok (Fin k * a) w'
    | Throw e w' => Throw e w'
    end.
Proof.
  unfold get. rewrite scale_len.
  destruct ((0 <=? i)%Z && (i <? len xs)%Z)%bool.
  - rewrite nth_scale. reflexivity.
  - reflexivity.
Qed.

Lemma get_returns xs i w : exists a w', get xs i w = Ok a w'.
Proof.
  unfold get. destruct ((0 <=? i)%Z && (i <? len xs)%Z)%bool;
    eexists _, _; reflexivity.
Qed.

Lemma get_value xs i w1 w2 a1 a2 w1' w2' :
  get xs i w1 = Ok a1 w1' -> get xs i w2 = Ok a2 w2' -> a1 = a2.
Proof.
  unfold get. destruct ((0 <=? i)%Z && (i <? len xs)%Z)%bool;
    intros H1 H2; injection H1 as <- _; injection H2 as <- _; reflexivity.
Qed.

(** A daily return read from the series, and what is made of it. *)
Lemma dailyReturn_scale {B : Type} k xs i j (K : number -> M B) w :
  k <> 0%R ->
  (p_i <- (scale k xs).[i] ;;
   p_prev <- (scale k xs).[j] ;;
   p_den <- (scale k xs).[j] ;;
   K ((p_i - p_prev) / p_den)) w
  = (p_i <- xs.[i] ;;
     p_prev <- xs.[j] ;;
     p_den <- xs.[j] ;;
     K ((p_i - p_prev) / p_den)) w.
Proof.
  intros Hk. unfold bind. rewrite get_scale.
  destruct (get_returns xs i w) as (a & w1 & Ha). rewrite Ha.
  rewrite get_scale.
  destruct (get_returns xs j w1) as (b & w2 & Hb). rewrite Hb.
  rewrite get_scale.
  destruct (get_returns xs j w2) as (b' & w3 & Hb'). rewrite Hb'.
  rewrite (get_value _ _ _ _ _ _ _ _ Hb' Hb).
  rewrite ratio_scale by exact Hk. reflexivity.
Qed.

(** The return over a window, read from its two ends. *)
Lemma windowReturn_scale {B : Type} k xs i j (K : number -> M B) w :
  k <> 0%R ->
  (firstPrice <- (scale k xs).[i] ;;
   lastPrice <- (scale k xs).[j] ;;
   K ((lastPrice - firstPrice) / firstPrice)) w
  = (firstPrice <- xs.[i] ;;
     lastPrice <- xs.[j] ;;
     K ((lastPrice - firstPrice) / firstPrice)) w.
Proof.
  intros Hk. unfold bind. rewrite get_scale.
  destruct (get_returns xs i w) as (a & w1 & Ha). rewrite Ha.
  rewrite get_scale.
  destruct (get_returns xs j w1) as (b & w2 & Hb). rewrite Hb.
  rewrite ratio_scale by exact Hk. reflexivity.
Qed.

Lemma for_range_ext {S : Type} (body1 body2 : Z -> S -> M S) lo hi acc w :
  (forall i s w', body1 i s w' = body2 i s w') ->
  for_range lo hi body1 acc w = for_range lo hi body2 acc w.
Proof. intros H. unfold for_range. apply for_from_ext. exact H. Qed.

Lemma bind_run {A B : Type} (m1 m2 : M A) (k : A -> M B) w :
  m1 w = m2 w -> bind m1 k w = bind m2 k w.
Proof. intros H. unfold bind. rewrite H. reflexivity. Qed.

Lemma Transformer_calculateTrend_scale k prices w :
  k <> 0%R ->
  TransformerModel.calculateTrend (scale k prices) w
  = TransformerModel.calculateTrend prices w.
Proof.
  intros Hk. unfold TransformerModel.calculateTrend.
  rewrite scale_len. destruct (len prices <? 2)%Z; [reflexivity |].
  cbv zeta. rewrite slice_last_scale, scale_len.
  apply bind_run. apply for_range_ext.
  intros i [weightedSum weightSum] w'.
  apply (dailyReturn_scale k (slice_last 14 prices) i (i - 1)
           (fun r =>
              ret (weightedSum + r * Math_exp (#0.1 * of_Z i),
                   weightSum + Math_exp (#0.1 * of_Z i)))).
  exact Hk.
Qed.

Lemma simple_trend_scale k (W : nat) (D : number) prices w :
  k <> 0%R ->
  (let recentPrices := slice_last W (scale k prices) in
   firstPrice <- recentPrices.[0] ;;
   lastPrice <- recentPrices.[len recentPrices - 1] ;;
   ret ((lastPrice - firstPrice) / firstPrice / D)) w
  = (let recentPrices := slice_last W prices in
     firstPrice <- recentPrices.[0] ;;
     lastPrice <- recentPrices.[len recentPrices - 1] ;;
     ret ((lastPrice - firstPrice) / firstPrice / D)) w.
Proof.
  intros Hk. cbv zeta. rewrite slice_last_scale, scale_len.
  apply (windowReturn_scale k (slice_last W prices) 0
           (len (slice_last W prices) - 1)
           (fun r => ret (r / D))).
  exact Hk.
Qed.

Lemma Transformer_calculateLongRangeTrend_scale k prices w :
  k <> 0%R ->
  TransformerModel.calculateLongRangeTrend (scale k prices) w
  = TransformerModel.calculateLongRangeTrend prices w.
Proof.
  intros Hk. unfold TransformerModel.calculateLongRangeTrend.
  rewrite scale_len. destruct (len prices <? 30)%Z.
  - apply Transformer_calculateTrend_scale. exact Hk.
  - apply (simple_trend_scale k 30 #30). exact Hk.
Qed.

Lemma RandomForest_calculateTrend_scale k prices w :
  k <> 0%R ->
  RandomForestModel.calculateTrend (scale k prices) w
  = RandomForestModel.calculateTrend prices w.
Proof.
  intros Hk. unfold RandomForestModel.calculateTrend.
  rewrite scale_len. destruct (len prices <? 10)%Z; [reflexivity |].
  apply (simple_trend_scale k 14 #14). exact Hk.
Qed.

Lemma XGBoost_calculateTrend_scale k prices w :
  k <> 0%R ->
  XGBoostModel.calculateTrend (scale k prices) w
  = XGBoostModel.calculateTrend prices w.
Proof.
  intros Hk. unfold XGBoostModel.calculateTrend.
  rewrite scale_len. destruct (len prices <? 10)%Z; [reflexivity |].
  apply (simple_trend_scale k 10 #10). exact Hk.
Qed.

Lemma BERT_calculateTrend_scale k prices w :
  k <> 0%R ->
  BERTModel.calculateTrend (scale k prices) w
  = BERTModel.calculateTrend prices w.
Proof.
  intros Hk. unfold BERTModel.calculateTrend.
  rewrite scale_len. destruct (len prices <? 5)%Z; [reflexivity |].
  apply (simple_trend_scale k 5 #5). exact Hk.
Qed.

Lemma returns_loop_scale k prices w :
  k <> 0%R ->
  for_range 1 (len prices)
    (fun i returns =>
       p_i <- (scale k prices).[i] ;;
       p_prev <- (scale k prices).[i - 1] ;;
       p_den <- (scale k prices).[i - 1] ;;
       ret (returns ++ [(p_i - p_prev) / p_den]))
    [] w
  = for_range 1 (len prices)
      (fun i returns =>
         p_i <- prices.[i] ;;
         p_prev <- prices.[i - 1] ;;
         p_den <- prices.[i - 1] ;;
         ret (returns ++ [(p_i - p_prev) / p_den]))
      [] w.
Proof.
  intros Hk. apply for_range_ext.
  intros i returns w'.
  apply (dailyReturn_scale k prices i (i - 1)
           (fun r => ret (returns ++ [r]))).
  exact Hk.
Qed.

Lemma RandomForest_calculateVolatility_scale k prices w :
  k <> 0%R ->
  RandomForestModel.calculateVolatility (scale k prices) w
  = RandomForestModel.calculateVolatility prices w.
Proof.
  intros Hk. unfold RandomForestModel.calculateVolatility.
  rewrite scale_len. destruct (len prices <? 2)%Z; [reflexivity |].
  apply bind_run. apply returns_loop_scale. exact Hk.
Qed.

Lemma XGBoost_calculateVolatility_scale k prices w :
  k <> 0%R ->
  XGBoostModel.calculateVolatility (scale k prices) w
  = XGBoostModel.calculateVolatility prices w.
Proof.
  intros Hk. unfold XGBoostModel.calculateVolatility.
  rewrite scale_len. destruct (len prices <? 2)%Z; [reflexivity |].
  apply bind_run. apply returns_loop_scale. exact Hk.
Qed.

Lemma Transformer_calculateVolatility_scale k prices w :
  k <> 0%R ->
  TransformerModel.calculateVolatility (scale k prices) w
  = TransformerModel.calculateVolatility prices w.
Proof.
  intros Hk. unfold TransformerModel.calculateVolatility.
  rewrite scale_len. destruct (len prices <? 2)%Z; [reflexivity |].
  apply bind_run. apply for_range_ext.
  intros i [returns weights] w'.
  apply (dailyReturn_scale k prices i (i - 1)
           (fun r =>
              ret (returns ++ [r], weights ++ [Math_exp (#0.1 * of_Z i)]))).
  exact Hk.
Qed.

Lemma lastPrice_of_scale k xs :
  lastPrice_of (scale k xs) = Fin k * lastPrice_of xs.
Proof. unfold lastPrice_of. rewrite scale_len. apply nth_scale. Qed.

Lemma after_model_scale k xs n w :
  after_model (scale k xs) n w = after_model xs n w.
Proof. unfold after_model. destruct xs; reflexivity. Qed.

Lemma after_models_scale s k xs n w :
  after_models s (scale k xs) n w = after_models s xs n w.
Proof. unfold after_models. destruct xs; reflexivity. Qed.

Lemma ar_price_scale f draws c k p0 j :
  ar_price f draws c (Fin k * p0) j = Fin k * ar_price f draws c p0 j.
Proof.
  induction j as [| j IH]; [reflexivity |].
  cbn [ar_price]. rewrite IH. apply mul_scale.
Qed.

Lemma ar_path_scale f draws c k p0 n :
  ar_path f draws c (Fin k * p0) n = scale k (ar_path f draws c p0 n).
Proof.
  unfold ar_path, scale. rewrite map_map. apply map_ext.
  intros j. apply ar_price_scale.
Qed.

Lemma Transformer_growth_scale k series :
  k <> 0%R -> Transformer_growth (scale k series) = Transformer_growth series.
Proof.
  intros Hk. unfold Transformer_growth, value_of.
  rewrite Transformer_calculateTrend_scale,
    Transformer_calculateVolatility_scale,
    Transformer_calculateLongRangeTrend_scale by exact Hk.
  reflexivity.
Qed.

Lemma RandomForest_growth_scale k series :
  k <> 0%R -> RandomForest_growth (scale k series) = RandomForest_growth series.
Proof.
  intros Hk. unfold RandomForest_growth, value_of.
  rewrite RandomForest_calculateTrend_scale,
    RandomForest_calculateVolatility_scale by exact Hk.
  reflexivity.
Qed.

Lemma XGBoost_growth_scale k series :
  k <> 0%R -> XGBoost_growth (scale k series) = XGBoost_growth series.
Proof.
  intros Hk. unfold XGBoost_growth, value_of.
  rewrite XGBoost_calculateTrend_scale,
    XGBoost_calculateVolatility_scale by exact Hk.
  reflexivity.
Qed.

Lemma BERT_growth_scale k series :
  k <> 0%R -> BERT_growth (scale k series) = BERT_growth series.
Proof.
  intros Hk. unfold BERT_growth, value_of.
  rewrite BERT_calculateTrend_scale by exact Hk.
  reflexivity.
Qed.

Lemma forecasts_scale s k series draws c n :
  k <> 0%R ->
  forecasts s (scale k series) draws c n
  = map (scale_prediction k) (forecasts s series draws c n).
Proof.
  intros Hk. unfold forecasts. cbv zeta.
  rewrite lastPrice_of_scale, !ar_path_scale.
  rewrite Transformer_growth_scale, RandomForest_growth_scale,
    XGBoost_growth_scale, BERT_growth_scale by exact Hk.
  reflexivity.
Qed.

Lemma zero_scale k : #0 = Fin k * #0.
Proof. cbv [mul lift2]. f_equal. ring. Qed.

Lemma weightedSum_of_scale k mps d :
  weightedSum_of (map (scale_prediction k) mps) d
  = Fin k * weightedSum_of mps d.
Proof.
  unfold weightedSum_of.
  enough (H : forall acc,
            fold_left
              (fun sum m =>
                 sum + nth (Z.to_nat d) (ModelPrediction.predictions m) NaN
                       * ModelPrediction.confidence m)
              (map (scale_prediction k) mps) (Fin k * acc)
            = Fin k
              * fold_left
                  (fun sum m =>
                     sum + nth (Z.to_nat d) (ModelPrediction.predictions m) NaN
                           * ModelPrediction.confidence m)
                  mps acc).
  { rewrite <- H. f_equal. apply zero_scale. }
  induction mps as [| m mps IH]; intros acc; [reflexivity |].
  cbn [map fold_left]. rewrite <- IH. f_equal.
  unfold scale_prediction at 1 2.
  cbn [ModelPrediction.predictions ModelPrediction.confidence].
  rewrite nth_scale, mul_scale, add_scale. reflexivity.
Qed.

Lemma totalWeight_of_scale k mps :
  totalWeight_of (map (scale_prediction k) mps) = totalWeight_of mps.
Proof.
  unfold totalWeight_of. generalize #0 as acc.
  induction mps as [| m mps IH]; intros acc; [reflexivity |].
  cbn [map fold_left]. rewrite IH. reflexivity.
Qed.

Lemma dayValues_scale k mps d :
  dayValues (map (scale_prediction k) mps) d = scale k (dayValues mps d).
Proof.
  unfold dayValues, scale. rewrite !map_map. apply map_ext.
  intros m. unfold scale_prediction. cbn [ModelPrediction.predictions].
  apply nth_scale.
Qed.

Lemma fold_add_scale k vs : forall acc,
  fold_left (fun sum val => sum + val) (scale k vs) (Fin k * acc)
  = Fin k * fold_left (fun sum val => sum + val) vs acc.
Proof.
  induction vs as [| v vs IH]; intros acc; [reflexivity |].
  cbn [scale map fold_left]. fold (scale k vs).
  rewrite add_scale. apply IH.
Qed.

Lemma fold_sq_scale k mean vs : forall acc,
  fold_left (fun sum val => sum + Math_pow (val - Fin k * mean) 2)
    (scale k vs) (Fin (k * k) * acc)
  = Fin (k * k)
    * fold_left (fun sum val => sum + Math_pow (val - mean) 2) vs acc.
Proof.
  induction vs as [| v vs IH]; intros acc; [reflexivity |].
  cbn [scale map fold_left]. fold (scale k vs).
  rewrite sq_scale, add_scale. apply IH.
Qed.

Lemma calculateVariance_scale k vs :
  EnsembleModel.calculateVariance (scale k vs)
  = Fin (k * k) * EnsembleModel.calculateVariance vs.
Proof.
  unfold EnsembleModel.calculateVariance. rewrite scale_len.
  assert (Hsum : fold_left (fun sum val => sum + val) (scale k vs) #0
                 = Fin k * fold_left (fun sum val => sum + val) vs #0).
  { rewrite <- fold_add_scale. f_equal. apply zero_scale. }
  rewrite Hsum, div_scale.
  set (mean := fold_left (fun sum val => sum + val) vs #0 / of_Z (len vs)).
  assert (Hsq : fold_left (fun sum val => sum + Math_pow (val - Fin k * mean) 2)
                  (scale k vs) #0
                = Fin (k * k)
                  * fold_left (fun sum val => sum + Math_pow (val - mean) 2)
                      vs #0).
  { rewrite <- fold_sq_scale. f_equal. apply zero_scale. }
  rewrite Hsq, div_scale. reflexivity.
Qed.

Lemma stdDev_of_scale k mps d :
  (0 < k)%R ->
  stdDev_of (map (scale_prediction k) mps) d = Fin k * stdDev_of mps d.
Proof.
  intros Hk. unfold stdDev_of.
  rewrite dayValues_scale, calculateVariance_scale.
  apply sqrt_scale. exact Hk.
Qed.

Lemma dayResult_scale k mps days volatilityFactor d :
  (0 < k)%R ->
  dayResult (map (scale_prediction k) mps) days volatilityFactor d
  = scale_result k (dayResult mps days volatilityFactor d).
Proof.
  intros Hk. unfold dayResult, scale_result. cbv zeta.
  cbn [PredictionResult.predicted PredictionResult.upperBound
       PredictionResult.lowerBound PredictionResult.confidence].
  rewrite weightedSum_of_scale, totalWeight_of_scale,
    stdDev_of_scale by exact Hk.
  rewrite div_scale, !mul_scale, add_scale, sub_scale.
  rewrite div_scale_both by lra. reflexivity.
Qed.

Lemma forecast_scale s k series days volatilityFactor draws c :
  (0 < k)%R ->
  forecast s (scale k series) days volatilityFactor draws c
  = map (scale_result k) (forecast s series days volatilityFactor draws c).
Proof.
  intros Hk. unfold forecast. rewrite map_map.
  rewrite forecasts_scale by lra.
  apply map_ext. intros j. apply dayResult_scale. exact Hk.
Qed.

Lemma ar_model_scale k m m' series days f w :
  ar_model m series days f -> ar_model m' (scale k series) days f ->
  exists path w',
    m w = Ok path w' /\ m' w = Ok (scale k path) w'.
Proof.
  intros H H'. eexists _, _. split; [apply H |].
  rewrite H', lastPrice_of_scale, ar_path_scale, after_model_scale.
  reflexivity.
Qed.

(** X19.  The forecast does not depend on the unit of the prices.  With
    every price of the series multiplied by [k > 0], and for a horizon
    from 0 to 4294967295, each of the five models returns its path
    multiplied by [k], and the ensemble returns,
    day by day, the predicted price and the two bounds multiplied by [k]
    and the same confidence; the draws taken and the final state of the
    generator are the same (exact real arithmetic). *)
Theorem X19_forecast_unit_free useSentimentAnalysis sentimentImpact series h
  volatilityFactor w k :
  (0 < k)%R -> (0 <= h <= 4294967295)%Z ->
  let this :=
    generatePredictionData_ensemble useSentimentAnalysis sentimentImpact in
  let scaled := map (fun p => Fin k * p) series in
  Forall (fun model =>
            forall w1, exists path w1',
              Model.predict model series h w1 = Ok path w1'
              /\ Model.predict model scaled h w1
                 = Ok (map (fun p => Fin k * p) path) w1')
         (EnsembleModel.models this)
  /\ exists results w',
       EnsembleModel.predict this series h volatilityFactor w = Ok results w'
       /\ EnsembleModel.predict this scaled h volatilityFactor w
          = Ok (map (fun r =>
                       PredictionResult.mk
                         (Fin k * PredictionResult.predicted r)
                         (Fin k * PredictionResult.upperBound r)
                         (Fin k * PredictionResult.lowerBound r)
                         (PredictionResult.confidence r))
                    results) w'.
Proof.
  intros Hk Hh this scaled. unfold this, scaled.
  fold (scale k series).
  rewrite generatePredictionData_ensemble_eq.
  set (s := sentiment_of useSentimentAnalysis sentimentImpact).
  assert (Hk0 : k <> 0%R) by lra.
  split.
  - unfold ensemble_with. cbn [EnsembleModel.models].
    repeat constructor; intros w1;
      cbn [Model.predict TransformerModel.model RandomForestModel.model
           XGBoostModel.model SentimentModel.model BERTModel.model].
    + apply (ar_model_scale k _ _ series h (Transformer_growth series));
        [apply Transformer_predict_path |].
      rewrite <- (Transformer_growth_scale k series Hk0).
      apply Transformer_predict_path.
    + apply (ar_model_scale k _ _ series h (RandomForest_growth series));
        [apply RandomForest_predict_path |].
      rewrite <- (RandomForest_growth_scale k series Hk0).
      apply RandomForest_predict_path.
    + apply (ar_model_scale k _ _ series h (XGBoost_growth series));
        [apply XGBoost_predict_path |].
      rewrite <- (XGBoost_growth_scale k series Hk0).
      apply XGBoost_predict_path.
    + eexists _, _. split; [apply Sentiment_predict_path; exact Hh |].
      rewrite Sentiment_predict_path by exact Hh.
      rewrite lastPrice_of_scale, ar_path_scale, after_model_scale.
      reflexivity.
    + apply (ar_model_scale k _ _ series h (BERT_growth series));
        [apply BERT_predict_path |].
      rewrite <- (BERT_growth_scale k series Hk0).
      apply BERT_predict_path.
  - eexists _, _. split; [apply predict_closed; exact Hh |].
    rewrite predict_closed by exact Hh.
    rewrite forecast_scale by exact Hk.
    rewrite after_models_scale. reflexivity.
Qed.

Lemma X19_forecast_unit_free_witness :
  let this := generatePredictionData_ensemble false #1 in
  let scaled := map (fun p => Fin 100 * p) [#640; #650] in
  Forall (fun model =>
            forall w1, exists path w1',
              Model.predict model [#640; #650] 7 w1 = Ok path w1'
              /\ Model.predict model scaled 7 w1
                 = Ok (map (fun p => Fin 100 * p) path) w1')
         (EnsembleModel.models this)
  /\ exists results w',
       EnsembleModel.predict this [#640; #650] 7 #0.9
         (mkWorld (fun _ => 0.5%R) 0 0) = Ok results w'
       /\ EnsembleModel.predict this scaled 7 #0.9
            (mkWorld (fun _ => 0.5%R) 0 0)
          = Ok (map (fun r =>
                       PredictionResult.mk
                         (Fin 100 * PredictionResult.predicted r)
                         (Fin 100 * PredictionResult.upperBound r)
                         (Fin 100 * PredictionResult.lowerBound r)
                         (PredictionResult.confidence r))
                    results) w'.
Proof.
  apply (X19_forecast_unit_free false #1 [#640; #650] 7 #0.9
           (mkWorld (fun _ => 0.5%R) 0 0) 100).
  - lra.
  - lia.
Defined.

Lemma walk_scale v draws c k p j :
  walk (Fin v) draws c (Fin k * p) j = Fin k * walk (Fin v) draws c p j.
Proof.
  induction j as [| j IH]; [reflexivity |].
  cbn [walk]. cbv zeta. rewrite IH.
  destruct (walk (Fin v) draws c p j) as [x |]; [| reflexivity].
  cbv [add sub mul lift2]. f_equal. ring.
Qed.

Lemma history_scale v draws c k p n :
  history (Fin v) draws c (Fin k * p) n
  = scale k (history (Fin v) draws c p n).
Proof.
  unfold history, scale. rewrite map_app, map_map. cbn [map].
  rewrite walk_scale. f_equal.
  apply map_ext. intros j. apply walk_scale.
Qed.

Lemma chart_scale calendar days startPrice currency timeframe
  useSentimentAnalysis sentimentImpact draws c k :
  (0 < k)%R ->
  chart calendar days (Fin k * startPrice) currency timeframe
    useSentimentAnalysis sentimentImpact draws c
  = map (scale_row k)
      (chart calendar days startPrice currency timeframe useSentimentAnalysis
         sentimentImpact draws c).
Proof.
  intros Hk. unfold chart. cbv zeta.
  rewrite !map_app. f_equal; [| f_equal].
  - unfold pastRows. rewrite map_map. apply map_ext. intros j.
    rewrite walk_scale. reflexivity.
  - cbn [map]. rewrite walk_scale. reflexivity.
  - rewrite history_scale, forecast_scale by exact Hk.
    unfold futureRows. rewrite !length_map, map_map.
    apply map_ext_in. intros j Hj. apply in_seq in Hj.
    rewrite (nth_indep _ _ (scale_result k (PredictionResult.mk NaN NaN NaN NaN)))
      by (rewrite length_map; lia).
    rewrite map_nth.
    unfold futureRow, scale_row, scale_result.
    cbn [PredictionData.date PredictionData.actual PredictionData.predicted
         PredictionData.upperBound PredictionData.lowerBound
         PredictionResult.predicted PredictionResult.upperBound
         PredictionResult.lowerBound].
    rewrite <- zero_scale. reflexivity.
Qed.

(** X20.  The chart does not depend on the unit of the start price: with
    the start price multiplied by [k > 0], [generatePredictionData]
    returns the same rows with every price multiplied by [k] (the
    [actual] of a forecast row stays 0), under the same dates and with
    the same draws. *)
Theorem X20_chart_unit_free calendar days startPrice currency timeframe
  useSentimentAnalysis sentimentImpact w k :
  calendar_covers calendar (- Z.max days 0) (futureDays_of timeframe) ->
  (0 < k)%R ->
  exists rows w',
    generatePredictionData calendar days startPrice currency timeframe
      useSentimentAnalysis sentimentImpact w = Try.Return rows w'
    /\ generatePredictionData calendar days (Fin k * startPrice) currency
         timeframe useSentimentAnalysis sentimentImpact w
       = Try.Return
           (map (fun row =>
                   PredictionData.mk (PredictionData.date row)
                     (Fin k * PredictionData.actual row)
                     (Fin k * PredictionData.predicted row)
                     (Fin k * PredictionData.upperBound row)
                     (Fin k * PredictionData.lowerBound row))
                rows) w'.
Proof.
  intros Hcal Hk. eexists _, _.
  split; [apply generatePredictionData_closed; exact Hcal |].
  rewrite generatePredictionData_closed by exact Hcal.
  rewrite chart_scale by exact Hk. reflexivity.
Qed.

Lemma X20_chart_unit_free_witness :
  exists rows w',
    generatePredictionData (fun _ => Some "a day"%string) 14 #650 "BTC" "7d"
      false #1 (mkWorld (fun _ => 0.5%R) 0 0) = Try.Return rows w'
    /\ generatePredictionData (fun _ => Some "a day"%string) 14
         (Fin 100 * #650) "BTC" "7d" false #1 (mkWorld (fun _ => 0.5%R) 0 0)
       = Try.Return
           (map (fun row =>
                   PredictionData.mk (PredictionData.date row)
                     (Fin 100 * PredictionData.actual row)
                     (Fin 100 * PredictionData.predicted row)
                     (Fin 100 * PredictionData.upperBound row)
                     (Fin 100 * PredictionData.lowerBound row))
                rows) w'.
Proof.
  apply (X20_chart_unit_free (fun _ => Some "a day"%string) 14 #650 "BTC" "7d"
           false #1 (mkWorld (fun _ => 0.5%R) 0 0) 100).
  - intros j _. discriminate.
  - lra.
Defined.

(** ** More on the ensemble and its models *)




Lemma random_sentiment_price draws c p k :
  unit_draws draws -> (0 < p)%R ->
  exists x,
    ar_price (Sentiment_factor (SentimentModel.new_ false #1)) draws c (Fin p) k
    = Fin x
    /\ (p * 0.992 ^ k <= x <= p * 1.012 ^ k)%R.
Proof.
  intros Hd Hp. induction k as [| k (x & IH & Hlo & Hhi)].
  - exists p. split; [reflexivity |]. cbn [pow]. lra.
  - cbn [ar_price]. rewrite IH.
    unfold Sentiment_factor. cbn [SentimentModel.useSentimentAPI].
    js_eval. eexists. split; [reflexivity |].
    pose proof (Hd (c + k)%nat) as Hr. cbn [pow].
    set (r := draws (c + k)%nat) in *.
    assert (H992 : (0 < p * 0.992 ^ k)%R)
      by (apply Rmult_lt_0_compat; [exact Hp | apply pow_lt; lra]).
    assert (Hx : (0 < x)%R) by lra.
    assert (Hf : (0.992 <= 1 + (r - 0.4) * 0.02 <= 1.012)%R) by lra.
    split.
    + apply Rle_trans with (x * 0.992)%R.
      * replace (p * (0.992 * 0.992 ^ k))%R with (p * 0.992 ^ k * 0.992)%R by ring.
        apply Rmult_le_compat_r; lra.
      * apply Rmult_le_compat_l; lra.
    + apply Rle_trans with (x * 1.012)%R.
      * apply Rmult_le_compat_l; lra.
      * replace (p * (1.012 * 1.012 ^ k))%R with (p * 1.012 ^ k * 1.012)%R by ring.
        apply Rmult_le_compat_r; lra.
Qed.

(** X22.  Without the sentiment API the sentiment model follows a random
    walk with an upward bias: each day's price is the previous one
    times [1 + (random - 0.4) * 0.02], between -0.8 % and +1.2 %.  From
    a positive last price and with draws in [[0, 1)], day [d] of a
    horizon of at most 4294967295 days lies between
    [last * 0.992^(d+1)] and [last * 1.012^(d+1)]; the model takes one
    draw for each day. *)
Theorem X22_random_sentiment_drift ps horizon d w :
  ps <> [] -> (0 < last ps 0)%R -> unit_draws (seed w) ->
  (horizon <= 4294967295)%Z -> (0 <= d < horizon)%Z ->
  exists path w' x,
    SentimentModel.predict (SentimentModel.new_ false #1) (prices_of ps)
      horizon w
    = Ok path w'
    /\ len path = horizon
    /\ cursor w' = (cursor w + Z.to_nat horizon)%nat
    /\ nth_error path (Z.to_nat d) = Some (Fin x)
    /\ (last ps 0 * 0.992 ^ (Z.to_nat d + 1) <= x
        <= last ps 0 * 1.012 ^ (Z.to_nat d + 1))%R.
Proof.
  intros Hne Hlast Hd Hmax Hk.
  destruct (random_sentiment_price (seed w) (cursor w) (last ps 0)
              (Datatypes.S (Z.to_nat d)) Hd Hlast) as (x & Hx & Hrange).
  eexists _, _, x. split; [apply Sentiment_predict_path; lia |].
  split; [unfold len; rewrite ar_path_length; lia |].
  split.
  { unfold after_model, sentiment_draws.
    cbn [SentimentModel.useSentimentAPI cursor]. reflexivity. }
  split.
  - unfold ar_path.
    rewrite (nth_error_map_seq
               (fun k => ar_price _ (seed w) (cursor w) _ (Datatypes.S k)))
      by lia.
    rewrite (lastPrice_of_prices ps Hne), Hx. reflexivity.
  - rewrite Nat.add_1_r. exact Hrange.
Qed.

Lemma X22_random_sentiment_drift_witness :
  exists path w' x,
    SentimentModel.predict (SentimentModel.new_ false #1)
      (prices_of [64000; 65000]%R) 7 (mkWorld (fun _ => 0.5%R) 0 0)
    = Ok path w'
    /\ len path = 7%Z
    /\ cursor w' = (0 + Z.to_nat 7)%nat
    /\ nth_error path (Z.to_nat 6) = Some (Fin x)
    /\ (last [64000; 65000]%R 0 * 0.992 ^ (Z.to_nat 6 + 1) <= x
        <= last [64000; 65000]%R 0 * 1.012 ^ (Z.to_nat 6 + 1))%R.
Proof.
  apply (X22_random_sentiment_drift [64000; 65000]%R 7 6
           (mkWorld (fun _ => 0.5%R) 0 0)).
  - discriminate.
  - cbn [last]. lra.
  - intros k. cbn [seed]. lra.
  - lia.
  - lia.
Defined.

(** X23.  A negative number of days is not rejected but fails late: the
    Transformer, Random Forest, XGBoost and BERT models return an empty
    path without a draw, the sentiment model throws the [RangeError] of
    [Array(days)] in either mode, and so does [EnsembleModel.predict],
    after the first three models have run. *)
Theorem X23_negative_horizon useSentimentAnalysis sentimentImpact series h
  volatilityFactor w :
  (h < 0)%Z -> series <> [] ->
  TransformerModel.predict series h w = Ok [] w
  /\ RandomForestModel.predict series h w = Ok [] w
  /\ XGBoostModel.predict series h w = Ok [] w
  /\ BERTModel.predict series h w = Ok [] w
  /\ (forall this, SentimentModel.predict this series h w = Throw RangeError w)
  /\ EnsembleModel.predict
       (generatePredictionData_ensemble useSentimentAnalysis sentimentImpact)
       series h volatilityFactor w
     = Throw RangeError w.
Proof.
  intros Hh Hne.
  assert (Hn : Z.to_nat h = 0%nat) by lia.
  assert (Hw : forall w0, after_model series 0 w0 = w0).
  { intros w0. unfold after_model. destruct series; [congruence |].
    rewrite Nat.add_0_r. apply world_eta. }
  assert (HT : forall w0, TransformerModel.predict series h w0 = Ok [] w0).
  { intros w0. rewrite Transformer_predict_path, Hn, Hw. reflexivity. }
  assert (HR : forall w0, RandomForestModel.predict series h w0 = Ok [] w0).
  { intros w0. rewrite RandomForest_predict_path, Hn, Hw. reflexivity. }
  assert (HX : forall w0, XGBoostModel.predict series h w0 = Ok [] w0).
  { intros w0. rewrite XGBoost_predict_path, Hn, Hw. reflexivity. }
  assert (HB : forall w0, BERTModel.predict series h w0 = Ok [] w0).
  { intros w0. rewrite BERT_predict_path, Hn, Hw. reflexivity. }
  assert (HS : forall this w0,
            SentimentModel.predict this series h w0 = Throw RangeError w0).
  { intros this w0. rewrite Sentiment_predict_negative, Hw by exact Hh.
    reflexivity. }
  repeat split; try apply HT; try apply HR; try apply HX; try apply HB.
  - intros this. apply HS.
  - rewrite generatePredictionData_ensemble_eq, predict_parts.
    unfold EnsembleModel.modelPredictions, ensemble_with.
    cbn [EnsembleModel.models mapM].
    cbn [Model.predict Model.name Model.confidence TransformerModel.model
         RandomForestModel.model XGBoostModel.model SentimentModel.model
         BERTModel.model].
    unfold bind at 1 2 3. rewrite HT. unfold ret at 1.
    unfold bind at 1 2 3. rewrite HR. unfold ret at 1.
    unfold bind at 1 2 3. rewrite HX. unfold ret at 1.
    unfold bind at 1 2 3. rewrite HS. reflexivity.
Qed.

Lemma X23_negative_horizon_witness :
  TransformerModel.predict [#100] (-1) (mkWorld (fun _ => 0.5%R) 0 0)
  = Ok [] (mkWorld (fun _ => 0.5%R) 0 0)
  /\ RandomForestModel.predict [#100] (-1) (mkWorld (fun _ => 0.5%R) 0 0)
     = Ok [] (mkWorld (fun _ => 0.5%R) 0 0)
  /\ XGBoostModel.predict [#100] (-1) (mkWorld (fun _ => 0.5%R) 0 0)
     = Ok [] (mkWorld (fun _ => 0.5%R) 0 0)
  /\ BERTModel.predict [#100] (-1) (mkWorld (fun _ => 0.5%R) 0 0)
     = Ok [] (mkWorld (fun _ => 0.5%R) 0 0)
  /\ (forall this,
        SentimentModel.predict this [#100] (-1) (mkWorld (fun _ => 0.5%R) 0 0)
        = Throw RangeError (mkWorld (fun _ => 0.5%R) 0 0))
  /\ EnsembleModel.predict (generatePredictionData_ensemble false #1)
       [#100] (-1) #1 (mkWorld (fun _ => 0.5%R) 0 0)
     = Throw RangeError (mkWorld (fun _ => 0.5%R) 0 0).
Proof.
  apply (X23_negative_horizon false #1 [#100] (-1) #1
           (mkWorld (fun _ => 0.5%R) 0 0)).
  - lia.
  - discriminate.
Defined.






(** ** The zoom of the charts *)

Lemma zoom_invariant (zoomIn_ zoomOut_ : number -> number) (lo hi : R) :
  (forall z, (lo <= z <= hi)%R ->
     exists z', zoomIn_ (Fin z) = Fin z' /\ (lo <= z' <= hi)%R) ->
  (forall z, (lo <= z <= hi)%R ->
     exists z', zoomOut_ (Fin z) = Fin z' /\ (lo <= z' <= hi)%R) ->
  forall clicks z, (lo <= z <= hi)%R ->
    exists z',
      fold_left
        (fun zoomLevel c =>
           match c with
           | Zoom.zoomIn => zoomIn_ zoomLevel
           | Zoom.zoomOut => zoomOut_ zoomLevel
           end)
        clicks (Fin z)
      = Fin z'
      /\ (lo <= z' <= hi)%R.
Proof.
  intros Hin Hout clicks.
  induction clicks as [| c clicks IH]; intros z Hz.
  - exists z. split; [reflexivity | exact Hz].
  - cbn [fold_left]. destruct c.
    + destruct (Hin z Hz) as (z1 & -> & Hz1). apply IH. exact Hz1.
    + destruct (Hout z Hz) as (z1 & -> & Hz1). apply IH. exact Hz1.
Qed.

(** X25.  The zoom level never leaves its range, whatever the sequence
    of clicks on the two zoom buttons: between 0.5 and 3 in
    [PredictionChart], so that the chart is between 150 and 900 pixels
    high, and between 0.5 and 2 in [PriceChart], between 150 and 600
    pixels. *)
Theorem X25_zoom_stays_in_range (clicks : list Zoom.click) :
  (exists z h,
     zoom_after PredictionChartZoom.handleZoomIn
       PredictionChartZoom.handleZoomOut clicks = Fin z
     /\ (0.5 <= z <= 3)%R
     /\ PredictionChartZoom.chartHeight (Fin z) = Fin h
     /\ (150 <= h <= 900)%R)
  /\ (exists z h,
        zoom_after PriceChartZoom.handleZoomIn PriceChartZoom.handleZoomOut
          clicks = Fin z
        /\ (0.5 <= z <= 2)%R
        /\ PriceChartZoom.getChartHeight (Fin z) = Fin h
        /\ (150 <= h <= 600)%R).
Proof.
  split.
  - destruct (zoom_invariant PredictionChartZoom.handleZoomIn
                PredictionChartZoom.handleZoomOut 0.5 3) with
      (clicks := clicks) (z := 1%R) as (z & Hz & Hrange).
    + intros z Hz. eexists. split; [reflexivity |].
      unfold Rmin. destruct (Rle_dec (z + 0.5) 3); lra.
    + intros z Hz. eexists. split; [reflexivity |].
      unfold Rmax. destruct (Rle_dec (z - 0.5) 0.5); lra.
    + lra.
    + exists z. eexists. split; [exact Hz |]. split; [exact Hrange |].
      split; [reflexivity | lra].
  - destruct (zoom_invariant PriceChartZoom.handleZoomIn
                PriceChartZoom.handleZoomOut 0.5 2) with
      (clicks := clicks) (z := 1%R) as (z & Hz & Hrange).
    + intros z Hz. eexists. split; [reflexivity |].
      unfold Rmin. destruct (Rle_dec (z + 0.25) 2); lra.
    + intros z Hz. eexists. split; [reflexivity |].
      unfold Rmax. destruct (Rle_dec (z - 0.25) 0.5); lra.
    + lra.
    + exists z. eexists. split; [exact Hz |]. split; [exact Hrange |].
      split; [reflexivity | lra].
Qed.

(** ** Token prices *)

Lemma find_none_all {A : Type} (f : A -> bool) (xs : list A) :
  Forall (fun x => f x = false) xs -> find f xs = None.
Proof.
  intros H. induction H as [| x xs Hx _ IH]; [reflexivity |].
  cbn [find]. rewrite Hx. exact IH.
Qed.

(** X26.  [fetchTokenPrices] never throws and returns one row for each
    symbol asked for, in the order asked, whatever the API does.  When
    the request fails or the response is not [ok], the rows carry the
    mock prices, 65432.18 for BTC, 3521.67 for ETH and 1 for any other
    symbol.  When the API answers, a symbol gets the price 0, its own
    symbol as name and none of the optional fields in three cases: it
    is one of BTC, ETH and USDC and no coin of the answer has its id;
    it is a key of the prototype of [coinGeckoIds]; or it is no key at
    all and every coin of the answer has an id.  A symbol that is no
    key at all is looked up under the id [undefined], and so gets the
    name and the price of the first coin of the answer that has no
    id. *)
Theorem X26_token_rows inherited fetch nowString symbols w :
  exists rows,
    Tokens.fetchTokenPrices inherited fetch nowString symbols w
    = Try.Return rows w
    /\ map TokenPriceData.symbol rows = symbols
    /\ ((fetch (Tokens.join (Tokens.ids_of inherited symbols)) = None
         \/ exists response,
              fetch (Tokens.join (Tokens.ids_of inherited symbols))
              = Some response
              /\ (Response.ok response = false
                  \/ Response.json response = None)) ->
        forall row, In row rows ->
          TokenPriceData.price row
          = (if String.eqb (TokenPriceData.symbol row) "BTC" then #65432.18
             else if String.eqb (TokenPriceData.symbol row) "ETH"
                  then #3521.67 else #1.0))
    /\ (forall status data,
          fetch (Tokens.join (Tokens.ids_of inherited symbols))
          = Some (Response.mk true status (Some data)) ->
          forall row, In row rows ->
            ((exists id,
                Tokens.ownId (TokenPriceData.symbol row) = Some id
                /\ Forall (fun coin => Coin.id coin <> Some id) data)
             \/ (Tokens.ownId (TokenPriceData.symbol row) = None
                 /\ inherited (TokenPriceData.symbol row) <> None)
             \/ (Tokens.ownId (TokenPriceData.symbol row) = None
                 /\ inherited (TokenPriceData.symbol row) = None
                 /\ Forall (fun coin => Coin.id coin <> None) data) ->
             row = TokenPriceData.mk (TokenPriceData.symbol row)
                     (TokenPriceData.symbol row) #0 None None None None
                     nowString)
            /\ (Tokens.ownId (TokenPriceData.symbol row) = None ->
                inherited (TokenPriceData.symbol row) = None ->
                forall coin,
                  find (fun coin => match Coin.id coin with
                                    | None => true
                                    | Some _ => false
                                    end) data = Some coin ->
                  TokenPriceData.name row = Coin.name coin
                  /\ TokenPriceData.price row = Coin.current_price coin)).
Proof.
  unfold Tokens.fetchTokenPrices, Try.try_catch. cbv zeta.
  set (ids := Tokens.join (Tokens.ids_of inherited symbols)).
  set (mock := map _ symbols).
  assert (Hmock : map TokenPriceData.symbol mock = symbols).
  { unfold mock. rewrite map_map. cbn [TokenPriceData.symbol]. apply map_id. }
  assert (Hprice : forall row, In row mock ->
            TokenPriceData.price row
            = (if String.eqb (TokenPriceData.symbol row) "BTC" then #65432.18
               else if String.eqb (TokenPriceData.symbol row) "ETH"
                    then #3521.67 else #1.0)).
  { intros row Hin. unfold mock in Hin. apply in_map_iff in Hin.
    destruct Hin as (symbol & <- & _). reflexivity. }
  destruct (fetch ids) as [[ok status json] |] eqn:Ef; cbn [await].
  2:{ rewrite bindE_throw. exists mock. split; [reflexivity |].
      split; [exact Hmock |]. split; [intros _; exact Hprice |].
      intros s d H. discriminate H. }
  rewrite bindE_ret. cbn [Response.ok Response.json Response.status].
  destruct ok; cbn [negb].
  2:{ exists mock. split; [reflexivity |].
      split; [exact Hmock |]. split; [intros _; exact Hprice |].
      intros s d H. discriminate H. }
  destruct json as [data |]; cbn [await].
  2:{ rewrite bindE_throw. exists mock. split; [reflexivity |].
      split; [exact Hmock |]. split; [intros _; exact Hprice |].
      intros s d H. discriminate H. }
  rewrite bindE_ret. unfold Try.ret.
  eexists. split; [reflexivity |].
  split.
  { rewrite map_map. rewrite <- (map_id symbols) at 2. apply map_ext.
    intros symbol.
    destruct (find (fun coin => Tokens.sameId coin
                                  (Tokens.coinId_of inherited symbol)) data);
      reflexivity. }
  split.
  { intros [H | (response & H & [Hok | Hjson])]; [discriminate H | |].
    - injection H as <-. discriminate Hok.
    - injection H as <-. discriminate Hjson. }
  intros s d H row Hin. injection H as _ <-.
  apply in_map_iff in Hin. destruct Hin as (symbol & <- & _).
  assert (Hsym : forall (found : option Coin.t),
            TokenPriceData.symbol
              match found with
              | None =>
                  TokenPriceData.mk symbol symbol #0 None None None None
                    nowString
              | Some coinData =>
                  TokenPriceData.mk symbol (Coin.name coinData)
                    (Coin.current_price coinData)
                    (Some (Coin.price_change_percentage_24h coinData))
                    (Some (Coin.price_change_percentage_7d_in_currency
                             coinData))
                    (Some (Coin.market_cap coinData))
                    (Some (Coin.total_volume coinData))
                    match Coin.last_updated coinData with
                    | Some (String a s0) => String a s0
                    | _ => nowString
                    end
              end = symbol) by (intros [coin |]; reflexivity).
  rewrite Hsym. split.
  - intros Hmiss.
    rewrite find_none_all; [reflexivity |].
    apply Forall_forall. intros coin Hc. unfold Tokens.sameId, Tokens.coinId_of.
    destruct Hmiss as [(id & Hown & Hall) | [(Hown & Hinh) | (Hown & Hinh & Hall)]];
      rewrite Hown.
    + rewrite Forall_forall in Hall. specialize (Hall coin Hc).
      destruct (Coin.id coin) as [i |]; [| reflexivity].
      destruct (String.eqb i id) eqn:E; [| reflexivity].
      apply String.eqb_eq in E. subst i. contradiction.
    + destruct (inherited symbol); [| contradiction].
      destruct (Coin.id coin); reflexivity.
    + rewrite Hinh. rewrite Forall_forall in Hall. specialize (Hall coin Hc).
      destruct (Coin.id coin); [reflexivity | contradiction].
  - intros Hown Hinh coin Hfind.
    assert (E : find (fun coin0 => Tokens.sameId coin0
                                     (Tokens.coinId_of inherited symbol)) data
                = Some coin).
    { rewrite <- Hfind. unfold Tokens.coinId_of. rewrite Hown, Hinh.
      clear. induction data as [| c data IH]; [reflexivity |].
      cbn [find]. unfold Tokens.sameId at 1.
      destruct (Coin.id c); [exact IH | reflexivity]. }
    rewrite E. split; reflexivity.
Qed.

(** ** The stand-alone transformer *)









